(** * Partial-label trainer: candidate generation check, confidence
    initialisation, data loading, trainer construction, evaluation and
    checkpoint loading.

    Shallow embedding of [src/datasets/fgvc100.py] and
    [src/trainer_idpll.py].

    - Tensor entries are exact rationals; the result of a tensor division
      is a rational extended with the IEEE special values (infinities and
      NaN), so that [x / 0] is represented and not hidden.
    - A Python object ([self]) is its attribute dictionary, a finite map
      from attribute names to values; reading a name that was never
      assigned raises [AttributeError].
    - Methods run in a state-and-error monad over the attribute dictionary
      and a chronological log of observable effects (printed lines, device
      allocations, head re-initialisations).
    - Code that lives outside the two source files (dataset classes, model
      classes, the algorithm registry, the evaluator, the candidate
      generator) is taken as a parameter, gathered in the records [FgvcEnv]
      and [Env]. *)

From Stdlib Require Import QArith Qabs ZArith List Ascii String Bool Lia Permutation.
From stdpp Require Import gmap strings list fin_maps pretty.
Import ListNotations.

Local Open Scope string_scope.
Local Open Scope list_scope.
Local Open Scope nat_scope.

(** ** Exceptions, effects and the method monad *)

Inductive exn : Type :=
| AssertionError
| AttributeError (name : string)
| UnboundLocalError (name : string)
| KeyError (key : string)
| IndexError
| TypeError (msg : string)
| ValueError (msg : string)
| RuntimeError (msg : string)
| ZeroDivisionError
| FileNotFoundError (path : string)
| NotImplementedError (msg : string).

Inductive result (A : Type) : Type :=
| Ok (a : A)
| Raise (e : exn).
Arguments Ok {A} a.
Arguments Raise {A} e.

Definition is_ok {A} (r : result A) : bool :=
  match r with Ok _ => true | Raise _ => false end.

(** Observable effects, in the order in which they happen. *)
Inductive event : Type :=
| EPrint (line : string)
| ESetDevice (gpu : Z)            (* torch.cuda.set_device *)
| ECuda (what : string)           (* .cuda() / .to(device): accelerator memory *)
| EEmptyCache                     (* torch.cuda.empty_cache() *)
| EApplyWeight (how : string)     (* head.apply_weight(...) *)
| EAddScalar (tag : string).      (* tensorboard writer *)

(** A call that claims accelerator resources: selecting a CUDA device
    (which creates its context) or moving a module or a tensor to it. *)
Definition is_cuda (e : event) : bool :=
  match e with ECuda _ | ESetDevice _ => true | _ => false end.

Definition is_apply_weight (e : event) : bool :=
  match e with EApplyWeight _ => true | _ => false end.

(** ** Tensor entries *)

(** Result of a floating division, over exact rationals. *)
Inductive fval : Type :=
| Fin (q : Q)
| PInf
| NInf
| NaN.

(** [a / b] on finite operands, with the IEEE results for a zero divisor. *)
Definition float_div (a b : Q) : fval :=
  if Qeq_bool b 0 then
    if Qeq_bool a 0 then NaN
    else if Qle_bool 0 a then PInf else NInf
  else Fin (a / b).

Definition fadd (x y : fval) : fval :=
  match x, y with
  | NaN, _ | _, NaN => NaN
  | PInf, NInf | NInf, PInf => NaN
  | PInf, _ | _, PInf => PInf
  | NInf, _ | _, NInf => NInf
  | Fin a, Fin b => Fin (a + b)
  end.

Definition fsum (l : list fval) : fval := fold_right fadd (Fin 0) l.

(** Equality of entries up to the representation of the rational. *)
Definition feq (x y : fval) : Prop :=
  match x, y with
  | Fin a, Fin b => a == b
  | PInf, PInf | NInf, NInf | NaN, NaN => True
  | _, _ => False
  end.

(** A rounding to a floating-point format of unit roundoff [u]: every value
    is stored with a relative error of at most [u]. *)
Definition rounding (u : Q) (rnd : Q -> Q) : Prop :=
  forall x, (Qabs (rnd x - x) <= u * Qabs x)%Q.

(** The entry that such a format stores for the exact result [v]. *)
Definition fround (rnd : Q -> Q) (v : fval) : fval :=
  match v with
  | Fin q => Fin (rnd q)
  | _ => v
  end.

(** A 2-D tensor as the list of its rows. *)
Definition matrix : Type := list (list Q).

(** [m.shape[1]] *)
Definition ncols (m : matrix) : nat :=
  match m with
  | [] => 0
  | r :: _ => length r
  end.

Definition rectangular (m : matrix) : Prop :=
  Forall (fun r => length r = ncols m) m.

(** [r.sum()] *)
Definition rsum (r : list Q) : Q := fold_right Qplus 0%Q r.

(** [m.sum()] over every entry. *)
Definition tensor_sum (m : matrix) : Q := rsum (map rsum m).

(** Entry-wise product of two tensors of one shape. *)
Definition hadamard (a b : matrix) : matrix :=
  zip_with (zip_with Qmult) a b.

(** Entries are 0.0 or 1.0. *)
Definition binary_row (r : list Q) : Prop :=
  Forall (fun x => x = 0%Q \/ x = 1%Q) r.
Definition binary (m : matrix) : Prop := Forall binary_row m.

(** Number of candidates of a row. *)
Definition candidate_count (r : list Q) : nat :=
  length (List.filter (fun x => Qeq_bool x 1) r).

(** ** Confidence initialisation ([build_criterion], lines 302-303) *)

(** [tempY = partialY.sum(dim=1).unsqueeze(1).repeat(1, partialY.shape[1])] *)
Definition tempY (partialY : matrix) : matrix :=
  map (fun r => repeat (rsum r) (ncols partialY)) partialY.

(** [confidence = partialY.float() / tempY] *)
Definition uniform_targets (partialY : matrix) : list (list fval) :=
  zip_with (zip_with float_div) partialY (tempY partialY).

(** ** Data sets and data loaders *)

(** An image after [ToTensor] and [Normalize]: its c*h*w values. *)
Definition Image : Type := list Q.

(** One item of the test set after [transform_test]: the stack of crops and
    the label. *)
Definition TestSample : Type := (list Image * nat)%type.

(** One item of [FGVC100_Partialize.__getitem__], without the two augmented
    views (pixels of the training images are not modelled): candidate row,
    true label, index. *)
Record TrainSample : Type := mkTrainSample {
  each_label : list Q;
  each_true_label : nat;
  index : nat }.

(** A map-style data set: [__len__] and [__getitem__]. *)
Record Dataset (A : Type) : Type := mkDataset {
  ds_len : nat;
  ds_getitem : nat -> result A }.
Arguments mkDataset {A} ds_len ds_getitem.
Arguments ds_len {A} d.
Arguments ds_getitem {A} d i.

Record DataLoader (A : Type) : Type := mkDataLoader {
  dl_dataset : Dataset A;
  dl_batch_size : nat;
  dl_shuffle : bool;
  dl_drop_last : bool }.
Arguments mkDataLoader {A} dl_dataset dl_batch_size dl_shuffle dl_drop_last.
Arguments dl_dataset {A} d.
Arguments dl_batch_size {A} d.
Arguments dl_shuffle {A} d.
Arguments dl_drop_last {A} d.

(** [torch.utils.data.DataLoader(dataset, batch_size, shuffle, drop_last)];
    the constructor refuses a batch size that is not positive. *)
Definition make_loader {A} (dataset : Dataset A) (batch_size : Z)
    (shuffle drop_last : bool) : result (DataLoader A) :=
  if (batch_size <=? 0)%Z
  then Raise (ValueError "batch_size should be a positive integer value")
  else Ok (mkDataLoader dataset (Z.to_nat batch_size) shuffle drop_last).

(** [BatchSampler.__iter__]: indices are appended to the current batch, a
    batch is yielded when it is full, and what is left at the end is yielded
    only when [drop_last] is off. *)
Fixpoint batch_sampler (batch_size : nat) (drop_last : bool)
    (batch : list nat) (sampler : list nat) : list (list nat) :=
  match sampler with
  | [] =>
      if drop_last then []
      else match batch with [] => [] | _ :: _ => [batch] end
  | idx :: rest =>
      let batch' := batch ++ [idx] in
      if length batch' =? batch_size
      then batch' :: batch_sampler batch_size drop_last [] rest
      else batch_sampler batch_size drop_last batch' rest
  end.

(** The order in which one epoch visits the data set: [range(len)] for a
    sequential sampler, the permutation drawn by [torch.randperm] (given as
    [perm]) for a random one. *)
Definition sampler_order {A} (dl : DataLoader A) (perm : list nat) : list nat :=
  if dl_shuffle dl then perm else seq 0 (ds_len (dl_dataset dl)).

(** The index batches of one epoch. *)
Definition epoch_indices {A} (dl : DataLoader A) (perm : list nat)
  : list (list nat) :=
  batch_sampler (dl_batch_size dl) (dl_drop_last dl) [] (sampler_order dl perm).

Fixpoint fetch {A} (d : Dataset A) (idxs : list nat) : result (list A) :=
  match idxs with
  | [] => Ok []
  | i :: rest =>
      match ds_getitem d i with
      | Raise e => Raise e
      | Ok x =>
          match fetch d rest with
          | Raise e => Raise e
          | Ok xs => Ok (x :: xs)
          end
      end
  end.

(** [class FGVC100_Partialize(Dataset)] *)
Record FGVC100_Partialize : Type := mkPartialize {
  image_files : list string;
  labels : list nat;
  given_partial_label_matrix : matrix;
  true_labels : list nat }.

(** [FGVC100_Partialize.__len__] *)
Definition Partialize_len (d : FGVC100_Partialize) : nat :=
  length (true_labels d).

(** [FGVC100_Partialize.__getitem__], statement by statement. Lines 90-93
    (the file is opened and converted, then put through the weak and the
    strong augmentation) depend on the file system and on random draws:
    [load_views] tells whether they raise for a file; the two views are not
    kept. *)
Definition Partialize_getitem (load_views : string -> result unit)
    (d : FGVC100_Partialize) (i : nat) : result TrainSample :=
  match image_files d !! i with
  | None => Raise IndexError
  | Some image_file =>
      match labels d !! i with
      | None => Raise IndexError
      | Some _ =>
          match load_views image_file with
          | Raise e => Raise e
          | Ok _ =>
              match given_partial_label_matrix d !! i with
              | None => Raise IndexError
              | Some row =>
                  match true_labels d !! i with
                  | None => Raise IndexError
                  | Some y => Ok (mkTrainSample row y i)
                  end
              end
          end
      end
  end.

Definition Partialize_dataset (load_views : string -> result unit)
    (d : FGVC100_Partialize) : Dataset TrainSample :=
  mkDataset (Partialize_len d) (Partialize_getitem load_views d).

(** ** The generation check of [load_fgvc100] (lines 43-46) *)

(** A row of zeros with a one at the label. *)
Definition one_hot_row (ncol y : nat) : list Q :=
  map (fun j => if j =? y then 1%Q else 0%Q) (seq 0 ncol).

(** The positions addressed by [t[rows, cols]] for two one-dimensional index
    tensors: the two are broadcast against each other, which needs equal
    lengths or one of them of length one. *)
Definition broadcast_indices (rows cols : list nat) : option (list (nat * nat)) :=
  if length rows =? length cols then Some (combine rows cols)
  else if length rows =? 1 then Some (map (fun c => (hd 0 rows, c)) cols)
  else if length cols =? 1 then Some (map (fun r => (r, hd 0 cols)) rows)
  else None.

(** A tensor of zeros of shape [nrows; ncol] with a one at every position of
    [idx]. *)
Definition scatter_ones (nrows ncol : nat) (idx : list (nat * nat)) : matrix :=
  map (fun r =>
         map (fun j => if existsb (fun p => (fst p =? r) && (j =? snd p)) idx
                       then 1%Q else 0%Q)
             (seq 0 ncol))
      (seq 0 nrows).

(** [temp = zeros(shape); temp[arange(shape[0]), ori_labels] = 1]: the row
    indices and the labels are broadcast, and every label that is used must
    lie inside the row. *)
Definition true_label_one_hot (nrows ncol : nat) (ori_labels : list nat)
  : result matrix :=
  match broadcast_indices (seq 0 nrows) ori_labels with
  | None => Raise IndexError
  | Some idx =>
      if forallb (fun p => snd p <? ncol) idx
      then Ok (scatter_ones nrows ncol idx)
      else Raise IndexError
  end.

(** [torch.sum(partialY_matrix * temp) == partialY_matrix.shape[0]] *)
Definition generation_check (partialY_matrix temp : matrix) : bool :=
  Qeq_bool (tensor_sum (hadamard partialY_matrix temp))
           (inject_Z (Z.of_nat (length partialY_matrix))).

(** ** Model outputs: dense tensors and Python tuples *)

Record Tensor : Type := mkTensor {
  shape : list nat;
  data : list Q }.

Definition numel (t : Tensor) : nat := length (data t).

(** What a call of the network returns: a tensor, or a tuple of values. *)
#[warnings="-register-all"] Inductive pyval : Type :=
| VTensor (t : Tensor)
| VTuple (l : list pyval).

(** [a, b = v]: a tuple must have two components; a tensor is iterated along
    its first dimension, which must have size two. *)
Definition unpack2 (v : pyval) : result (pyval * pyval) :=
  match v with
  | VTuple [a; b] => Ok (a, b)
  | VTuple [] | VTuple [_] => Raise (ValueError "not enough values to unpack")
  | VTuple _ => Raise (ValueError "too many values to unpack")
  | VTensor t =>
      match shape t with
      | [] => Raise (TypeError "iteration over a 0-d tensor")
      | n :: rest =>
          let k := fold_right Nat.mul 1 rest in
          if n =? 2
          then Ok (VTensor (mkTensor rest (firstn k (data t))),
                   VTensor (mkTensor rest (firstn k (skipn k (data t)))))
          else if n <? 2
          then Raise (ValueError "not enough values to unpack")
          else Raise (ValueError "too many values to unpack")
      end
  end.

(** [v.view(b, n, -1)] *)
Definition view3 (v : pyval) (b n : nat) : result Tensor :=
  match v with
  | VTuple _ => Raise (AttributeError "view")
  | VTensor t =>
      if (b * n =? 0) || negb (numel t mod (b * n) =? 0)
      then Raise (RuntimeError "shape is invalid for input size")
      else Ok (mkTensor [b; n; numel t / (b * n)] (data t))
  end.

(** Sum of the [n] entries [l[start], l[start + stride], ...]. *)
Fixpoint strided_sum (l : list Q) (start stride n : nat) : Q :=
  match n with
  | 0 => 0%Q
  | S n' => (nth start l 0%Q + strided_sum l (start + stride) stride n')%Q
  end.

(** [t.mean(dim=1)] of a tensor of shape [b; n; k], [n >= 1]. *)
Definition mean_dim1 (t : Tensor) : Tensor :=
  match shape t with
  | [b; n; k] =>
      mkTensor [b; k]
        (flat_map (fun i =>
           map (fun j => (strided_sum (data t) (i * n * k + j) k n
                          / inject_Z (Z.of_nat n))%Q)
               (seq 0 k))
           (seq 0 b))
  | _ => t
  end.

(** [t.mean(dim=0)] of a tensor of shape [n :: rest], [n >= 1]. *)
Definition mean_dim0 (t : Tensor) : Tensor :=
  match shape t with
  | n :: rest =>
      let r := fold_right Nat.mul 1 rest in
      mkTensor rest
        (map (fun j => (strided_sum (data t) j r n / inject_Z (Z.of_nat n))%Q)
             (seq 0 r))
  | [] => t
  end.

Definition shape_eqb (s1 s2 : list nat) : bool :=
  bool_decide (s1 = s2).

(** [torch.stack(l)]: every element must be a tensor, all of one shape. *)
Fixpoint stack_data (sh : list nat) (l : list pyval) : result (list Q) :=
  match l with
  | [] => Ok []
  | VTuple _ :: _ =>
      Raise (TypeError "expected Tensor as element of argument tensors, but got tuple")
  | VTensor t :: rest =>
      if shape_eqb (shape t) sh
      then match stack_data sh rest with
           | Ok d => Ok (data t ++ d)
           | Raise e => Raise e
           end
      else Raise (RuntimeError "stack expects each tensor to be equal size")
  end.

Definition torch_stack (l : list pyval) : result Tensor :=
  match l with
  | [] => Raise (RuntimeError "stack expects a non-empty TensorList")
  | VTuple _ :: _ =>
      Raise (TypeError "expected Tensor as element of argument tensors, but got tuple")
  | VTensor t :: _ =>
      match stack_data (shape t) l with
      | Ok d => Ok (mkTensor (length l :: shape t) d)
      | Raise e => Raise e
      end
  end.

(** ** Modules, networks, configuration *)

(** A trainable module: its [state_dict] and its mode ([training], which
    [eval()] switches off). *)
Record NNModule : Type := mkModule {
  state_dict : gmap string Tensor;
  training : bool }.

(** A network built by one of the model classes: its forward function and
    the sub-modules the trainer reads from it. *)
Record Model : Type := mkModel {
  forward : list Image -> pyval;
  model_tuner : option NNModule;
  model_head : option NNModule;
  model_neck : option NNModule;
  has_encode_text : bool }.

Record Cfg : Type := mkCfg {
  gpu : option Z;
  backbone : string;
  prec : string;
  tte : bool;
  tte_mode : string;
  randaug_times : Z;
  test_train : bool;
  test_only : bool;
  zero_shot : bool;
  dataset : string;
  batch_size : Z;
  micro_batch_size : Z;
  loss_type : string;
  init_head : string;
  prompt : string;
  output_dir : string }.

(** The test-time transform chosen by [build_data_loader]. *)
Inductive TestTransform : Type :=
| FiveCrop
| TenCrop
| RandAug (times : Z)
| CenterCrop.

(** ** Python objects as attribute dictionaries *)

Inductive pyobj : Type :=
| PNone
| PInt (z : Z)
| PStrList (l : list string)
| PDevice (d : string)
| PCfg (c : Cfg)
| PTensor (m : matrix)
| PConfidence (m : list (list fval))
| PTrainLoader (dl : DataLoader TrainSample)
| PTestLoader (dl : DataLoader TestSample)
| PModel (m : Model)
| PModule (m : NNModule)
| PEvaluator (seen : list (Tensor * list nat))
| POpaque (cls : string).

Record world : Type := mkWorld {
  self : gmap string pyobj;
  out : list event }.

(** A freshly allocated object, before [__init__] runs. *)
Definition fresh : world := mkWorld ∅ [].

(** Methods: state over the object and the effect log, with exceptions. The
    state reached when an exception is raised is kept. *)
Definition M (A : Type) : Type := world -> world * result A.

Definition ret {A} (a : A) : M A := fun w => (w, Ok a).

Definition bind {A B} (m : M A) (f : A -> M B) : M B :=
  fun w =>
    match m w with
    | (w', Ok a) => f a w'
    | (w', Raise e) => (w', Raise e)
    end.

Definition raise {A} (e : exn) : M A := fun w => (w, Raise e).

Definition lift {A} (r : result A) : M A := fun w => (w, r).

Definition emit (e : event) : M unit :=
  fun w => (mkWorld (self w) (out w ++ [e]), Ok tt).

(** [self.name = v] *)
Definition setattr (name : string) (v : pyobj) : M unit :=
  fun w => (mkWorld (<[name := v]> (self w)) (out w), Ok tt).

(** [self.name] *)
Definition getattr (name : string) : M pyobj :=
  fun w =>
    match self w !! name with
    | Some v => (w, Ok v)
    | None => (w, Raise (AttributeError name))
    end.

Notation "x <- m ;; k" := (bind m (fun x => k))
  (at level 100, m at next level, right associativity).
Notation "m ;;; k" := (bind m (fun _ => k))
  (at level 100, right associativity).

Definition print (line : string) : M unit := emit (EPrint line).

(** ** The world outside the two source files *)

(** What a data-set loader returns (the six values of [load_fgvc100]). *)
Record LoaderBundle : Type := mkBundle {
  b_train_loader : DataLoader TrainSample;
  b_partialY : matrix;
  b_test_loader : DataLoader TestSample;
  b_num_instances : nat;
  b_num_classes : nat;
  b_classnames : list string }.

(** What [load_fgvc100] reads from outside: the FGVC-Aircraft files, the
    class-name list, the oracle checkpoint and the candidate generator of
    [utils.util]. *)
Record FgvcEnv : Type := mkFgvcEnv {
  fgvc_image_files : list string;          (* original_train._image_files *)
  fgvc_labels : list nat;                  (* original_train._labels *)
  fgvc_classnames : option (list string);  (* lines of fgvc100.txt, if it opens *)
  fgvc_load_views : string -> result unit; (* PIL.Image.open and the augmentations *)
  fgvc_test : TestTransform -> Dataset TestSample;
  fgvc_weights : bool;                     (* weights/fgvc100.pt loads *)
  generate_instancedependent_candidate_labels : list nat -> Q -> matrix }.

(** Effects a sibling loader may have. *)
Inductive loader_event : Type :=
| LPrint (line : string)
| LCuda (what : string).

Definition loader_event_to_event (e : loader_event) : event :=
  match e with
  | LPrint s => EPrint s
  | LCuda s => ECuda s
  end.

(** A saved checkpoint: named state blobs. *)
Abbreviation Checkpoint := (gmap string (gmap string Tensor)).

Record Env : Type := mkEnv {
  cuda_available : bool;
  device_count : nat;
  fgvc_env : FgvcEnv;
  load_cub200 : Cfg -> TestTransform -> list loader_event * result LoaderBundle;
  load_cars196 : Cfg -> TestTransform -> list loader_event * result LoaderBundle;
  load_dogs120 : Cfg -> TestTransform -> list loader_event * result LoaderBundle;
  clip_MODELS : string -> bool;            (* keys of clip._MODELS *)
  clip_build : string -> result unit;      (* download, load, build_model *)
  timm_build : string -> result unit;      (* vit_*_patch16_*(pretrained=True) *)
  ZeroShotCLIP : result Model;
  PeftModelFromCLIP_MLP : Cfg -> nat -> result Model;
  PeftModelFromCLIP : Cfg -> nat -> result Model;
  PeftModelFromViT : Cfg -> nat -> result Model;
  get_algorithm_class : string -> result string;
  ZEROSHOT_TEMPLATES_imagenet : list string;
  descriptors_imagenet : option (gmap string (list string));
  evaluate : list (Tensor * list nat) -> list (string * Q);
  files : gmap string Checkpoint }.

(** ** [load_fgvc100] *)

Definition lift_loader {A} (r : list loader_event * result A) : M A :=
  fun w => (mkWorld (self w) (out w ++ map loader_event_to_event (fst r)), snd r).

(** [x.cuda()] *)
Definition cuda (env_cuda : bool) (what : string) : M unit :=
  if env_cuda then emit (ECuda what)
  else raise (RuntimeError "No CUDA GPUs are available").

Definition load_fgvc100 (env_cuda : bool) (e : FgvcEnv) (cfg : Cfg)
    (transform_test : TestTransform) : M LoaderBundle :=
  (* original_full_loader, batch_size=len(original_train) *)
  _ <- lift (make_loader (mkDataset (length (fgvc_labels e)) (fun _ => Ok tt))
                         (Z.of_nat (length (fgvc_labels e))) false false) ;;
  let ori_labels := fgvc_labels e in
  let num_instances := length (fgvc_labels e) in
  classnames <- lift (match fgvc_classnames e with
                      | Some l => Ok l
                      | None => Raise (FileNotFoundError
                          "/home/hekuang/LIFT-main/LIFT2/data/classnames/fgvc100.txt")
                      end) ;;
  let num_classes := length classnames in
  print (pretty num_classes) ;;;
  test_loader <- lift (make_loader (fgvc_test e transform_test)
                                   (batch_size cfg) false false) ;;
  cuda env_cuda "wide_resnet50_2" ;;;
  (if fgvc_weights e then ret tt
   else raise (FileNotFoundError "weights/fgvc100.pt")) ;;;
  let partialY_matrix :=
    generate_instancedependent_candidate_labels e ori_labels (1 # 10)%Q in
  temp <- lift (true_label_one_hot (length partialY_matrix)
                                   (ncols partialY_matrix) ori_labels) ;;
  (if generation_check partialY_matrix temp
   then print "data loading done !"
   else ret tt) ;;;
  let partial_training_dataset :=
    mkPartialize (fgvc_image_files e) (fgvc_labels e) partialY_matrix ori_labels in
  partial_training_dataloader <-
    lift (make_loader (Partialize_dataset (fgvc_load_views e)
                                          partial_training_dataset)
                      (batch_size cfg) true true) ;;
  ret (mkBundle partial_training_dataloader partialY_matrix test_loader
                num_instances num_classes classnames).

(** ** [load_clip_to_cpu] and [load_vit_to_cpu] *)

(** [s.lstrip(chars)] *)
Fixpoint lstrip (chars : list ascii) (s : string) : string :=
  match s with
  | EmptyString => EmptyString
  | String c s' => if existsb (Ascii.eqb c) chars then lstrip chars s' else s
  end.

Definition str_in (x : string) (l : list string) : bool :=
  existsb (String.eqb x) l.

Definition load_clip_to_cpu (env : Env) (backbone_name prec : string)
  : result unit :=
  let backbone_name := lstrip (list_ascii_of_string "CLIP-") backbone_name in
  if negb (clip_MODELS env backbone_name) then Raise (KeyError backbone_name)
  else
    match clip_build env backbone_name with
    | Raise e => Raise e
    | Ok model =>
        if str_in prec ["fp16"; "fp32"; "amp"] then Ok model
        else Raise AssertionError
    end.

Definition load_vit_to_cpu (env : Env) (backbone_name prec : string)
  : result unit :=
  let known :=
    str_in backbone_name
      ["IN21K-ViT-B/16"; "IN21K-ViT-B/16@384px"; "IN21K-ViT-L/16"] in
  match (if known then timm_build env backbone_name else Ok tt) with
  | Raise e => Raise e
  | Ok model =>
      if negb (str_in prec ["fp16"; "fp32"; "amp"]) then Raise AssertionError
      else if known then Ok model
      else Raise (UnboundLocalError "model")
  end.

(** ** The trainer *)

Definition get_cfg : M Cfg :=
  v <- getattr "cfg" ;;
  match v with
  | PCfg c => ret c
  | _ => raise (TypeError "cfg")
  end.

(** [self.name.method(...)] on an attribute that must hold a module; on
    [None] the method lookup fails. *)
Definition get_module (name method : string) : M NNModule :=
  v <- getattr name ;;
  match v with
  | PModule m => ret m
  | _ => raise (AttributeError method)
  end.

Definition get_model (method : string) : M Model :=
  v <- getattr "model" ;;
  match v with
  | PModel m => ret m
  | _ => raise (AttributeError method)
  end.

(** [x.to(self.device)] *)
Definition to_device (what : string) : M unit :=
  d <- getattr "device" ;;
  match d with
  | PDevice s => if String.prefix "cuda" s then emit (ECuda what) else ret tt
  | _ => raise (TypeError "device")
  end.

(** [m.attr] on a freshly built network. *)
Definition submodule (attr : string) (o : option NNModule) : M NNModule :=
  match o with
  | Some m => ret m
  | None => raise (AttributeError attr)
  end.

(** The six-fold assignment of a loader's return value (lines 171-184). *)
Definition store_bundle (b : LoaderBundle) : M unit :=
  setattr "train_loader" (PTrainLoader (b_train_loader b)) ;;;
  setattr "partialY" (PTensor (b_partialY b)) ;;;
  setattr "test_loader" (PTestLoader (b_test_loader b)) ;;;
  setattr "num_instances" (PInt (Z.of_nat (b_num_instances b))) ;;;
  setattr "num_classes" (PInt (Z.of_nat (b_num_classes b))) ;;;
  setattr "classnames" (PStrList (b_classnames b)) ;;;
  print ("num_classes: " ++ pretty (b_num_classes b))%string.

(** [transform_test] of [build_data_loader]; [None] when no branch binds it. *)
Definition choose_transform_test (cfg : Cfg) : option TestTransform :=
  if tte cfg then
    if (tte_mode cfg =? "fivecrop")%string then Some FiveCrop
    else if (tte_mode cfg =? "tencrop")%string then Some TenCrop
    else if (tte_mode cfg =? "randaug")%string
         then Some (RandAug (randaug_times cfg))
    else None
  else Some CenterCrop.

Definition use_transform_test (t : option TestTransform) : M TestTransform :=
  match t with
  | Some t => ret t
  | None => raise (UnboundLocalError "transform_test")
  end.

(** [a % b] and [a // b] on Python integers. *)
Definition py_mod (a b : Z) : result Z :=
  if (b =? 0)%Z then Raise ZeroDivisionError else Ok (a mod b)%Z.

Definition py_floordiv (a b : Z) : result Z :=
  if (b =? 0)%Z then Raise ZeroDivisionError else Ok (a / b)%Z.

(** Lines 166-184: the data-set dispatch. *)
Definition build_data_loader_datasets (env : Env) (cfg : Cfg)
    (transform_test : option TestTransform) : M unit :=
  if negb (test_train cfg || test_only cfg) then
    if (dataset cfg =? "fgvc100")%string then
      t <- use_transform_test transform_test ;;
      b <- load_fgvc100 (cuda_available env) (fgvc_env env) cfg t ;;
      store_bundle b
    else if (dataset cfg =? "cub200")%string then
      t <- use_transform_test transform_test ;;
      b <- lift_loader (load_cub200 env cfg t) ;;
      store_bundle b
    else if (dataset cfg =? "cars196")%string then
      t <- use_transform_test transform_test ;;
      b <- lift_loader (load_cars196 env cfg t) ;;
      store_bundle b
    else if (dataset cfg =? "dogs120")%string then
      t <- use_transform_test transform_test ;;
      b <- lift_loader (load_dogs120 env cfg t) ;;
      store_bundle b
    else ret tt
  else ret tt.

Definition build_data_loader (env : Env) : M unit :=
  cfg <- get_cfg ;;
  (if String.prefix "CLIP" (backbone cfg)
   then print "mean: [0.48145466, 0.4578275, 0.40821073]" ;;;
        print "std: [0.26862954, 0.26130258, 0.27577711]"
   else print "mean: [0.5, 0.5, 0.5]" ;;;
        print "std: [0.5, 0.5, 0.5]") ;;;
  build_data_loader_datasets env cfg (choose_transform_test cfg) ;;;
  r <- lift (py_mod (batch_size cfg) (micro_batch_size cfg)) ;;
  (if (r =? 0)%Z then ret tt else raise AssertionError) ;;;
  q <- lift (py_floordiv (batch_size cfg) (micro_batch_size cfg)) ;;
  setattr "accum_step" (PInt q).

(** [get_tokenized_prompts]: the tokens are moved to the device. *)
Definition get_tokenized_prompts : M unit := to_device "prompts".

Definition build_optimizer : M unit :=
  cfg <- get_cfg ;;
  print "Turning off gradients in the model" ;;;
  _ <- get_model "named_parameters" ;;
  print "Turning on gradients in the tuner" ;;;
  _ <- get_module "tuner" "named_parameters" ;;
  print "Turning on gradients in the head" ;;;
  _ <- get_module "head" "named_parameters" ;;
  (if str_in (loss_type cfg) ["DIRK"; "ABLE"; "PiCO"]
   then print "Turning on gradients in the neck" ;;;
        _ <- get_module "neck" "named_parameters" ;; ret tt
   else ret tt) ;;;
  print "Total params" ;;;
  print "Tuned params" ;;;
  print "Head params" ;;;
  setattr "optim" (POpaque "SGD") ;;;
  setattr "sched" (POpaque "CosineAnnealingLR") ;;;
  setattr "scaler" (if (prec cfg =? "amp")%string
                    then POpaque "GradScaler" else PNone).

Definition get_partialY : M matrix :=
  v <- getattr "partialY" ;;
  match v with
  | PTensor m => ret m
  | _ => raise (AttributeError "sum")
  end.

Definition build_criterion (env : Env) : M unit :=
  cfg <- get_cfg ;;
  print "Calculating uniform targets..." ;;;
  partialY <- get_partialY ;;
  let confidence := uniform_targets partialY in
  cuda (cuda_available env) "confidence" ;;;
  setattr "confidence" (PConfidence confidence) ;;;
  _ <- getattr "num_instances" ;;
  _ <- getattr "num_classes" ;;
  print "torch.Size([N, C])" ;;;
  algorithm_class <- lift (get_algorithm_class env (loss_type cfg)) ;;
  _ <- getattr "model" ;;
  _ <- getattr "partialY" ;;
  setattr "algorithm" (POpaque algorithm_class) ;;;
  to_device "algorithm" ;;;
  setattr "algorithm" (POpaque algorithm_class).

(** A [for] loop whose body only acts on the object and the log. *)
Fixpoint forM {A} (l : list A) (body : A -> M unit) : M unit :=
  match l with
  | [] => ret tt
  | x :: rest => body x ;;; forM rest body
  end.

Definition get_classnames : M (list string) :=
  v <- getattr "classnames" ;;
  match v with
  | PStrList l => ret l
  | _ => raise (TypeError "classnames")
  end.

(** [self.model.encode_text(prompts)] *)
Definition encode_text : M unit :=
  m <- get_model "encode_text" ;;
  if has_encode_text m then ret tt else raise (AttributeError "encode_text").

(** [init_head_text_feat]; the boolean tells whether [text_features] was
    bound by one of the four prompt branches. *)
Definition init_head_text_feat (env : Env) : M unit :=
  cfg <- get_cfg ;;
  classnames <- get_classnames ;;
  print "Initialize head with text features" ;;;
  text_features <-
    (if (prompt cfg =? "ensemble")%string then
       forM (ZEROSHOT_TEMPLATES_imagenet env)
            (fun _ => get_tokenized_prompts ;;; encode_text) ;;;
       match ZEROSHOT_TEMPLATES_imagenet env with
       | [] => raise (RuntimeError "stack expects a non-empty TensorList")
       | _ :: _ => ret true
       end
     else if (prompt cfg =? "descriptor")%string then
       descriptors <- lift (match descriptors_imagenet env with
                            | Some d => Ok d
                            | None => Raise (FileNotFoundError
                                               "utils/descriptors_imagenet.json")
                            end) ;;
       forM classnames
            (fun cn => match descriptors !! cn with
                       | None => raise (KeyError cn)
                       | Some _ => get_tokenized_prompts ;;; encode_text
                       end) ;;;
       match classnames with
       | [] => raise (RuntimeError "stack expects a non-empty TensorList")
       | _ :: _ => ret true
       end
     else if (prompt cfg =? "classname")%string then
       get_tokenized_prompts ;;; encode_text ;;; ret true
     else if (prompt cfg =? "default")%string then
       get_tokenized_prompts ;;; encode_text ;;; ret true
     else ret false) ;;
  (if String.prefix "CLIP-ViT" (backbone cfg) then
     if text_features : bool then _ <- get_model "image_encoder" ;; ret tt
     else raise (UnboundLocalError "text_features")
   else ret tt) ;;;
  _ <- get_module "head" "apply_weight" ;;
  if text_features : bool then emit (EApplyWeight "text_feat")
  else raise (UnboundLocalError "text_features").

(** The feature-extraction loop shared by the two feature-based strategies
    (lines 374-384 and 411-421): it starts by reading
    [self.train_init_loader]. The extracted features are not modelled. *)
Definition extract_init_features : M unit :=
  loader <- getattr "train_init_loader" ;;
  match loader with
  | PTrainLoader _ | PTestLoader _ =>
      to_device "image" ;;;
      to_device "label" ;;;
      _ <- get_model "__call__" ;; ret tt
  | _ => raise (TypeError "object is not iterable")
  end.

Definition init_head_class_mean : M unit :=
  print "Initialize head with class means" ;;;
  extract_init_features ;;;
  _ <- getattr "num_classes" ;;
  _ <- get_module "head" "apply_weight" ;;
  emit (EApplyWeight "class_mean").

Definition init_head_linear_probe : M unit :=
  print "Initialize head with linear probing" ;;;
  extract_init_features ;;;
  to_device "class_weights" ;;;
  _ <- get_module "head" "apply_weight" ;;
  emit (EApplyWeight "linear_probe").

(** Lines 243-250: the head-initialisation dispatch. *)
Definition build_model_init_head (env : Env) (cfg : Cfg) : M unit :=
  if (init_head cfg =? "text_feat")%string then init_head_text_feat env
  else if str_in (init_head cfg) ["class_mean"; "1_shot"; "10_shot"; "100_shot"]
       then init_head_class_mean
  else if (init_head cfg =? "linear_probe")%string then init_head_linear_probe
  else print "No initialization with head".

(** Lines 198-237: the network is built and its trainable parts recorded. *)
Definition build_model_network (env : Env) (cfg : Cfg) (num_classes : nat)
  : M unit :=
  if zero_shot cfg then
    (if String.prefix "CLIP" (backbone cfg) then ret tt
     else raise AssertionError) ;;;
    print ("Loading CLIP (backbone: " ++ backbone cfg ++ ")")%string ;;;
    _ <- lift (load_clip_to_cpu env (backbone cfg) (prec cfg)) ;;
    m <- lift (ZeroShotCLIP env) ;;
    setattr "model" (PModel m) ;;;
    to_device "model" ;;;
    setattr "tuner" PNone ;;;
    setattr "head" PNone ;;;
    get_tokenized_prompts
  else if String.prefix "CLIP" (backbone cfg) then
    print ("Loading CLIP (backbone: " ++ backbone cfg ++ ")")%string ;;;
    _ <- lift (load_clip_to_cpu env (backbone cfg) (prec cfg)) ;;
    if str_in (loss_type cfg) ["DIRK"; "ABLE"; "PiCO"] then
      m <- lift (PeftModelFromCLIP_MLP env cfg num_classes) ;;
      setattr "model" (PModel m) ;;;
      to_device "model" ;;;
      t <- submodule "tuner" (model_tuner m) ;;
      setattr "tuner" (PModule t) ;;;
      n <- submodule "neck" (model_neck m) ;;
      setattr "neck" (PModule n) ;;;
      h <- submodule "head" (model_head m) ;;
      setattr "head" (PModule h)
    else
      m <- lift (PeftModelFromCLIP env cfg num_classes) ;;
      setattr "model" (PModel m) ;;;
      to_device "model" ;;;
      t <- submodule "tuner" (model_tuner m) ;;
      setattr "tuner" (PModule t) ;;;
      h <- submodule "head" (model_head m) ;;
      setattr "head" (PModule h)
  else if String.prefix "IN21K-ViT" (backbone cfg) then
    print ("Loading ViT (backbone: " ++ backbone cfg ++ ")")%string ;;;
    _ <- lift (load_vit_to_cpu env (backbone cfg) (prec cfg)) ;;
    m <- lift (PeftModelFromViT env cfg num_classes) ;;
    setattr "model" (PModel m) ;;;
    to_device "model" ;;;
    t <- submodule "tuner" (model_tuner m) ;;
    setattr "tuner" (PModule t) ;;;
    h <- submodule "head" (model_head m) ;;
    setattr "head" (PModule h)
  else ret tt.

(** Lines 239-252: optimizer, criterion and head initialisation, for a
    training run only. *)
Definition build_model_training (env : Env) (cfg : Cfg) : M unit :=
  if negb (zero_shot cfg || test_train cfg || test_only cfg) then
    build_optimizer ;;;
    build_criterion env ;;;
    build_model_init_head env cfg ;;;
    emit EEmptyCache
  else ret tt.

(** Lines 256-259: [nn.DataParallel] keeps the forward function. *)
Definition build_model_parallel (env : Env) (cfg : Cfg) : M unit :=
  if (1 <? device_count env)
     && match gpu cfg with None => true | Some _ => false end then
    print "Multiple GPUs detected, use all of them!" ;;;
    m <- getattr "model" ;;
    setattr "model" m
  else ret tt.

Definition build_model (env : Env) : M unit :=
  cfg <- get_cfg ;;
  classnames <- get_classnames ;;
  let num_classes := length classnames in
  print "Building model" ;;;
  build_model_network env cfg num_classes ;;;
  build_model_training env cfg ;;;
  build_model_parallel env cfg.

(** [torch.cuda.set_device(g)]: nothing happens for a negative index, and an
    index past the last device is refused. *)
Definition set_device (env : Env) (g : Z) : M unit :=
  if (g <? 0)%Z then ret tt
  else if (g <? Z.of_nat (device_count env))%Z then emit (ESetDevice g)
  else raise (RuntimeError "CUDA error: invalid device ordinal").

(** [torch.device("cuda:{}".format(g))]: the index must not be negative. *)
Definition cuda_device (g : Z) : result string :=
  if (g <? 0)%Z then Raise (RuntimeError "Invalid device string")
  else Ok ("cuda:" ++ pretty g)%string.

(** Lines 88-94: the device is chosen. *)
Definition select_device (env : Env) (cfg : Cfg) : M unit :=
  if negb (cuda_available env) then setattr "device" (PDevice "cpu")
  else match gpu cfg with
       | None => setattr "device" (PDevice "cuda")
       | Some g =>
           set_device env g ;;;
           d <- lift (cuda_device g) ;;
           setattr "device" (PDevice d)
       end.

(** [Trainer.__init__] *)
Definition Trainer_init (env : Env) (cfg : Cfg) : M unit :=
  select_device env cfg ;;;
  setattr "cfg" (PCfg cfg) ;;;
  build_data_loader env ;;;
  build_model env ;;;
  setattr "evaluator" (PEvaluator []) ;;;
  setattr "_writer" PNone.

(** ** [test] *)

(** The default collate function stacks the crop stacks of a batch, which
    must agree in size: the result is [image] of shape
    [_bsz; _ncrops; _c; _h; _w] (as [_bsz] rows of [_ncrops] images) and
    [label]. *)
Definition collate (batch : list TestSample)
  : result (list (list Image) * list nat) :=
  let image := map fst batch in
  let ncrops := match image with [] => 0 | crops :: _ => length crops end in
  if forallb (fun crops => length crops =? ncrops) image
  then Ok (image, map snd batch)
  else Raise (RuntimeError "stack expects each tensor to be equal size").

(** Lines 528-542: the aggregated output of one batch. *)
Definition multi_crop_output (model : list Image -> pyval)
    (image : list (list Image)) : result Tensor :=
  let _bsz := length image in
  let _ncrops := match image with [] => 0 | crops :: _ => length crops end in
  (* image.view(_bsz * _ncrops, _c, _h, _w) *)
  let flat := concat image in
  if _ncrops <=? 5 then
    match unpack2 (model flat) with
    | Raise e => Raise e
    | Ok (output, _) =>
        match view3 output _bsz _ncrops with
        | Raise e => Raise e
        | Ok t => Ok (mean_dim1 t)
        end
    end
  else
    (* output.append(self.model(image[:, k])) for k in range(_ncrops) *)
    let output :=
      map (fun k => model (map (fun crops => nth k crops []) image))
          (seq 0 _ncrops) in
    match torch_stack output with
    | Raise e => Raise e
    | Ok t => Ok (mean_dim0 t)
    end.

(** [self.evaluator.process(output, label)] *)
Definition evaluator_process (output : Tensor) (label : list nat) : M unit :=
  ev <- getattr "evaluator" ;;
  match ev with
  | PEvaluator seen => setattr "evaluator" (PEvaluator (seen ++ [(output, label)]))
  | _ => raise (AttributeError "process")
  end.

(** The body of the batch loop (lines 522-544). *)
Definition test_batch (d : Dataset TestSample) (idxs : list nat) : M unit :=
  batch <- lift (fetch d idxs) ;;
  il <- lift (collate batch) ;;
  to_device "image" ;;;
  to_device "label" ;;;
  m <- get_model "__call__" ;;
  output <- lift (multi_crop_output (forward m) (fst il)) ;;
  evaluator_process output (snd il).

(** Iterating a loader of test samples; anything else cannot be unpacked as
    the loop body expects. *)
Definition test_loop (data_loader : pyobj) : M unit :=
  match data_loader with
  | PTestLoader dl =>
      forM (epoch_indices dl []) (test_batch (dl_dataset dl))
  | _ => raise (TypeError "object is not iterable")
  end.

(** [if self.name is not None: self.name.eval()]: the module is switched to
    evaluation mode in place. *)
Definition eval_if_not_none (name : string) : M unit :=
  v <- getattr name ;;
  match v with
  | PNone => ret tt
  | PModule m => setattr name (PModule (mkModule (state_dict m) false))
  | _ => raise (AttributeError "eval")
  end.

Definition test (env : Env) (mode : string) : M Q :=
  eval_if_not_none "tuner" ;;;
  eval_if_not_none "head" ;;;
  ev <- getattr "evaluator" ;;
  (match ev with
   | PEvaluator _ => setattr "evaluator" (PEvaluator [])
   | _ => raise (AttributeError "reset")
   end) ;;;
  data_loader <-
    (if (mode =? "train")%string then
       print "Evaluate on the train set" ;;;
       getattr "train_test_loader"
     else if (mode =? "test")%string then
       print "Evaluate on the test set" ;;;
       getattr "test_loader"
     else raise (UnboundLocalError "data_loader")) ;;
  test_loop data_loader ;;;
  ev <- getattr "evaluator" ;;
  results <- match ev with
             | PEvaluator seen => ret (evaluate env seen)
             | _ => raise (AttributeError "evaluate")
             end ;;
  forM results
       (fun kv => w <- getattr "_writer" ;;
                  match w with
                  | PNone => ret tt
                  | _ => emit (EAddScalar ("test/" ++ fst kv)%string)
                  end) ;;;
  match results with
  | [] => raise IndexError
  | kv :: _ => ret (snd kv)
  end.

(** Batches the evaluator has processed. *)
Definition processed (w : world) : nat :=
  match self w !! "evaluator" with
  | Some (PEvaluator seen) => length seen
  | _ => 0
  end.

(** ** [load_model] *)

(** [s.endswith("/")] *)
Fixpoint ends_with_slash (s : string) : bool :=
  match s with
  | EmptyString => false
  | String c EmptyString => Ascii.eqb c "/"%char
  | String _ s' => ends_with_slash s'
  end.

(** [os.path.join(directory, name)] for a relative [name]. *)
Definition path_join (directory name : string) : string :=
  if (directory =? "")%string then name
  else if ends_with_slash directory
       then (directory ++ name)%string
       else (directory ++ "/" ++ name)%string.

(** One entry of [load_state_dict(d, strict=False)]: a parameter of the
    module takes the saved value when the name is saved with the same shape. *)
Definition load_entry (d : gmap string Tensor) (k : string) (own : Tensor)
  : Tensor :=
  match d !! k with
  | Some v => if shape_eqb (shape v) (shape own) then v else own
  | None => own
  end.

(** A saved entry whose shape differs from the module's parameter: the one
    error that [strict=False] does not silence. *)
Definition size_mismatch (d : gmap string Tensor) (m : NNModule) : bool :=
  map_fold (fun k own acc =>
              acc || match d !! k with
                     | Some v => negb (shape_eqb (shape v) (shape own))
                     | None => false
                     end)
           false (state_dict m).

(** [self.name.load_state_dict(d, strict=False)]: matching entries are
    copied, then a size mismatch is reported. *)
Definition load_state_dict (name : string) (d : gmap string Tensor) : M unit :=
  m <- get_module name "load_state_dict" ;;
  setattr name (PModule (mkModule (map_imap (fun k own => Some (load_entry d k own))
                                            (state_dict m))
                                  (training m))) ;;;
  if size_mismatch d m
  then raise (RuntimeError "size mismatch")
  else ret tt.

Definition dict_get {V} (d : gmap string V) (k : string) : M V :=
  match d !! k with
  | Some v => ret v
  | None => raise (KeyError k)
  end.

Definition load_model (env : Env) (directory : string) : M unit :=
  let load_path := path_join directory "checkpoint.pth.tar" in
  match files env !! load_path with
  | None => raise (FileNotFoundError load_path)
  | Some checkpoint =>
      _ <- getattr "device" ;;
      tuner_dict <- dict_get checkpoint "tuner" ;;
      head_dict <- dict_get checkpoint "head" ;;
      print ("Loading weights to from " ++ load_path)%string ;;;
      load_state_dict "tuner" tuner_dict ;;;
      saved <- dict_get head_dict "weight" ;;
      head <- get_module "head" "weight" ;;
      own <- match state_dict head !! "weight" with
             | Some t => ret t
             | None => raise (AttributeError "weight")
             end ;;
      if shape_eqb (shape saved) (shape own)
      then load_state_dict "head" head_dict
      else ret tt
  end.

(** ** A small instance

    Five training images of three classes, a test set of two images, and a
    network that returns a pair (logits, features), as line 532 unpacks. *)

Definition ex_labels : list nat := [0; 1; 2; 0; 1].

(** A generator that adds the next class as a spurious candidate. *)
Definition ex_generate (ori_labels : list nat) (rate : Q) : matrix :=
  map (fun y => map (fun j => if (j =? y) || (j =? (y + 1) mod 3)
                              then 1%Q else 0%Q) (seq 0 3))
      ori_labels.

(** A generator that leaves the true label out. *)
Definition ex_generate_missing (ori_labels : list nat) (rate : Q) : matrix :=
  map (fun y => one_hot_row 3 ((y + 1) mod 3)) ori_labels.

(** A generator that returns no candidate at all for the first sample. *)
Definition ex_generate_empty (ori_labels : list nat) (rate : Q) : matrix :=
  match ex_generate ori_labels rate with
  | [] => []
  | _ :: rest => [0%Q; 0%Q; 0%Q] :: rest
  end.

Definition ex_ncrops (t : TestTransform) : nat :=
  match t with
  | FiveCrop => 5
  | TenCrop => 10
  | RandAug times => Z.to_nat times
  | CenterCrop => 1
  end.

Definition ex_test_items : list (Image * nat) :=
  [([1%Q; 2%Q], 2); ([3%Q; 1%Q], 0)].

Definition ex_test_dataset (t : TestTransform) : Dataset TestSample :=
  mkDataset (length ex_test_items)
    (fun i => match ex_test_items !! i with
              | Some (img, y) => Ok (repeat img (ex_ncrops t), y)
              | None => Raise IndexError
              end).

Definition ex_fgvc (generate : list nat -> Q -> matrix) : FgvcEnv :=
  {| fgvc_image_files := ["0.jpg"; "1.jpg"; "2.jpg"; "3.jpg"; "4.jpg"];
     fgvc_labels := ex_labels;
     fgvc_classnames := Some ["A"; "B"; "C"];
     fgvc_load_views := fun _ => Ok tt;
     fgvc_test := ex_test_dataset;
     fgvc_weights := true;
     generate_instancedependent_candidate_labels := generate |}.

Definition ex_logits (img : Image) : list Q :=
  [nth 0 img 0%Q; nth 1 img 0%Q; (nth 0 img 0 + nth 1 img 0)%Q].

Definition ex_forward (imgs : list Image) : pyval :=
  VTuple [VTensor (mkTensor [length imgs; 3] (flat_map ex_logits imgs));
          VTensor (mkTensor [length imgs; 2] (concat imgs))].

(** A network that returns the logits alone. *)
Definition ex_forward_tensor (imgs : list Image) : pyval :=
  VTensor (mkTensor [length imgs; 3] (flat_map ex_logits imgs)).

Definition ex_tuner : NNModule :=
  mkModule {[ "prompt" := mkTensor [2; 2] [0%Q; 0%Q; 0%Q; 0%Q] ]} true.

Definition ex_head : NNModule :=
  mkModule {[ "weight" := mkTensor [100; 2] (repeat 0%Q 200) ]} true.

Definition ex_model : Model :=
  {| forward := ex_forward;
     model_tuner := Some ex_tuner;
     model_head := Some ex_head;
     model_neck := Some (mkModule ∅ true);
     has_encode_text := true |}.

(** A checkpoint saved from a head with 37 outputs. *)
Definition ex_checkpoint : gmap string (gmap string Tensor) :=
  {[ "tuner" := {[ "prompt" := mkTensor [2; 2] [1%Q; 2%Q; 3%Q; 4%Q] ]};
     "head" := {[ "weight" := mkTensor [37; 2] (repeat 1%Q 74) ]} ]}.

(** A checkpoint saved from a head with 37 outputs and from a tuner whose
    prompt has three rows. *)
Definition ex_checkpoint_misfit : gmap string (gmap string Tensor) :=
  {[ "tuner" := {[ "prompt" := mkTensor [3; 2] (repeat 1%Q 6) ]};
     "head" := {[ "weight" := mkTensor [37; 2] (repeat 1%Q 74) ]} ]}.

Definition ex_no_loader (cfg : Cfg) (t : TestTransform)
  : list loader_event * result LoaderBundle :=
  ([], Raise (FileNotFoundError "data")).

Definition ex_env (generate : list nat -> Q -> matrix) : Env :=
  {| cuda_available := true;
     device_count := 1;
     fgvc_env := ex_fgvc generate;
     load_cub200 := ex_no_loader;
     load_cars196 := ex_no_loader;
     load_dogs120 := ex_no_loader;
     clip_MODELS := fun name => (name =? "ViT-B/16")%string;
     clip_build := fun _ => Ok tt;
     timm_build := fun _ => Ok tt;
     ZeroShotCLIP := Ok ex_model;
     PeftModelFromCLIP_MLP := fun _ _ => Ok ex_model;
     PeftModelFromCLIP := fun _ _ => Ok ex_model;
     PeftModelFromViT := fun _ _ => Ok ex_model;
     get_algorithm_class := fun name => Ok name;
     ZEROSHOT_TEMPLATES_imagenet := ["a photo of a {}."];
     descriptors_imagenet := None;
     evaluate := fun seen => [("acc", inject_Z (Z.of_nat (length seen)))];
     files := {[ "out/checkpoint.pth.tar" := ex_checkpoint;
                 "old/checkpoint.pth.tar" := ex_checkpoint_misfit ]} |}.

Definition ex_cfg : Cfg :=
  {| gpu := None;
     backbone := "CLIP-ViT-B/16";
     prec := "fp16";
     tte := false;
     tte_mode := "";
     randaug_times := 1;
     test_train := false;
     test_only := false;
     zero_shot := false;
     dataset := "fgvc100";
     batch_size := 2;
     micro_batch_size := 2;
     loss_type := "PRODEN";
     init_head := "none";
     prompt := "default";
     output_dir := "out" |}.

Definition with_init_head (cfg : Cfg) (name : string) : Cfg :=
  {| gpu := gpu cfg; backbone := backbone cfg; prec := prec cfg;
     tte := tte cfg; tte_mode := tte_mode cfg;
     randaug_times := randaug_times cfg; test_train := test_train cfg;
     test_only := test_only cfg; zero_shot := zero_shot cfg;
     dataset := dataset cfg; batch_size := batch_size cfg;
     micro_batch_size := micro_batch_size cfg; loss_type := loss_type cfg;
     init_head := name; prompt := prompt cfg; output_dir := output_dir cfg |}.

Definition with_zero_shot (cfg : Cfg) (b : bool) : Cfg :=
  {| gpu := gpu cfg; backbone := backbone cfg; prec := prec cfg;
     tte := tte cfg; tte_mode := tte_mode cfg;
     randaug_times := randaug_times cfg; test_train := test_train cfg;
     test_only := test_only cfg; zero_shot := b;
     dataset := dataset cfg; batch_size := batch_size cfg;
     micro_batch_size := micro_batch_size cfg; loss_type := loss_type cfg;
     init_head := init_head cfg; prompt := prompt cfg;
     output_dir := output_dir cfg |}.


Definition with_test_only (cfg : Cfg) (b : bool) : Cfg :=
  {| gpu := gpu cfg; backbone := backbone cfg; prec := prec cfg;
     tte := tte cfg; tte_mode := tte_mode cfg;
     randaug_times := randaug_times cfg; test_train := test_train cfg;
     test_only := b; zero_shot := zero_shot cfg;
     dataset := dataset cfg; batch_size := batch_size cfg;
     micro_batch_size := micro_batch_size cfg; loss_type := loss_type cfg;
     init_head := init_head cfg; prompt := prompt cfg;
     output_dir := output_dir cfg |}.

Definition with_tte (cfg : Cfg) (mode : string) : Cfg :=
  {| gpu := gpu cfg; backbone := backbone cfg; prec := prec cfg;
     tte := true; tte_mode := mode;
     randaug_times := randaug_times cfg; test_train := test_train cfg;
     test_only := test_only cfg; zero_shot := zero_shot cfg;
     dataset := dataset cfg; batch_size := batch_size cfg;
     micro_batch_size := micro_batch_size cfg; loss_type := loss_type cfg;
     init_head := init_head cfg; prompt := prompt cfg;
     output_dir := output_dir cfg |}.

(** The trainer constructed in the small instance. *)
Definition ex_trainer : world := fst (Trainer_init (ex_env ex_generate) ex_cfg fresh).

(** The trainer constructed when the generator left a row empty. *)
Definition ex_trainer_empty : world :=
  fst (Trainer_init (ex_env ex_generate_empty) ex_cfg fresh).

(** What [load_fgvc100] returns in the small instance. *)
Definition ex_bundle : LoaderBundle :=
  mkBundle
    (mkDataLoader
       (Partialize_dataset (fun _ => Ok tt)
          (mkPartialize (fgvc_image_files (ex_fgvc ex_generate)) ex_labels
                        (ex_generate ex_labels (1 # 10)%Q) ex_labels))
       2 true true)
    (ex_generate ex_labels (1 # 10)%Q)
    (mkDataLoader (ex_test_dataset CenterCrop) 2 false false)
    5 3 ["A"; "B"; "C"].

(** One test image under ten crops and under four crops. *)
Definition ex_image10 : list (list Image) := [repeat [1%Q; 2%Q] 10].
Definition ex_image4 : list (list Image) := [repeat [1%Q; 2%Q] 4].

(** ** Frames

    Which attributes a method leaves alone and which events it adds. *)

(** Attributes assigned by [build_data_loader]. *)
Definition loader_attrs : list string :=
  ["train_loader"; "partialY"; "test_loader"; "num_instances"; "num_classes";
   "classnames"; "accum_step"].

(** Attributes assigned by [build_model] and the methods it calls. *)
Definition model_attrs : list string :=
  ["model"; "tuner"; "head"; "neck"; "optim"; "sched"; "scaler"; "confidence";
   "algorithm"].

(** Attributes assigned by [__init__] itself. *)
Definition init_attrs : list string :=
  ["device"; "cfg"; "evaluator"; "_writer"].

(** [w'] is reached from [w] without touching the attributes [ks], without
    deleting any attribute, and by adding only events accepted by [P]. *)
Definition extends (ks : list string) (P : event -> bool) (w w' : world)
  : Prop :=
  (forall k, In k ks -> self w' !! k = self w !! k)
  /\ (forall k, is_Some (self w !! k) -> is_Some (self w' !! k))
  /\ exists evs, out w' = out w ++ evs /\ forallb P evs = true.

Definition framed (ks : list string) (P : event -> bool) {A} (m : M A)
  : Prop :=
  forall w, extends ks P w (fst (m w)).

Definition any_event (e : event) : bool := true.

Definition no_apply_weight (e : event) : bool := negb (is_apply_weight e).

Definition no_cuda (e : event) : bool := negb (is_cuda e).


(** The values of [init_head] that select a feature-based strategy. *)
Definition feature_init_head : list string :=
  ["class_mean"; "1_shot"; "10_shot"; "100_shot"; "linear_probe"].

(** The object on which [build_data_loader] starts: only [device] and [cfg]
    are assigned, and at most a device selection has been logged. *)
Definition after_device (d : string) (cfg : Cfg) (l : list event) : world :=
  mkWorld (<["cfg" := PCfg cfg]> (<["device" := PDevice d]> ∅)) l.

(** [cfg.gpu] names a device that exists, or is not consulted. *)
Definition valid_gpu (env : Env) (cfg : Cfg) : bool :=
  negb (cuda_available env)
  || match gpu cfg with
     | None => true
     | Some g => (0 <=? g)%Z && (g <? Z.of_nat (device_count env))%Z
     end.

(** The device that [__init__] selects, and what selecting it logs. *)
Definition device_name (env : Env) (cfg : Cfg) : string :=
  if cuda_available env
  then match gpu cfg with
       | None => "cuda"
       | Some g => ("cuda:" ++ pretty g)%string
       end
  else "cpu".

Definition device_events (env : Env) (cfg : Cfg) : list event :=
  if cuda_available env
  then match gpu cfg with Some g => [ESetDevice g] | None => [] end
  else [].

(** The two lines that [build_data_loader] prints first. *)
Definition normalisation_lines (cfg : Cfg) : list event :=
  if String.prefix "CLIP" (backbone cfg)
  then [EPrint "mean: [0.48145466, 0.4578275, 0.40821073]";
        EPrint "std: [0.26862954, 0.26130258, 0.27577711]"]
  else [EPrint "mean: [0.5, 0.5, 0.5]"; EPrint "std: [0.5, 0.5, 0.5]"].

(** The object on which the data-set dispatch of [build_data_loader]
    (lines 166-184) starts. *)
Definition before_datasets (env : Env) (cfg : Cfg) : world :=
  mkWorld (<["cfg" := PCfg cfg]> (<["device" := PDevice (device_name env cfg)]> ∅))
          (device_events env cfg ++ normalisation_lines cfg).


(** The attribute [k] is assigned. *)
Definition bound (k : string) (w : world) : Prop := is_Some (self w !! k).

(** The attribute [k] holds a module or [None]. *)
Definition module_or_none (k : string) (w : world) : Prop :=
  self w !! k = Some PNone \/ exists m, self w !! k = Some (PModule m).

(** Whenever [m] returns normally, [Q] holds of the state it returns in. *)
Definition ensures {A} (m : M A) (Q : world -> Prop) : Prop :=
  forall w w' a, m w = (w', Ok a) -> Q w'.

(** The run [r], started in [w], ends in an exception, having left the
    attributes [ks] alone and logged only events accepted by [P]. *)
Definition fails_within {A} (ks : list string) (P : event -> bool) (w : world)
    (r : world * result A) : Prop :=
  (exists e, snd r = Raise e) /\ extends ks P w (fst r).

(** ** [save_model] *)

(** [k[7:]] when [k] starts with [module.], else [k]. *)
Definition strip_module (k : string) : string :=
  if String.prefix "module." k
  then String.substring 7 (String.length k - 7) k
  else k.

(** The loop of lines 565-572 over one state dict. The dict is a finite map
    here, so the order in which the source writes two names that become
    equal once stripped is not represented. *)
Definition strip_keys (d : gmap string Tensor) : gmap string Tensor :=
  map_fold (fun k v acc => <[strip_module k := v]> acc) ∅ d.

(** [save_model]. The file system is not part of the state: [torch_save]
    is the outcome of [torch.save] for a path, and the value returned is
    what [torch.save] was given, the path and the checkpoint (the method
    itself returns nothing). *)
Definition save_model (torch_save : string -> result unit) (directory : string)
  : M (string * gmap string (gmap string Tensor)) :=
  tuner <- get_module "tuner" "state_dict" ;;
  head <- get_module "head" "state_dict" ;;
  let checkpoint : gmap string (gmap string Tensor) :=
    <["head" := strip_keys (state_dict head)]>
      (<["tuner" := strip_keys (state_dict tuner)]> ∅) in
  let save_path := path_join directory "checkpoint.pth.tar" in
  lift (torch_save save_path) ;;;
  print ("Checkpoint saved to " ++ save_path)%string ;;;
  ret (save_path, checkpoint).



(** ** The mean over crops

    For a network that scores each image on its own with [g]: per class,
    the sum of the scores of a sample's crops divided by their number. *)
Definition crop_mean (g : Image -> list Q) (ncol : nat) (crops : list Image)
  : list Q :=
  map (fun j => (fold_right Qplus 0 (map (fun img => nth j (g img) 0) crops)
                 / inject_Z (Z.of_nat (length crops)))%Q)
      (seq 0 ncol).

Definition is_add_scalar (e : event) : bool :=
  match e with EAddScalar _ => true | _ => false end.

Definition no_add_scalar (e : event) : bool := negb (is_add_scalar e).

(** What the evaluator is given for the batch of indices [idxs]: the
    aggregated output of the batch and its labels. *)
Definition batch_result (d : Dataset TestSample) (m : Model) (idxs : list nat)
    (ol : Tensor * list nat) : Prop :=
  exists batch image,
    fetch d idxs = Ok batch
    /\ collate batch = Ok (image, snd ol)
    /\ multi_crop_output (forward m) image = Ok (fst ol).


(** No two parameter names become equal once [module.] is removed. *)
Definition strip_injective (d : gmap string Tensor) : Prop :=
  forall k1 k2, is_Some (d !! k1) -> is_Some (d !! k2) ->
                strip_module k1 = strip_module k2 -> k1 = k2.

(** The data sets that [build_data_loader] dispatches on (lines 170-182). *)
Definition known_datasets : list string :=
  ["fgvc100"; "cub200"; "cars196"; "dogs120"].

(** Whether [build_data_loader] calls a data-set loader. *)
Definition calls_loader (cfg : Cfg) : bool :=
  negb (test_train cfg || test_only cfg) && str_in (dataset cfg) known_datasets.

(** The values of [tte_mode] that bind [transform_test] (lines 134-155). *)
Definition known_tte_modes : list string := ["fivecrop"; "tencrop"; "randaug"].

(** The losses that train a projection neck (lines 217 and 274). *)
Definition neck_losses : list string := ["DIRK"; "ABLE"; "PiCO"].

(** The values of [prompt] that bind [text_features] (lines 329-357). *)
Definition known_prompts : list string :=
  ["ensemble"; "descriptor"; "classname"; "default"].

(** The characters that [lstrip("CLIP-")] removes. *)
Definition clip_chars : list ascii := list_ascii_of_string "CLIP-".

Definition starts_with_any (chars : list ascii) (s : string) : bool :=
  match s with
  | EmptyString => false
  | String c _ => existsb (Ascii.eqb c) chars
  end.

(** The backbone names that [load_vit_to_cpu] knows (lines 68-73). *)
Definition known_vit_backbones : list string :=
  ["IN21K-ViT-B/16"; "IN21K-ViT-B/16@384px"; "IN21K-ViT-L/16"].

(** ** Further instances *)

Definition with_backbone (cfg : Cfg) (name : string) : Cfg :=
  {| gpu := gpu cfg; backbone := name; prec := prec cfg;
     tte := tte cfg; tte_mode := tte_mode cfg;
     randaug_times := randaug_times cfg; test_train := test_train cfg;
     test_only := test_only cfg; zero_shot := zero_shot cfg;
     dataset := dataset cfg; batch_size := batch_size cfg;
     micro_batch_size := micro_batch_size cfg; loss_type := loss_type cfg;
     init_head := init_head cfg; prompt := prompt cfg;
     output_dir := output_dir cfg |}.

Definition with_loss_type (cfg : Cfg) (name : string) : Cfg :=
  {| gpu := gpu cfg; backbone := backbone cfg; prec := prec cfg;
     tte := tte cfg; tte_mode := tte_mode cfg;
     randaug_times := randaug_times cfg; test_train := test_train cfg;
     test_only := test_only cfg; zero_shot := zero_shot cfg;
     dataset := dataset cfg; batch_size := batch_size cfg;
     micro_batch_size := micro_batch_size cfg; loss_type := name;
     init_head := init_head cfg; prompt := prompt cfg;
     output_dir := output_dir cfg |}.

Definition with_prompt (cfg : Cfg) (name : string) : Cfg :=
  {| gpu := gpu cfg; backbone := backbone cfg; prec := prec cfg;
     tte := tte cfg; tte_mode := tte_mode cfg;
     randaug_times := randaug_times cfg; test_train := test_train cfg;
     test_only := test_only cfg; zero_shot := zero_shot cfg;
     dataset := dataset cfg; batch_size := batch_size cfg;
     micro_batch_size := micro_batch_size cfg; loss_type := loss_type cfg;
     init_head := init_head cfg; prompt := name;
     output_dir := output_dir cfg |}.

(** The small instance on a machine without CUDA. *)
Definition without_cuda (env : Env) : Env :=
  {| cuda_available := false;
     device_count := 0;
     fgvc_env := fgvc_env env;
     load_cub200 := load_cub200 env;
     load_cars196 := load_cars196 env;
     load_dogs120 := load_dogs120 env;
     clip_MODELS := clip_MODELS env;
     clip_build := clip_build env;
     timm_build := timm_build env;
     ZeroShotCLIP := ZeroShotCLIP env;
     PeftModelFromCLIP_MLP := PeftModelFromCLIP_MLP env;
     PeftModelFromCLIP := PeftModelFromCLIP env;
     PeftModelFromViT := PeftModelFromViT env;
     get_algorithm_class := get_algorithm_class env;
     ZEROSHOT_TEMPLATES_imagenet := ZEROSHOT_TEMPLATES_imagenet env;
     descriptors_imagenet := descriptors_imagenet env;
     evaluate := evaluate env;
     files := files env |}.




(** A trainer whose modules were wrapped, so that their parameter names
    start with [module.]. *)
Definition ex_wrapped : world :=
  mkWorld (<["head" := PModule (mkModule
                         {[ "module.weight" := mkTensor [1; 2] [5%Q; 6%Q] ]}
                         true)]>
             (<["tuner" := PModule (mkModule
                              {[ "module.prompt" := mkTensor [1; 1] [7%Q] ]}
                              true)]>
                ∅))
          [].

(** The trainer constructed in the small instance for zero-shot use. *)
Definition ex_trainer_zero_shot : world :=
  fst (Trainer_init (ex_env ex_generate) (with_zero_shot ex_cfg true) fresh).

(** * Properties *)

(** ** Reasoning about methods *)

Lemma bind_ok_inv {A B} (m : M A) (f : A -> M B) w w' b :
  bind m f w = (w', Ok b) ->
  exists w1 a, m w = (w1, Ok a) /\ f a w1 = (w', Ok b).
Proof.
  unfold bind. destruct (m w) as [w1 [a|e]]; intros H.
  - exists w1, a. auto.
  - discriminate.
Qed.

Lemma bind_ok {A B} (m : M A) (f : A -> M B) w w1 a :
  m w = (w1, Ok a) -> bind m f w = f a w1.
Proof. unfold bind. intros ->. reflexivity. Qed.

Lemma bind_raise {A B} (m : M A) (f : A -> M B) w w1 e :
  m w = (w1, Raise e) -> bind m f w = (w1, Raise e).
Proof. unfold bind. intros ->. reflexivity. Qed.

Lemma extends_refl ks P w : extends ks P w w.
Proof.
  split; [|split]; auto. exists []. rewrite app_nil_r. auto.
Qed.

Lemma extends_trans ks P w1 w2 w3 :
  extends ks P w1 w2 -> extends ks P w2 w3 -> extends ks P w1 w3.
Proof.
  intros (Hk1 & Hb1 & evs1 & Ho1 & Hp1) (Hk2 & Hb2 & evs2 & Ho2 & Hp2).
  split; [|split].
  - intros k Hin. rewrite Hk2, Hk1; auto.
  - auto.
  - exists (evs1 ++ evs2). rewrite Ho2, Ho1, <- app_assoc. split; auto.
    rewrite forallb_app, Hp1, Hp2. reflexivity.
Qed.

Section Frames.
Variable ks : list string.
Variable P : event -> bool.

Lemma framed_ret {A} (a : A) : framed ks P (ret a).
Proof. intros w. apply extends_refl. Qed.

Lemma framed_raise {A} e : framed ks P (@raise A e).
Proof. intros w. apply extends_refl. Qed.

Lemma framed_lift {A} (r : result A) : framed ks P (lift r).
Proof. intros w. apply extends_refl. Qed.

Lemma framed_getattr k : framed ks P (getattr k).
Proof.
  intros w. unfold getattr. destruct (self w !! k); apply extends_refl.
Qed.

Lemma framed_bind {A B} (m : M A) (f : A -> M B) :
  framed ks P m -> (forall a, framed ks P (f a)) -> framed ks P (bind m f).
Proof.
  intros Hm Hf w. unfold bind. specialize (Hm w).
  destruct (m w) as [w1 [a|e]]; simpl in *; auto.
  eapply extends_trans; [exact Hm | apply Hf].
Qed.

Lemma framed_emit e : P e = true -> framed ks P (emit e).
Proof.
  intros He w. split; [|split]; simpl; auto.
  exists [e]. simpl. rewrite He. auto.
Qed.

Lemma framed_setattr k v : ~ In k ks -> framed ks P (setattr k v).
Proof.
  intros Hk w. split; [|split]; simpl.
  - intros k' Hin. apply lookup_insert_ne. intros ->. auto.
  - intros k' Hs. destruct (decide (k = k')) as [->|Hne].
    + rewrite lookup_insert_eq. eauto.
    + rewrite lookup_insert_ne; auto.
  - exists []. rewrite app_nil_r. auto.
Qed.

Lemma framed_forM {A} (l : list A) (body : A -> M unit) :
  (forall x, framed ks P (body x)) -> framed ks P (forM l body).
Proof.
  intros Hb. induction l as [|x l IH]; simpl.
  - apply framed_ret.
  - apply framed_bind; auto.
Qed.

Lemma framed_lift_loader {A} (r : list loader_event * result A) :
  (forall s, P (EPrint s) = true) -> (forall s, P (ECuda s) = true) ->
  framed ks P (lift_loader r).
Proof.
  intros Hp Hc w. split; [|split]; simpl; auto.
  eexists. split; [reflexivity|].
  induction (fst r) as [|e l IH]; simpl; auto.
  rewrite IH, andb_true_r. destruct e; simpl; auto.
Qed.
End Frames.

Ltac framed_step :=
  match goal with
  | |- framed _ _ (bind _ _) => apply framed_bind; [|intros]
  | |- framed _ _ (ret _) => apply framed_ret
  | |- framed _ _ (raise _) => apply framed_raise
  | |- framed _ _ (lift _) => apply framed_lift
  | |- framed _ _ (getattr _) => apply framed_getattr
  | |- framed _ _ (print _) => apply framed_emit; solve [auto | reflexivity]
  | |- framed _ _ (emit _) => apply framed_emit; solve [auto | reflexivity]
  | |- framed _ _ (setattr _ _) =>
      apply framed_setattr; solve [auto | simpl; intuition discriminate]
  | |- framed _ _ (forM _ _) => apply framed_forM; intros
  | |- framed _ _ (lift_loader _) => apply framed_lift_loader; solve [auto]
  | |- framed _ _ (if ?b then _ else _) => destruct b
  | |- framed _ _ (match ?x with _ => _ end) => destruct x
  end.

Ltac framed_auto := repeat (framed_step || solve [auto]).


(** ** Stepping through a method *)

Lemma bind_assoc {A B C} (m : M A) (g : A -> M B) (f : B -> M C) w :
  bind (bind m g) f w = bind m (fun a => bind (g a) f) w.
Proof. unfold bind. destruct (m w) as [w1 [a|e]]; reflexivity. Qed.

Lemma bind_ret {A B} (a : A) (f : A -> M B) w : bind (ret a) f w = f a w.
Proof. reflexivity. Qed.

Lemma bind_raise_l {A B} e (f : A -> M B) w :
  bind (raise e) f w = (w, Raise e).
Proof. reflexivity. Qed.

Lemma bind_lift_ok {A B} (a : A) (f : A -> M B) w :
  bind (lift (Ok a)) f w = f a w.
Proof. reflexivity. Qed.

Lemma bind_lift_raise {A B} e (f : A -> M B) w :
  bind (lift (Raise e)) f w = (w, Raise e).
Proof. reflexivity. Qed.

Lemma bind_emit {B} e (f : unit -> M B) w :
  bind (emit e) f w = f tt (mkWorld (self w) (out w ++ [e])).
Proof. reflexivity. Qed.

Lemma bind_print {B} s (f : unit -> M B) w :
  bind (print s) f w = f tt (mkWorld (self w) (out w ++ [EPrint s])).
Proof. reflexivity. Qed.

Lemma bind_setattr {B} k v (f : unit -> M B) w :
  bind (setattr k v) f w = f tt (mkWorld (<[k := v]> (self w)) (out w)).
Proof. reflexivity. Qed.

Lemma getattr_some k v w : self w !! k = Some v -> getattr k w = (w, Ok v).
Proof. unfold getattr. intros ->. reflexivity. Qed.

Lemma getattr_none k w :
  self w !! k = None -> getattr k w = (w, Raise (AttributeError k)).
Proof. unfold getattr. intros ->. reflexivity. Qed.

Lemma bind_getattr_some {B} k v (f : pyobj -> M B) w :
  self w !! k = Some v -> bind (getattr k) f w = f v w.
Proof. intros H. unfold bind. rewrite (getattr_some k v w H). reflexivity. Qed.

Lemma bind_getattr_none {B} k (f : pyobj -> M B) w :
  self w !! k = None -> bind (getattr k) f w = (w, Raise (AttributeError k)).
Proof. intros H. unfold bind. rewrite (getattr_none k w H). reflexivity. Qed.

Lemma bind_get_cfg {B} c (f : Cfg -> M B) w :
  self w !! "cfg" = Some (PCfg c) -> bind get_cfg f w = f c w.
Proof.
  intros H. unfold get_cfg. rewrite bind_assoc, (bind_getattr_some _ _ _ _ H).
  reflexivity.
Qed.

Ltac solve_lookup :=
  cbn [self];
  repeat (rewrite lookup_insert_ne by done);
  first [ eassumption | apply lookup_insert_eq | apply lookup_empty ].

Ltac run_step :=
  first
    [ progress rewrite bind_ret
    | progress rewrite bind_raise_l
    | progress rewrite bind_lift_ok
    | progress rewrite bind_lift_raise
    | progress rewrite bind_emit
    | progress rewrite bind_print
    | progress rewrite bind_setattr
    | erewrite bind_get_cfg by solve_lookup
    | erewrite bind_getattr_some by solve_lookup
    | erewrite bind_getattr_none by solve_lookup
    | progress cbn [self out]
    | progress rewrite bind_assoc ].

Ltac run := repeat run_step.

Lemma lift_ok_inv {A} (r : result A) w w' a :
  lift r w = (w', Ok a) -> r = Ok a /\ w' = w.
Proof. unfold lift. intros H. inversion H. auto. Qed.

Lemma make_loader_ok_inv {A} (d : Dataset A) bs sh dr dl :
  make_loader d bs sh dr = Ok dl ->
  (0 < bs)%Z /\ dl = mkDataLoader d (Z.to_nat bs) sh dr.
Proof.
  unfold make_loader. destruct (Z.leb_spec bs 0) as [Hle|Hgt]; intros Hm; inversion Hm.
  split; [lia | reflexivity].
Qed.

Tactic Notation "inv_bind_as" hyp(H) ident(w1) ident(H1) :=
  let a := fresh "a" in
  let H2 := fresh "Hrest" in
  apply bind_ok_inv in H; destruct H as (w1 & a & H1 & H2); rename H2 into H;
  try destruct a.

Ltac inv_bind H :=
  let w1 := fresh "w" in
  let a := fresh "a" in
  let H1 := fresh "Hstep" in
  let H2 := fresh "Hrest" in
  apply bind_ok_inv in H; destruct H as (w1 & a & H1 & H2); rename H2 into H.

(** What a successful [load_fgvc100] has returned. *)
Lemma load_fgvc100_ok_inv cu e cfg t w w' b :
  load_fgvc100 cu e cfg t w = (w', Ok b) ->
  let P := generate_instancedependent_candidate_labels e (fgvc_labels e) (1 # 10)%Q in
  (0 < batch_size cfg)%Z
  /\ b_partialY b = P
  /\ b_num_instances b = length (fgvc_labels e)
  /\ b_train_loader b =
       mkDataLoader
         (Partialize_dataset (fgvc_load_views e)
            (mkPartialize (fgvc_image_files e) (fgvc_labels e) P (fgvc_labels e)))
         (Z.to_nat (batch_size cfg)) true true.
Proof.
  unfold load_fgvc100. intros H.
  repeat inv_bind H.
  apply lift_ok_inv in Hstep7 as [Hl _].
  apply make_loader_ok_inv in Hl as [Hpos ->].
  unfold ret in H. inversion H; subst; clear H. simpl. auto.
Qed.

Section BatchSampler.
Variable B : nat.
Hypothesis B_pos : 0 < B.

Lemma batch_sampler_split (sampler batch : list nat) :
  length batch < B ->
  exists tail,
    batch ++ sampler = concat (batch_sampler B true batch sampler) ++ tail
    /\ length tail < B
    /\ Forall (fun b => length b = B) (batch_sampler B true batch sampler).
Proof.
  revert batch.
  induction sampler as [|idx rest IH]; intros batch Hlt; simpl.
  - exists batch. rewrite app_nil_r. auto.
  - destruct (Nat.eqb_spec (length (batch ++ [idx])) B) as [Hfull|Hnot].
    + destruct (IH [] B_pos) as (tail & Heq & Htail & Hall).
      exists tail. simpl. split; [|split]; auto.
      rewrite <- app_assoc, <- Heq. simpl.
      rewrite <- app_assoc. reflexivity.
    + assert (Hlt' : length (batch ++ [idx]) < B).
      { rewrite length_app in *. simpl in *. lia. }
      destruct (IH _ Hlt') as (tail & Heq & Htail & Hall).
      exists tail. split; [|split]; auto.
      rewrite <- Heq, <- app_assoc. reflexivity.
Qed.

Lemma concat_length_full (bs : list (list nat)) :
  Forall (fun b => length b = B) bs ->
  length (concat bs) = B * length bs.
Proof.
  induction 1 as [|b bs Hb _ IH]; simpl; [lia|].
  rewrite length_app, IH, Hb. lia.
Qed.

Lemma batch_sampler_visited (order : list nat) :
  exists tail,
    order = concat (batch_sampler B true [] order) ++ tail
    /\ length tail = length order mod B
    /\ length (concat (batch_sampler B true [] order))
       = length order - length order mod B.
Proof.
  destruct (batch_sampler_split order [] B_pos) as (tail & Heq & Htail & Hall).
  simpl in Heq.
  pose proof (concat_length_full _ Hall) as Hlen.
  assert (Hsum : length order
                 = B * length (batch_sampler B true [] order) + length tail).
  { rewrite Heq at 1. rewrite length_app, Hlen. reflexivity. }
  assert (Hmod : length tail = length order mod B).
  { apply Nat.mod_unique with (q := length (batch_sampler B true [] order)); auto. }
  exists tail. split; [exact Heq|]. split; [exact Hmod|].
  rewrite <- Hmod. lia.
Qed.
End BatchSampler.

(** C6 (as amended). In one epoch the training loader built by
    [load_fgvc100] (shuffle on, drop_last on) visits no index twice and
    only indices of the data set, but it visits [N - N mod B] of the [N]
    indices: exactly the first [N - N mod B] indices of the epoch's
    permutation, in their order, so that the last [N mod B] indices of the
    permutation are the ones left out; every index is visited exactly when
    the batch size divides [N]. *)
Theorem train_loader_epoch_indices cu e cfg t w w' b perm :
  load_fgvc100 cu e cfg t w = (w', Ok b) ->
  Permutation perm (seq 0 (length (fgvc_labels e))) ->
  let N := length (fgvc_labels e) in
  let B := Z.to_nat (batch_size cfg) in
  let visited := concat (epoch_indices (b_train_loader b) perm) in
  NoDup visited
  /\ (forall i, In i visited -> i < N)
  /\ length visited = N - N mod B
  /\ visited = firstn (N - N mod B) perm
  /\ perm = visited ++ skipn (N - N mod B) perm
  /\ (Permutation visited (seq 0 N) <-> N mod B = 0).
Proof.
  intros Hload Hperm N B visited.
  apply load_fgvc100_ok_inv in Hload as (Hpos & _ & _ & Hdl).
  assert (HB : 0 < B) by (unfold B; lia).
  assert (Hvis : visited = concat (batch_sampler B true [] perm)).
  { unfold visited, epoch_indices, sampler_order. rewrite Hdl. reflexivity. }
  destruct (batch_sampler_visited B HB perm) as (tail & Heq & Htail & Hlen).
  rewrite <- Hvis in Heq, Hlen.
  assert (HN : length perm = N) by (rewrite (Permutation_length Hperm); apply length_seq).
  rewrite HN in Htail, Hlen.
  assert (Hnd : NoDup perm) by (rewrite Hperm; apply NoDup_seq).
  assert (Hfirst : visited = firstn (N - N mod B) perm).
  { rewrite <- Hlen.
    transitivity (firstn (length visited) (visited ++ tail));
      [|rewrite <- Heq; reflexivity].
    rewrite firstn_app, Nat.sub_diag, firstn_all. simpl.
    rewrite app_nil_r. reflexivity. }
  split; [|split; [|split; [|split; [|split]]]].
  - rewrite Heq in Hnd. apply NoDup_app in Hnd as [Hv _]. exact Hv.
  - intros i Hi.
    assert (Hin : In i perm) by (rewrite Heq; apply in_or_app; auto).
    apply (Permutation_in _ Hperm) in Hin. apply in_seq in Hin. lia.
  - exact Hlen.
  - exact Hfirst.
  - rewrite Hfirst. symmetry. apply firstn_skipn.
  - split.
    + intros Hp. apply Permutation_length in Hp. rewrite length_seq, Hlen in Hp.
      pose proof (Nat.mod_upper_bound N B ltac:(lia)).
      pose proof (Nat.Div0.mod_le N B). lia.
    + intros Hz. rewrite Hz in Htail.
      destruct tail; [|discriminate].
      rewrite app_nil_r in Heq. rewrite <- Heq. exact Hperm.
Qed.

(** ** Confidence initialisation *)

Lemma rsum_binary (r : list Q) :
  binary_row r -> (rsum r == inject_Z (Z.of_nat (candidate_count r)))%Q.
Proof.
  unfold candidate_count.
  induction 1 as [|x r Hx _ IH]; simpl; [reflexivity|].
  destruct Hx as [-> | ->]; simpl.
  - rewrite IH. ring.
  - rewrite IH, Nat2Z.inj_succ, <- Z.add_1_l, inject_Z_plus. reflexivity.
Qed.

Lemma candidate_count_pos (r : list Q) :
  In 1%Q r -> 0 < candidate_count r.
Proof.
  unfold candidate_count.
  induction r as [|x r IH]; simpl; [tauto|].
  intros [-> | Hin].
  - change (Qeq_bool 1 1) with true. simpl. lia.
  - specialize (IH Hin). destruct (Qeq_bool x 1); simpl; lia.
Qed.

Lemma rsum_candidates_nonzero (r : list Q) :
  binary_row r -> In 1%Q r -> Qeq_bool (rsum r) 0 = false.
Proof.
  intros Hb Hin.
  apply not_true_is_false. intros Hz. apply Qeq_bool_eq in Hz.
  rewrite (rsum_binary r Hb) in Hz.
  pose proof (candidate_count_pos r Hin) as Hpos.
  unfold Qeq in Hz. simpl in Hz. lia.
Qed.

Lemma zip_with_repeat_r {A B C} (f : A -> B -> C) (l : list A) (b : B) n :
  length l <= n -> zip_with f l (repeat b n) = map (fun a => f a b) l.
Proof.
  revert n. induction l as [|a l IH]; intros n Hn; simpl; [reflexivity|].
  destruct n as [|n]; simpl in *; [lia|].
  rewrite IH by lia. reflexivity.
Qed.

(** On a rectangular tensor the broadcast division is a row-wise map. *)
Lemma uniform_targets_rows (partialY : matrix) :
  rectangular partialY ->
  uniform_targets partialY
  = map (fun r => map (fun x => float_div x (rsum r)) r) partialY.
Proof.
  unfold uniform_targets, tempY, rectangular.
  generalize (ncols partialY) as c.
  induction partialY as [|r m IH]; intros c Hrect; simpl; [reflexivity|].
  inversion Hrect as [|? ? Hr Hm]; subst.
  rewrite IH by exact Hm.
  rewrite zip_with_repeat_r by lia. reflexivity.
Qed.

Lemma fsum_Fin (f : Q -> Q) (r : list Q) :
  fsum (map (fun x => Fin (f x)) r) = Fin (rsum (map f r)).
Proof.
  unfold fsum.
  induction r as [|x r IH]; simpl; [reflexivity|].
  rewrite IH. reflexivity.
Qed.

Lemma rsum_div (s : Q) (r : list Q) :
  (rsum (map (fun x => x / s) r) == rsum r / s)%Q.
Proof.
  induction r as [|x r IH]; simpl.
  - unfold Qdiv. ring.
  - rewrite IH. unfold Qdiv. ring.
Qed.

Lemma normalised_row_entries (n : nat) (s : Q) (r : list Q) :
  (s == inject_Z (Z.of_nat n))%Q ->
  binary_row r ->
  Forall2
    (fun x v =>
       feq v (if Qeq_bool x 1 then Fin (1 / inject_Z (Z.of_nat n)) else Fin 0))
    r (map (fun x => Fin (x / s)) r).
Proof.
  intros Hs.
  induction 1 as [|x r' Hx _ IHr]; simpl; constructor; [|exact IHr].
  destruct Hx as [-> | ->].
  - change (Qeq_bool 0 1) with false. simpl. unfold Qdiv. ring.
  - change (Qeq_bool 1 1) with true. simpl. rewrite Hs. reflexivity.
Qed.

(** For a 0/1 candidate matrix in which every row has a candidate, the
    quotient of a row is [1 / (number of candidates)] where the mask is 1
    and [0] where it is 0, and the row sums to 1. *)
Lemma uniform_targets_rows_uniform (partialY : matrix) :
  rectangular partialY ->
  binary partialY ->
  Forall (fun r => In 1%Q r) partialY ->
  Forall2
    (fun r c =>
       Forall2
         (fun x v =>
            feq v (if Qeq_bool x 1
                   then Fin (1 / inject_Z (Z.of_nat (candidate_count r)))
                   else Fin 0))
         r c
       /\ feq (fsum c) (Fin 1))
    partialY (uniform_targets partialY).
Proof.
  intros Hrect Hbin Hcand.
  rewrite (uniform_targets_rows partialY Hrect).
  clear Hrect.
  induction partialY as [|r m IH]; simpl; [constructor|].
  inversion Hbin as [|? ? Hr Hm]; subst.
  inversion Hcand as [|? ? Hin Hc]; subst.
  constructor; [|apply IH; assumption].
  pose proof (rsum_candidates_nonzero r Hr Hin) as Hnz.
  pose proof (rsum_binary r Hr) as Hsum.
  assert (Hrow : map (fun x => float_div x (rsum r)) r
                 = map (fun x => Fin (x / rsum r)) r).
  { apply map_ext. intros x. unfold float_div. rewrite Hnz. reflexivity. }
  rewrite Hrow. split.
  - apply normalised_row_entries; assumption.
  - rewrite (fsum_Fin (fun x => (x / rsum r)%Q)). simpl.
    rewrite rsum_div. apply Qmult_inv_r.
    intros Hz. apply Qeq_bool_iff in Hz. congruence.
Qed.

Lemma rsum_zero_row (r : list Q) :
  Forall (fun x => x = 0%Q) r -> (rsum r == 0)%Q.
Proof.
  induction 1 as [|x r Hx _ IH]; simpl; [reflexivity|].
  rewrite Hx, IH. reflexivity.
Qed.

Lemma normalise_zero_row (r : list Q) :
  Forall (fun x => x = 0%Q) r ->
  map (fun x => float_div x (rsum r)) r = repeat NaN (length r).
Proof.
  intros Hz.
  pose proof (rsum_zero_row r Hz) as Hs.
  apply Qeq_bool_iff in Hs.
  revert Hs. generalize (rsum r) as s. intros s Hs.
  induction Hz as [|x r Hx _ IH]; simpl; [reflexivity|].
  rewrite IH, Hx. unfold float_div. rewrite Hs. reflexivity.
Qed.

Lemma uniform_targets_zero_row (partialY : matrix) (i : nat) (r : list Q) :
  rectangular partialY ->
  partialY !! i = Some r ->
  Forall (fun x => x = 0%Q) r ->
  uniform_targets partialY !! i = Some (repeat NaN (length r)).
Proof.
  intros Hrect Hi Hz.
  rewrite (uniform_targets_rows partialY Hrect). clear Hrect.
  revert i Hi.
  induction partialY as [|r0 m IH]; intros [|i] Hi; simpl in *; try discriminate.
  - inversion Hi; subst. rewrite normalise_zero_row by assumption. reflexivity.
  - apply IH. exact Hi.
Qed.

Lemma build_criterion_stores_confidence env w cfg partialY :
  self w !! "cfg" = Some (PCfg cfg) ->
  self w !! "partialY" = Some (PTensor partialY) ->
  cuda_available env = true ->
  self (fst (build_criterion env w)) !! "confidence"
  = Some (PConfidence (uniform_targets partialY)).
Proof.
  intros Hcfg HP Hcuda.
  unfold build_criterion, get_partialY, cuda. rewrite Hcuda. run.
  match goal with
  | |- self (fst (?m ?w1)) !! _ = _ =>
      assert (Hf : framed ["confidence"] (fun _ => true) m)
  end.
  { unfold to_device. framed_auto. }
  match goal with
  | |- self (fst (?m ?w1)) !! _ = _ => destruct (Hf w1) as (Hk & _)
  end.
  rewrite Hk by (simpl; auto). simpl. apply lookup_insert_eq.
Qed.

Lemma rounded_sum_error (u : Q) (rnd : Q -> Q) (l : list Q) :
  rounding u rnd ->
  Forall (fun x => (0 <= x)%Q) l ->
  (Qabs (rsum (map rnd l) - rsum l) <= u * rsum l)%Q.
Proof.
  intros Hrnd. induction 1 as [|x l Hx _ IH].
  - unfold Qle. simpl. lia.
  - change (rsum (map rnd (x :: l))) with (rnd x + rsum (map rnd l))%Q.
    change (rsum (x :: l)) with (x + rsum l)%Q.
    assert (E1 : (rnd x + rsum (map rnd l) - (x + rsum l)
                  == (rnd x - x) + (rsum (map rnd l) - rsum l))%Q) by ring.
    assert (E2 : (u * (x + rsum l) == u * x + u * rsum l)%Q) by ring.
    rewrite E1, E2.
    eapply Qle_trans; [apply Qabs_triangle|].
    apply Qplus_le_compat; [|exact IH].
    specialize (Hrnd x). rewrite (Qabs_pos x Hx) in Hrnd. exact Hrnd.
Qed.

(** The row of a 0/1 mask with a candidate, divided by its sum and then
    rounded, sums to 1 within the unit roundoff. *)
Lemma rounded_row_sum (u : Q) (rnd : Q -> Q) (r : list Q) :
  rounding u rnd ->
  binary_row r -> In 1%Q r ->
  exists s,
    fsum (map (fround rnd) (map (fun x => Fin (x / rsum r)) r)) = Fin s
    /\ (Qabs (s - 1) <= u)%Q.
Proof.
  intros Hrnd Hb Hin.
  exists (rsum (map rnd (map (fun x => (x / rsum r)%Q) r))).
  split.
  - rewrite !map_map. cbn [fround].
    apply (fsum_Fin (fun x => rnd (x / rsum r)%Q)).
  - pose proof (rsum_binary r Hb) as Hsum.
    pose proof (candidate_count_pos r Hin) as Hpos.
    assert (Hs : (0 < rsum r)%Q).
    { rewrite Hsum. unfold Qlt. simpl. lia. }
    assert (Hone : (rsum (map (fun x => x / rsum r) r) == 1)%Q).
    { rewrite rsum_div. apply Qmult_inv_r.
      intros Hz. rewrite Hz in Hs. discriminate. }
    assert (Hnn : Forall (fun x => (0 <= x)%Q) (map (fun x => (x / rsum r)%Q) r)).
    { apply List.Forall_forall. intros q Hq. apply in_map_iff in Hq as (x & <- & Hx).
      assert (Hx01 : x = 0%Q \/ x = 1%Q).
      { unfold binary_row in Hb. rewrite Forall_forall in Hb.
        apply Hb. apply list_elem_of_In. exact Hx. }
      apply Qle_shift_div_l; [exact Hs|].
      destruct Hx01 as [-> | ->]; discriminate. }
    pose proof (rounded_sum_error u rnd _ Hrnd Hnn) as Herr.
    rewrite Hone in Herr.
    assert (E : (u * 1 == u)%Q) by ring.
    rewrite E in Herr. exact Herr.
Qed.

(** C2. On an object that holds a 0/1 candidate matrix [partialY] in which
    every row has a candidate, and everything else that [build_criterion]
    reads, [build_criterion] returns and stores as [confidence] a matrix
    whose row is [1 / (number of candidates)] where the mask is 1 and [0]
    where it is 0, so that the row sums to 1. The quotients are exact
    rationals here; a floating division rounds each of them, and under
    every rounding of unit roundoff [u] the stored row still sums to 1
    within [u]. *)
Theorem build_criterion_uniform_confidence env w cfg partialY alg d :
  self w !! "cfg" = Some (PCfg cfg) ->
  self w !! "partialY" = Some (PTensor partialY) ->
  cuda_available env = true ->
  is_Some (self w !! "num_instances") ->
  is_Some (self w !! "num_classes") ->
  is_Some (self w !! "model") ->
  self w !! "device" = Some (PDevice d) ->
  get_algorithm_class env (loss_type cfg) = Ok alg ->
  rectangular partialY ->
  binary partialY ->
  Forall (fun r => In 1%Q r) partialY ->
  exists w' conf,
    build_criterion env w = (w', Ok tt)
    /\ self w' !! "confidence" = Some (PConfidence conf)
    /\ Forall2
         (fun r c =>
            Forall2
              (fun x v =>
                 feq v (if Qeq_bool x 1
                        then Fin (1 / inject_Z (Z.of_nat (candidate_count r)))
                        else Fin 0))
              r c
            /\ feq (fsum c) (Fin 1))
         partialY conf
    /\ (forall u rnd,
          rounding u rnd ->
          Forall (fun c => exists s, fsum (map (fround rnd) c) = Fin s
                                     /\ (Qabs (s - 1) <= u)%Q)
                 conf).
Proof.
  intros Hcfg HP Hcuda [n Hn] [c Hc] [m Hm] Hd Halg Hrect Hbin Hcand.
  exists (fst (build_criterion env w)), (uniform_targets partialY).
  split; [|split; [|split]].
  - unfold build_criterion, get_partialY, cuda, to_device.
    rewrite Hcuda. run. rewrite Halg. run.
    destruct (String.prefix "cuda" d); run; reflexivity.
  - apply (build_criterion_stores_confidence env w cfg); assumption.
  - apply uniform_targets_rows_uniform; assumption.
  - intros u rnd Hrnd.
    rewrite (uniform_targets_rows partialY Hrect).
    clear Hrect HP.
    induction partialY as [|r P IH]; simpl; [constructor|].
    inversion Hbin as [|? ? Hr HPb]; subst.
    inversion Hcand as [|? ? Hin HPc]; subst.
    apply List.Forall_cons; [|apply IH; assumption].
    assert (Hrow : map (fun x => float_div x (rsum r)) r
                   = map (fun x => Fin (x / rsum r)) r).
    { apply map_ext. intros x. unfold float_div.
      rewrite (rsum_candidates_nonzero r Hr Hin). reflexivity. }
    rewrite Hrow. apply rounded_row_sum; assumption.
Qed.

(** C3 (as amended). When a row of the candidate matrix is all zero,
    [build_criterion] raises nothing on that account: with everything else
    it needs in place it returns normally, and the confidence it stores has
    NaN in every entry of that row. *)
Theorem build_criterion_empty_support env w cfg partialY i r alg d :
  self w !! "cfg" = Some (PCfg cfg) ->
  self w !! "partialY" = Some (PTensor partialY) ->
  cuda_available env = true ->
  is_Some (self w !! "num_instances") ->
  is_Some (self w !! "num_classes") ->
  is_Some (self w !! "model") ->
  self w !! "device" = Some (PDevice d) ->
  get_algorithm_class env (loss_type cfg) = Ok alg ->
  rectangular partialY ->
  partialY !! i = Some r ->
  Forall (fun x => x = 0%Q) r ->
  exists w' conf,
    build_criterion env w = (w', Ok tt)
    /\ self w' !! "confidence" = Some (PConfidence conf)
    /\ conf !! i = Some (repeat NaN (length r)).
Proof.
  intros Hcfg HP Hcuda [n Hn] [c Hc] [m Hm] Hd Halg Hrect Hi Hz.
  unfold build_criterion, get_partialY, cuda, to_device.
  rewrite Hcuda. run. rewrite Halg. run.
  destruct (String.prefix "cuda" d); run;
    (eexists _, _; split; [reflexivity|]; split;
      [solve_lookup | apply uniform_targets_zero_row; assumption]).
Qed.

(** ** The generation check *)

Lemma rsum_one_hot_from (r : list Q) (a y : nat) :
  Qeq (rsum (zip_with Qmult r
               (map (fun j => if j =? y then 1%Q else 0%Q) (seq a (length r)))))
      (match (if a <=? y then r !! (y - a) else None) with
       | Some v => v
       | None => 0%Q
       end).
Proof.
  revert a. induction r as [|x r IH]; intros a; simpl.
  - destruct (a <=? y); reflexivity.
  - rewrite IH.
    destruct (Nat.eqb_spec a y) as [->|Hne].
    + assert (Hf : (S y <=? y) = false) by (apply Nat.leb_gt; lia).
      rewrite Hf, Nat.leb_refl, Nat.sub_diag. simpl. ring.
    + destruct (Nat.leb_spec a y) as [Hle|Hgt].
      * assert (Ht : (S a <=? y) = true) by (apply Nat.leb_le; lia).
        rewrite Ht. replace (y - a) with (S (y - S a)) by lia. simpl. ring.
      * assert (Hf : (S a <=? y) = false) by (apply Nat.leb_gt; lia).
        rewrite Hf. ring.
Qed.

Lemma hit_binary (r : list Q) (y : nat) :
  binary_row r -> y < length r ->
  (Qeq (rsum (zip_with Qmult r (one_hot_row (length r) y))) 1
   /\ r !! y = Some 1%Q)
  \/ (Qeq (rsum (zip_with Qmult r (one_hot_row (length r) y))) 0
      /\ r !! y = Some 0%Q).
Proof.
  intros Hb Hy. unfold one_hot_row.
  pose proof (rsum_one_hot_from r 0 y) as Hs.
  simpl in Hs. rewrite Nat.sub_0_r in Hs.
  destruct (lookup_lt_is_Some_2 r y Hy) as [v Hv].
  rewrite Hv in Hs.
  assert (Hin : v = 0%Q \/ v = 1%Q).
  { unfold binary_row in Hb. rewrite Forall_forall in Hb.
    apply Hb. eapply list_elem_of_lookup_2. exact Hv. }
  destruct Hin as [-> | ->]; [right | left]; auto.
Qed.

Lemma existsb_combine_seq (ori_labels : list nat) (r j : nat) : forall a,
  existsb (fun p => (fst p =? r) && (j =? snd p))
          (combine (seq a (length ori_labels)) ori_labels)
  = match (if a <=? r then ori_labels !! (r - a) else None) with
    | Some y => j =? y
    | None => false
    end.
Proof.
  induction ori_labels as [|y ys IH]; intros a; simpl.
  - destruct (a <=? r); reflexivity.
  - rewrite IH.
    destruct (Nat.eqb_spec a r) as [->|Hne].
    + assert (Hf : (S r <=? r) = false) by (apply Nat.leb_gt; lia).
      rewrite Hf, Nat.leb_refl, Nat.sub_diag. simpl. apply orb_false_r.
    + destruct (Nat.leb_spec a r) as [Hle|Hgt].
      * assert (Ht : (S a <=? r) = true) by (apply Nat.leb_le; lia).
        rewrite Ht. replace (r - a) with (S (r - S a)) by lia. reflexivity.
      * assert (Hf : (S a <=? r) = false) by (apply Nat.leb_gt; lia).
        rewrite Hf. reflexivity.
Qed.

Lemma map_lookup_seq {A B} (F : option A -> B) (l : list A) : forall a,
  map (fun r => F (l !! (r - a))) (seq a (length l)) = map (fun x => F (Some x)) l.
Proof.
  induction l as [|x l IH]; intros a; simpl; [reflexivity|].
  rewrite Nat.sub_diag. simpl. f_equal.
  rewrite <- (IH (S a)). apply map_ext_in. intros r Hr. apply in_seq in Hr.
  replace (r - a) with (S (r - S a)) by lia. reflexivity.
Qed.

(** With as many labels as rows, the scatter writes one one per row, at the
    label of that row. *)
Lemma scatter_ones_aligned (ncol : nat) (ori_labels : list nat) :
  scatter_ones (length ori_labels) ncol
    (combine (seq 0 (length ori_labels)) ori_labels)
  = map (one_hot_row ncol) ori_labels.
Proof.
  unfold scatter_ones, one_hot_row.
  rewrite <- (map_lookup_seq
                (fun o => map (fun j => if match o with
                                           | Some y => j =? y
                                           | None => false
                                           end then 1%Q else 0%Q) (seq 0 ncol))
                ori_labels 0).
  apply map_ext_in. intros r Hr. apply map_ext. intros j.
  rewrite (existsb_combine_seq ori_labels r j 0). simpl. reflexivity.
Qed.

Lemma forallb_combine_seq (f : nat -> bool) (l : list nat) : forall a,
  forallb (fun p => f (snd p)) (combine (seq a (length l)) l) = forallb f l.
Proof.
  induction l as [|x l IH]; intros a; simpl; [reflexivity|].
  rewrite IH. reflexivity.
Qed.

Lemma forallb_map_comp {A B} (f : B -> bool) (g : A -> B) (l : list A) :
  forallb f (map g l) = forallb (fun x => f (g x)) l.
Proof.
  induction l as [|x l IH]; simpl; [reflexivity | rewrite IH; reflexivity].
Qed.

Lemma true_label_one_hot_aligned nrows ncol ori_labels :
  length ori_labels = nrows ->
  true_label_one_hot nrows ncol ori_labels
  = if forallb (fun y => y <? ncol) ori_labels
    then Ok (map (one_hot_row ncol) ori_labels)
    else Raise IndexError.
Proof.
  intros <-. unfold true_label_one_hot, broadcast_indices.
  rewrite length_seq, Nat.eqb_refl.
  rewrite (forallb_combine_seq (fun y => y <? ncol) ori_labels 0).
  rewrite scatter_ones_aligned. reflexivity.
Qed.

(** What the advanced indexing of line 44 has checked when it returns: the
    labels and the rows broadcast against each other, and every label that
    was used lies inside the row. Only with as many labels as rows is the
    result the one-hot encoding of the labels. *)
Lemma true_label_one_hot_ok_inv nrows ncol ori_labels temp :
  true_label_one_hot nrows ncol ori_labels = Ok temp ->
  (length ori_labels = nrows \/ nrows = 1 \/ length ori_labels = 1)
  /\ (0 < nrows -> Forall (fun y => y < ncol) ori_labels)
  /\ (length ori_labels = nrows -> temp = map (one_hot_row ncol) ori_labels).
Proof.
  intros H.
  assert (Hall : forall l, forallb (fun y => y <? ncol) l = true ->
                           Forall (fun y => y < ncol) l).
  { intros l Hl. rewrite forallb_forall in Hl. apply Forall_forall.
    intros y Hy. apply Nat.ltb_lt, Hl, list_elem_of_In, Hy. }
  destruct (Nat.eq_dec (length ori_labels) nrows) as [Heq|Hne].
  - rewrite (true_label_one_hot_aligned _ _ _ Heq) in H.
    destruct (forallb (fun y => y <? ncol) ori_labels) eqn:Hf; [|discriminate].
    inversion H; subst temp. split; [auto|]. split; [auto|]. auto.
  - unfold true_label_one_hot, broadcast_indices in H.
    rewrite length_seq in H.
    destruct (Nat.eqb_spec nrows (length ori_labels)) as [E|_]; [congruence|].
    destruct (Nat.eqb_spec nrows 1) as [E1|N1].
    + subst nrows. simpl in H.
      destruct (forallb _ _) eqn:Hf in H; [|discriminate].
      rewrite forallb_map_comp in Hf. simpl in Hf.
      split; [auto|]. split; [intros _; apply Hall; exact Hf|].
      intros E. congruence.
    + destruct (Nat.eqb_spec (length ori_labels) 1) as [E2|N2]; [|discriminate].
      destruct ori_labels as [|y [|y' ys]]; try discriminate. simpl in H.
      destruct (forallb _ _) eqn:Hf in H; [|discriminate].
      split; [auto|]. split; [|intros E; simpl in E; congruence].
      intros Hpos. destruct nrows as [|n]; [lia|].
      simpl in Hf. apply andb_prop in Hf as [Hy _].
      constructor; [apply Nat.ltb_lt; exact Hy | constructor].
Qed.

(** The score that the check compares with the number of rows lies between
    0 and that number, and reaches it exactly when every row has its true
    label among the candidates. *)
Lemma generation_score (ncol : nat) (P : matrix) (ori_labels : list nat) :
  binary P ->
  Forall (fun r => length r = ncol) P ->
  Forall (fun y => y < ncol) ori_labels ->
  length ori_labels = length P ->
  let score := tensor_sum (hadamard P (map (one_hot_row ncol) ori_labels)) in
  (0 <= score)%Q
  /\ (score <= inject_Z (Z.of_nat (length P)))%Q
  /\ (Qeq score (inject_Z (Z.of_nat (length P)))
      <-> Forall2 (fun r y => r !! y = Some 1%Q) P ori_labels).
Proof.
  intros Hbin Hrect. revert ori_labels.
  induction P as [|r P IH]; intros [|y ys] Hlab Hlen; simpl in *;
    try discriminate.
  - split; [apply Qle_refl|]. split; [apply Qle_refl|].
    split; [constructor | reflexivity].
  - inversion Hbin as [|? ? Hr HP]; subst.
    inversion Hrect as [|? ? Hlr HrP]; subst.
    inversion Hlab as [|? ? Hy Hys]; subst.
    destruct (IH HP HrP ys Hys ltac:(lia)) as (H0 & Hle & Hiff).
    unfold tensor_sum, hadamard in *. simpl.
    rewrite Nat2Z.inj_succ, <- Z.add_1_l, inject_Z_plus.
    set (rest := rsum (map rsum (zip_with (zip_with Qmult) P
                                   (map (one_hot_row (length r)) ys)))) in *.
    set (n := inject_Z (Z.of_nat (length P))) in *.
    destruct (hit_binary r y Hr Hy) as [[Hs Hv] | [Hs Hv]]; rewrite Hs.
    + split; [|split].
      * apply Qle_trans with (0 + 0)%Q; [apply Qle_refl|].
        apply Qplus_le_compat; [discriminate | exact H0].
      * apply Qplus_le_compat; [apply Qle_refl | exact Hle].
      * split.
        -- intros Heq. constructor; [exact Hv|]. apply Hiff.
           apply Qplus_inj_l with (z := inject_Z 1). exact Heq.
        -- intros HF. inversion HF; subst.
           apply Qplus_inj_l. apply Hiff. assumption.
    + split; [|split].
      * rewrite Qplus_0_l. exact H0.
      * rewrite Qplus_0_l. apply Qle_trans with (0 + n)%Q.
        -- rewrite Qplus_0_l. exact Hle.
        -- apply Qplus_le_compat; [discriminate | apply Qle_refl].
      * split.
        -- intros Heq. exfalso. rewrite Qplus_0_l in Heq.
           rewrite Heq in Hle.
           apply (Qle_not_lt _ _ Hle).
           rewrite <- (Qplus_0_l n) at 1.
           apply Qplus_lt_le_compat; [reflexivity | apply Qle_refl].
        -- intros HF. inversion HF as [|? ? ? ? Hv1]; subst.
           rewrite Hv in Hv1. discriminate.
Qed.

Lemma generation_check_spec (P : matrix) (ori_labels : list nat) (temp : matrix) :
  binary P ->
  rectangular P ->
  length ori_labels = length P ->
  true_label_one_hot (length P) (ncols P) ori_labels = Ok temp ->
  generation_check P temp = true
  <-> Forall2 (fun r y => r !! y = Some 1%Q) P ori_labels.
Proof.
  intros Hbin Hrect Hlen Htemp.
  apply true_label_one_hot_ok_inv in Htemp as (_ & Hlab & Htemp).
  rewrite (Htemp Hlen).
  assert (Hlab' : Forall (fun y => y < ncols P) ori_labels).
  { destruct P as [|r P']; [|apply Hlab; simpl; lia].
    destruct ori_labels; [constructor | discriminate]. }
  clear Hlab. rename Hlab' into Hlab.
  destruct (generation_score (ncols P) P ori_labels Hbin Hrect Hlab Hlen)
    as (_ & _ & Hiff).
  unfold generation_check. rewrite Qeq_bool_iff. exact Hiff.
Qed.

Lemma make_loader_ok {A} (d : Dataset A) bs sh dr :
  (0 < bs)%Z -> make_loader d bs sh dr = Ok (mkDataLoader d (Z.to_nat bs) sh dr).
Proof.
  intros Hpos. unfold make_loader.
  destruct (Z.leb_spec bs 0); [lia | reflexivity].
Qed.

(** C1 (as amended). [load_fgvc100] compares the sum of (candidate matrix
    times one-hot true labels) with the number of rows of the matrix; for a
    0/1 matrix with one row per sample the two agree exactly when every
    sample's true label is a candidate. The outcome of the comparison only
    decides whether the line [data loading done !] is printed: whether it
    holds or not, nothing is raised and the same six values are returned
    (the two loaders, the matrix, the two counts and the class names),
    none of which depends on the check. *)
Theorem load_fgvc100_check_outcome e cfg t w cn temp :
  let ori_labels := fgvc_labels e in
  let P := generate_instancedependent_candidate_labels e ori_labels (1 # 10)%Q in
  ori_labels <> [] ->
  fgvc_classnames e = Some cn ->
  (0 < batch_size cfg)%Z ->
  fgvc_weights e = true ->
  true_label_one_hot (length P) (ncols P) ori_labels = Ok temp ->
  load_fgvc100 true e cfg t w
  = (mkWorld (self w)
       (out w ++ [EPrint (pretty (length cn)); ECuda "wide_resnet50_2"]
              ++ (if generation_check P temp
                  then [EPrint "data loading done !"] else [])),
     Ok (mkBundle
           (mkDataLoader
              (Partialize_dataset (fgvc_load_views e)
                 (mkPartialize (fgvc_image_files e) ori_labels P ori_labels))
              (Z.to_nat (batch_size cfg)) true true)
           P
           (mkDataLoader (fgvc_test e t) (Z.to_nat (batch_size cfg))
                         false false)
           (length ori_labels)
           (length cn)
           cn))
  /\ (binary P -> rectangular P -> length ori_labels = length P ->
      (generation_check P temp = true
       <-> Forall2 (fun r y => r !! y = Some 1%Q) P ori_labels)).
Proof.
  intros ori_labels P Hne Hcn Hbs Hweights Htemp.
  assert (Hlen : (0 < Z.of_nat (length (fgvc_labels e)))%Z).
  { subst ori_labels. destruct (fgvc_labels e); simpl; [congruence | lia]. }
  split.
  - unfold load_fgvc100, cuda. fold ori_labels. fold P.
    rewrite Hcn, Hweights, Htemp.
    rewrite (make_loader_ok _ _ _ _ Hlen), !(make_loader_ok _ _ _ _ Hbs).
    run.
    destruct (generation_check P temp); run;
      rewrite <- ?app_assoc, ?app_nil_r; reflexivity.
  - intros Hb Hr Hl. exact (generation_check_spec P ori_labels temp Hb Hr Hl Htemp).
Qed.

(** ** Frames of the trainer's methods *)

Lemma framed_cuda ks P b what :
  (forall s, P (ECuda s) = true) -> framed ks P (cuda b what).
Proof. intros Hc. unfold cuda. framed_auto. Qed.

Lemma framed_to_device ks P what :
  (forall s, P (ECuda s) = true) -> framed ks P (to_device what).
Proof. intros Hc. unfold to_device. framed_auto. Qed.

Lemma framed_get_cfg ks P : framed ks P get_cfg.
Proof. unfold get_cfg. framed_auto. Qed.

Lemma framed_get_classnames ks P : framed ks P get_classnames.
Proof. unfold get_classnames. framed_auto. Qed.

Lemma framed_get_module ks P name method : framed ks P (get_module name method).
Proof. unfold get_module. framed_auto. Qed.

Lemma framed_get_model ks P method : framed ks P (get_model method).
Proof. unfold get_model. framed_auto. Qed.

Lemma framed_load_fgvc100 ks P cu e cfg t :
  (forall s, P (EPrint s) = true) -> (forall s, P (ECuda s) = true) ->
  framed ks P (load_fgvc100 cu e cfg t).
Proof.
  intros Hp Hc. unfold load_fgvc100.
  framed_auto; apply framed_cuda; assumption.
Qed.

Create HintDb frames.
#[export] Hint Resolve framed_cuda framed_to_device framed_get_cfg
  framed_get_classnames framed_get_module framed_get_model
  framed_load_fgvc100 : frames.

Ltac frames := repeat (framed_step || solve [auto with frames]).

Section LoaderFrames.
Variable ks : list string.
Variable P : event -> bool.
Hypothesis ks_free : forall k, In k ks -> ~ In k loader_attrs.
Hypothesis P_print : forall s, P (EPrint s) = true.
Hypothesis P_cuda : forall s, P (ECuda s) = true.

Lemma loader_attr_free k : In k loader_attrs -> ~ In k ks.
Proof. intros Ha Hk. exact (ks_free k Hk Ha). Qed.

Local Hint Resolve loader_attr_free : core.
Local Hint Extern 1 (In _ loader_attrs) => (simpl; tauto) : core.

Lemma framed_store_bundle b : framed ks P (store_bundle b).
Proof. unfold store_bundle. frames. Qed.

Lemma framed_build_data_loader_datasets env cfg t :
  framed ks P (build_data_loader_datasets env cfg t).
Proof.
  unfold build_data_loader_datasets, use_transform_test.
  pose proof framed_store_bundle. frames.
Qed.

Lemma framed_build_data_loader env : framed ks P (build_data_loader env).
Proof.
  unfold build_data_loader.
  pose proof framed_build_data_loader_datasets. frames.
Qed.
End LoaderFrames.

Section ModelFrames.
Variable ks : list string.
Variable P : event -> bool.
Hypothesis ks_free : forall k, In k ks -> ~ In k model_attrs.
Hypothesis P_print : forall s, P (EPrint s) = true.
Hypothesis P_cuda : forall s, P (ECuda s) = true.
Hypothesis P_cache : P EEmptyCache = true.

Lemma model_attr_free k : In k model_attrs -> ~ In k ks.
Proof. intros Ha Hk. exact (ks_free k Hk Ha). Qed.

Local Hint Resolve model_attr_free : core.
Local Hint Extern 1 (In _ model_attrs) => (simpl; tauto) : core.

Lemma framed_build_optimizer : framed ks P build_optimizer.
Proof. unfold build_optimizer. frames. Qed.

Lemma framed_build_criterion env : framed ks P (build_criterion env).
Proof. unfold build_criterion, get_partialY. frames. Qed.

Lemma framed_build_model_network env cfg n :
  framed ks P (build_model_network env cfg n).
Proof.
  unfold build_model_network, get_tokenized_prompts, submodule. frames.
Qed.

Lemma framed_build_model_parallel env cfg :
  framed ks P (build_model_parallel env cfg).
Proof. unfold build_model_parallel. frames. Qed.

Lemma framed_encode_text : framed ks P encode_text.
Proof. unfold encode_text. frames. Qed.

Lemma framed_extract_init_features : framed ks P extract_init_features.
Proof. unfold extract_init_features. frames. Qed.


Section WithApplyWeight.
Hypothesis P_apply : forall s, P (EApplyWeight s) = true.

Lemma framed_init_head_text_feat env : framed ks P (init_head_text_feat env).
Proof.
  unfold init_head_text_feat, get_tokenized_prompts.
  pose proof framed_encode_text. frames.
Qed.

Lemma framed_init_head_class_mean : framed ks P init_head_class_mean.
Proof.
  unfold init_head_class_mean.
  pose proof framed_extract_init_features. frames.
Qed.

Lemma framed_init_head_linear_probe : framed ks P init_head_linear_probe.
Proof.
  unfold init_head_linear_probe.
  pose proof framed_extract_init_features. frames.
Qed.

Lemma framed_build_model_training env cfg :
  framed ks P (build_model_training env cfg).
Proof.
  unfold build_model_training, build_model_init_head.
  pose proof framed_build_optimizer. pose proof framed_build_criterion.
  pose proof framed_init_head_text_feat.
  pose proof framed_init_head_class_mean.
  pose proof framed_init_head_linear_probe.
  frames.
Qed.

Lemma framed_build_model env : framed ks P (build_model env).
Proof.
  unfold build_model.
  pose proof framed_build_model_network.
  pose proof framed_build_model_training.
  pose proof framed_build_model_parallel.
  frames.
Qed.
End WithApplyWeight.
End ModelFrames.

(** ** The batch-size assertion *)

Lemma surjective_run {A} (m : M A) (w : world) : m w = (fst (m w), snd (m w)).
Proof. destruct (m w); reflexivity. Qed.

(** Device selection on a fresh object: it fails exactly for a [cfg.gpu]
    that names no device, and then nothing has been assigned or logged. *)
Lemma select_device_outcome env cfg :
  select_device env cfg fresh
  = if valid_gpu env cfg
    then (mkWorld (<["device" := PDevice (device_name env cfg)]> ∅)
                  (device_events env cfg), Ok tt)
    else (fresh,
          Raise (RuntimeError
                   match gpu cfg with
                   | Some g => if (g <? 0)%Z then "Invalid device string"
                               else "CUDA error: invalid device ordinal"
                   | None => ""
                   end)).
Proof.
  unfold select_device, valid_gpu, device_name, device_events, set_device,
    cuda_device.
  destruct (cuda_available env); [|reflexivity].
  destruct (gpu cfg) as [g|]; [|reflexivity]. simpl negb. cbv iota. simpl orb.
  destruct (Z.ltb_spec g 0) as [Hneg|Hpos].
  - assert (Hf : (0 <=? g)%Z = false) by (apply Z.leb_gt; lia).
    rewrite Hf. reflexivity.
  - assert (Ht : (0 <=? g)%Z = true) by (apply Z.leb_le; lia).
    rewrite Ht. simpl andb.
    destruct (g <? Z.of_nat (device_count env))%Z; reflexivity.
Qed.

Lemma device_events_no_apply_weight env cfg :
  forallb no_apply_weight (device_events env cfg) = true.
Proof.
  unfold device_events.
  destruct (cuda_available env); [destruct (gpu cfg)|]; reflexivity.
Qed.

(** [__init__] either stops in the device selection, or goes on from an
    object that holds the device and the configuration. *)
Lemma Trainer_init_prefix env cfg :
  (valid_gpu env cfg = false
   /\ exists msg, Trainer_init env cfg fresh = (fresh, Raise (RuntimeError msg)))
  \/ (valid_gpu env cfg = true
      /\ Trainer_init env cfg fresh
         = (build_data_loader env ;;;
            build_model env ;;;
            setattr "evaluator" (PEvaluator []) ;;;
            setattr "_writer" PNone)
           (after_device (device_name env cfg) cfg (device_events env cfg))).
Proof.
  pose proof (select_device_outcome env cfg) as Hsel.
  unfold Trainer_init.
  destruct (valid_gpu env cfg); [right | left]; (split; [reflexivity|]).
  - rewrite (bind_ok _ _ _ _ _ Hsel). run. reflexivity.
  - eexists. rewrite (bind_raise _ _ _ _ _ Hsel). reflexivity.
Qed.

Lemma after_device_cfg d cfg l :
  self (after_device d cfg l) !! "cfg" = Some (PCfg cfg).
Proof. unfold after_device. solve_lookup. Qed.

Lemma after_device_unassigned d cfg l k :
  k <> "cfg" -> k <> "device" -> self (after_device d cfg l) !! k = None.
Proof.
  intros H1 H2. unfold after_device. simpl.
  rewrite !lookup_insert_ne by congruence. apply lookup_empty.
Qed.

Lemma existsb_forallb_neg {A} (f : A -> bool) (l : list A) :
  forallb (fun x => negb (f x)) l = true -> existsb f l = false.
Proof.
  induction l as [|x l IH]; simpl; [reflexivity|].
  intros H. apply andb_prop in H as [Hx Hl].
  rewrite (IH Hl). destruct (f x); [discriminate | reflexivity].
Qed.

(** [build_data_loader] up to the data-set dispatch: the configuration is
    read and the two normalisation lines are printed. *)
Lemma build_data_loader_start env cfg w :
  self w !! "cfg" = Some (PCfg cfg) ->
  build_data_loader env w
  = (build_data_loader_datasets env cfg (choose_transform_test cfg) ;;;
     r <- lift (py_mod (batch_size cfg) (micro_batch_size cfg)) ;;
     (if (r =? 0)%Z then ret tt else raise AssertionError) ;;;
     q <- lift (py_floordiv (batch_size cfg) (micro_batch_size cfg)) ;;
     setattr "accum_step" (PInt q))
    (mkWorld (self w) (out w ++ normalisation_lines cfg)).
Proof.
  intros Hcfg. unfold build_data_loader, normalisation_lines.
  rewrite (bind_get_cfg cfg _ w Hcfg).
  destruct (String.prefix "CLIP" (backbone cfg)); run;
    rewrite <- app_assoc; reflexivity.
Qed.

(** The same, for the object that device selection has left. *)
Lemma bind_ok_run_start {B} env cfg (k : unit -> M B) :
  bind (build_data_loader env) k
       (after_device (device_name env cfg) cfg (device_events env cfg))
  = bind (build_data_loader_datasets env cfg (choose_transform_test cfg) ;;;
          r <- lift (py_mod (batch_size cfg) (micro_batch_size cfg)) ;;
          (if (r =? 0)%Z then ret tt else raise AssertionError) ;;;
          q <- lift (py_floordiv (batch_size cfg) (micro_batch_size cfg)) ;;
          setattr "accum_step" (PInt q)) k
         (before_datasets env cfg).
Proof.
  unfold bind at 1 3.
  rewrite (build_data_loader_start env cfg _ (after_device_cfg _ cfg _)).
  reflexivity.
Qed.

(** Without a loader to call, the data-set dispatch does nothing. *)
Lemma no_loader_datasets env cfg t w :
  calls_loader cfg = false ->
  build_data_loader_datasets env cfg t w = (w, Ok tt).
Proof.
  unfold calls_loader, build_data_loader_datasets, known_datasets, str_in.
  destruct (test_train cfg || test_only cfg); [reflexivity|].
  cbn [negb andb existsb]. intros H.
  repeat (apply orb_false_elim in H as [? H]).
  repeat match goal with Hx : (_ =? _)%string = false |- _ => rewrite Hx; clear Hx end.
  reflexivity.
Qed.


Lemma existsb_is_cuda_prints cfg (l : list event) :
  existsb is_cuda (l ++ normalisation_lines cfg) = existsb is_cuda l.
Proof.
  rewrite existsb_app. unfold normalisation_lines.
  destruct (String.prefix "CLIP" (backbone cfg)); simpl; apply orb_false_r.
Qed.


(** ** What a successful construction has assigned *)

Lemma extends_bound ks P w w' k : extends ks P w w' -> bound k w -> bound k w'.
Proof. intros (_ & Hb & _). apply Hb. Qed.

Lemma ensures_bind_r {A B} (m : M A) (f : A -> M B) Q :
  (forall a, ensures (f a) Q) -> ensures (bind m f) Q.
Proof.
  intros Hf w w' b H. apply bind_ok_inv in H as (w1 & a & _ & H).
  exact (Hf a w1 w' b H).
Qed.

Lemma extends_module_or_none ks P w w' k :
  In k ks -> extends ks P w w' -> module_or_none k w -> module_or_none k w'.
Proof.
  intros Hk (Hkeys & _) H. unfold module_or_none. rewrite (Hkeys k Hk). exact H.
Qed.

Lemma ensures_bind_l {A B} (m : M A) (f : A -> M B) k :
  ensures m (module_or_none k) -> (forall a, framed [k] any_event (f a)) ->
  ensures (bind m f) (module_or_none k).
Proof.
  intros Hm Hf w w' b H. apply bind_ok_inv in H as (w1 & a & H1 & H).
  pose proof (Hf a w1) as Hext. rewrite H in Hext. simpl in Hext.
  eapply extends_module_or_none; [|exact Hext|exact (Hm w w1 a H1)].
  simpl. auto.
Qed.

Lemma ensures_setattr_module k m :
  ensures (setattr k (PModule m)) (module_or_none k).
Proof.
  intros w w' a H. unfold setattr in H. inversion H; subst.
  right. exists m. simpl. apply lookup_insert_eq.
Qed.

Lemma ensures_setattr_none k : ensures (setattr k PNone) (module_or_none k).
Proof.
  intros w w' a H. unfold setattr in H. inversion H; subst.
  left. simpl. apply lookup_insert_eq.
Qed.

Lemma ensures_raise {A} e Q : ensures (@raise A e) Q.
Proof. intros w w' a H. discriminate. Qed.

Ltac ensures_module :=
  repeat match goal with
    | |- ensures (bind (setattr ?k _) _) (module_or_none ?k) =>
        apply ensures_bind_l;
          [first [apply ensures_setattr_module | apply ensures_setattr_none]
          | intros; frames]
    | |- ensures (setattr ?k _) (module_or_none ?k) =>
        first [apply ensures_setattr_module | apply ensures_setattr_none]
    | |- ensures (raise _) _ => apply ensures_raise
    | |- ensures (bind _ _) _ => apply ensures_bind_r; intros
    | |- ensures (if ?b then _ else _) _ => destruct b
    end.

(** When [build_model_network] takes one of its three branches and returns,
    [tuner] and [head] hold the modules of the network, or [None] for a
    zero-shot one. *)
Lemma build_model_network_assigns env cfg n k :
  k = "tuner" \/ k = "head" ->
  zero_shot cfg
  || String.prefix "CLIP" (backbone cfg)
  || String.prefix "IN21K-ViT" (backbone cfg) = true ->
  ensures (build_model_network env cfg n) (module_or_none k).
Proof.
  intros Hk Hbranch.
  unfold build_model_network, get_tokenized_prompts, to_device, submodule.
  destruct (zero_shot cfg); [|destruct (String.prefix "CLIP" (backbone cfg));
    [|destruct (String.prefix "IN21K-ViT" (backbone cfg)); [|discriminate]]];
    destruct Hk as [-> | ->]; ensures_module.
Qed.

Lemma get_classnames_ok_inv w w' l :
  get_classnames w = (w', Ok l) ->
  w' = w /\ self w !! "classnames" = Some (PStrList l).
Proof.
  unfold get_classnames, bind, getattr.
  destruct (self w !! "classnames") as [[]|]; simpl; intros H; inversion H.
  auto.
Qed.

Lemma build_optimizer_needs_model cfg w :
  self w !! "cfg" = Some (PCfg cfg) ->
  self w !! "model" = None ->
  snd (build_optimizer w) = Raise (AttributeError "model").
Proof.
  intros Hcfg Hmodel. unfold build_optimizer, get_model. run. reflexivity.
Qed.

(** Past the construction of the network, [build_model] assigns neither
    [tuner] nor [head]. *)
Lemma framed_modules_build_model_training env cfg :
  framed ["tuner"; "head"] any_event (build_model_training env cfg).
Proof.
  unfold build_model_training, build_optimizer, build_criterion, get_partialY,
    build_model_init_head, init_head_text_feat, init_head_class_mean,
    init_head_linear_probe, extract_init_features, get_tokenized_prompts,
    encode_text.
  frames.
Qed.

Lemma framed_modules_build_model_parallel env cfg :
  framed ["tuner"; "head"] any_event (build_model_parallel env cfg).
Proof. unfold build_model_parallel. frames. Qed.

(** A construction that gets through [build_model] has assigned [tuner] and
    [head]: without a network the optimizer cannot be built, and without a
    data set the class names are missing. *)
Lemma build_model_assigns env cfg w w' k :
  k = "tuner" \/ k = "head" ->
  self w !! "cfg" = Some (PCfg cfg) ->
  self w !! "model" = None ->
  (test_train cfg || test_only cfg = true -> self w !! "classnames" = None) ->
  build_model env w = (w', Ok tt) ->
  module_or_none k w'.
Proof.
  intros Hk Hcfg Hmodel Hmode H.
  unfold build_model in H. rewrite (bind_get_cfg cfg _ w Hcfg) in H.
  inv_bind H. apply get_classnames_ok_inv in Hstep as [-> Hcn].
  rewrite bind_print in H. inv_bind H. rename Hstep into Hnet.
  inv_bind H. rename Hstep into Htrain.
  assert (Hmode' : test_train cfg || test_only cfg = false).
  { destruct (test_train cfg || test_only cfg); [|reflexivity].
    rewrite Hmode in Hcn by reflexivity. discriminate. }
  destruct (zero_shot cfg
            || String.prefix "CLIP" (backbone cfg)
            || String.prefix "IN21K-ViT" (backbone cfg)) eqn:Hbranch.
  - pose proof (build_model_network_assigns env cfg _ k Hk Hbranch _ _ _ Hnet)
      as Hb.
    match type of Htrain with
    | _ ?wa = _ =>
        pose proof (framed_modules_build_model_training env cfg wa) as E1
    end.
    rewrite Htrain in E1.
    match type of H with
    | _ ?wa = _ =>
        pose proof (framed_modules_build_model_parallel env cfg wa) as E2
    end.
    rewrite H in E2.
    assert (Hin : In k ["tuner"; "head"])
      by (destruct Hk as [-> | ->]; simpl; auto).
    eapply extends_module_or_none; [exact Hin | exact E2|].
    eapply extends_module_or_none; [exact Hin | exact E1|].
    exact Hb.
  - exfalso.
    apply orb_false_elim in Hbranch as [Hbranch Hvit].
    apply orb_false_elim in Hbranch as [Hzs Hclip].
    unfold build_model_network in Hnet. rewrite Hzs, Hclip, Hvit in Hnet.
    inversion Hnet; subst; clear Hnet.
    unfold build_model_training in Htrain.
    rewrite <- orb_assoc, Hzs, Hmode' in Htrain. simpl in Htrain.
    inv_bind Htrain.
    match type of Hstep with
    | _ ?wa = _ =>
        pose proof (build_optimizer_needs_model cfg wa Hcfg Hmodel) as Hopt
    end.
    rewrite Hstep in Hopt. discriminate.
Qed.

Lemma build_data_loader_test_mode env cfg w :
  self w !! "cfg" = Some (PCfg cfg) ->
  test_train cfg || test_only cfg = true ->
  self (fst (build_data_loader env w)) !! "classnames" = self w !! "classnames".
Proof.
  intros Hcfg Hmode.
  unfold build_data_loader. rewrite (bind_get_cfg cfg _ w Hcfg).
  unfold build_data_loader_datasets. rewrite Hmode. simpl negb. cbv iota.
  match goal with
  | |- self (fst (?m w)) !! _ = _ =>
      assert (Hf : framed ["classnames"] any_event m) by frames
  end.
  destruct (Hf w) as (Hk & _). apply Hk. simpl. auto.
Qed.

Lemma setattr_ok_inv k v w w' a :
  setattr k v w = (w', Ok a) -> w' = mkWorld (<[k := v]> (self w)) (out w).
Proof. unfold setattr. intros H. inversion H. reflexivity. Qed.

(** The state in which a successful [__init__] leaves the trainer. *)
Lemma Trainer_init_ok env cfg w :
  Trainer_init env cfg fresh = (w, Ok tt) ->
  module_or_none "tuner" w /\ module_or_none "head" w
  /\ self w !! "evaluator" = Some (PEvaluator [])
  /\ self w !! "train_test_loader" = None.
Proof.
  intros H.
  destruct (Trainer_init_prefix env cfg) as [(_ & msg & Heq) | (_ & Heq)];
    rewrite Heq in H; [discriminate|]. clear Heq.
  set (d := device_name env cfg) in *. set (l := device_events env cfg) in *.
  inv_bind_as H w1 Hdl.
  inv_bind_as H w2 Hbm.
  inv_bind_as H w3 Hev. apply setattr_ok_inv in Hev, H. subst.
  (* build_data_loader *)
  assert (Hfree : forall k, In k ["cfg"; "model"; "train_test_loader"] ->
                            ~ In k loader_attrs).
  { simpl. intuition (subst; discriminate). }
  destruct (framed_build_data_loader _ any_event Hfree
              ltac:(reflexivity) ltac:(reflexivity) env (after_device d cfg l)) as (Hk1 & _).
  rewrite Hdl in Hk1. cbn [fst] in Hk1.
  assert (Hcfg1 : self w1 !! "cfg" = Some (PCfg cfg)).
  { rewrite Hk1 by (simpl; auto). apply after_device_cfg. }
  assert (Hmodel1 : self w1 !! "model" = None).
  { rewrite Hk1 by (simpl; auto). apply after_device_unassigned; discriminate. }
  assert (Htt1 : self w1 !! "train_test_loader" = None).
  { rewrite Hk1 by (simpl; auto). apply after_device_unassigned; discriminate. }
  assert (Hmode : test_train cfg || test_only cfg = true ->
                  self w1 !! "classnames" = None).
  { intros Hm.
    pose proof (build_data_loader_test_mode env cfg (after_device d cfg l)
                  (after_device_cfg d cfg l) Hm) as Hc.
    rewrite Hdl in Hc. cbn [fst] in Hc. rewrite Hc.
    apply after_device_unassigned; discriminate. }
  (* build_model *)
  assert (Hfree2 : forall k, In k ["train_test_loader"] -> ~ In k model_attrs).
  { simpl. intuition (subst; discriminate). }
  destruct (framed_build_model _ any_event Hfree2
              ltac:(reflexivity) ltac:(reflexivity) ltac:(reflexivity)
              ltac:(reflexivity) env w1) as (Hk2 & _).
  rewrite Hbm in Hk2. cbn [fst] in Hk2.
  pose proof (build_model_assigns env cfg w1 w2 "tuner" ltac:(auto)
                Hcfg1 Hmodel1 Hmode Hbm) as Ht.
  pose proof (build_model_assigns env cfg w1 w2 "head" ltac:(auto)
                Hcfg1 Hmodel1 Hmode Hbm) as Hh.
  unfold module_or_none in *. cbn [self].
  split; [|split; [|split]]; repeat (rewrite lookup_insert_ne by done).
  - exact Ht.
  - exact Hh.
  - apply lookup_insert_eq.
  - rewrite Hk2 by (simpl; auto). exact Htt1.
Qed.

(** C8. No method assigns [train_test_loader]: on every trainer that
    [__init__] has constructed, [test(mode="train")] raises the attribute
    error when it reads that attribute, after printing its first line and
    before any batch is processed. *)
Theorem test_train_mode_attribute_error env cfg w :
  Trainer_init env cfg fresh = (w, Ok tt) ->
  self w !! "train_test_loader" = None
  /\ exists w',
       test env "train" w = (w', Raise (AttributeError "train_test_loader"))
       /\ out w' = out w ++ [EPrint "Evaluate on the train set"]
       /\ processed w' = 0.
Proof.
  intros Hinit.
  destruct (Trainer_init_ok env cfg w Hinit) as (Ht & Hh & Hev & Htt).
  split; [exact Htt|].
  unfold test, eval_if_not_none.
  destruct Ht as [Ht | [t Ht]]; destruct Hh as [Hh | [h Hh]];
    run; simpl String.eqb; cbv iota; run;
    (eexists; split; [reflexivity|]; split; [reflexivity|];
     unfold processed; simpl; rewrite lookup_insert_eq; reflexivity).
Qed.

(** ** Head initialisation *)

Lemma fails_bind {A B} ks P (m : M A) (f : A -> M B) w :
  framed ks P m ->
  (forall a w1, m w = (w1, Ok a) -> extends ks P w w1 ->
                fails_within ks P w1 (f a w1)) ->
  fails_within ks P w (bind m f w).
Proof.
  intros Hm Hf. specialize (Hm w).
  destruct (m w) as [w1 [a|e]] eqn:E; cbn [fst] in Hm.
  - rewrite (bind_ok _ _ _ _ _ E).
    destruct (Hf a w1 eq_refl Hm) as (He & Hext).
    split; [exact He|]. eapply extends_trans; eassumption.
  - rewrite (bind_raise _ _ _ _ _ E). split; [eauto | exact Hm].
Qed.

Lemma fails_within_weaken {A} ks P w w1 (r : world * result A) :
  extends ks P w w1 -> fails_within ks P w1 r -> fails_within ks P w r.
Proof.
  intros Hext (He & Hext'). split; [exact He|].
  eapply extends_trans; eassumption.
Qed.

Lemma extends_emit ks P w e :
  P e = true -> extends ks P w (mkWorld (self w) (out w ++ [e])).
Proof.
  intros He. split; [|split]; simpl; auto.
  exists [e]. simpl. rewrite He. auto.
Qed.

(** The two feature-based strategies stop at their first statement after the
    announcement: the read of [train_init_loader]. *)
Lemma init_head_feature_raises env cfg w :
  str_in (init_head cfg) feature_init_head = true ->
  self w !! "train_init_loader" = None ->
  exists line,
    build_model_init_head env cfg w
    = (mkWorld (self w) (out w ++ [EPrint line]),
       Raise (AttributeError "train_init_loader")).
Proof.
  intros Hsel Hun.
  unfold str_in, feature_init_head in Hsel. simpl in Hsel.
  rewrite orb_false_r in Hsel.
  unfold build_model_init_head.
  repeat (apply orb_prop in Hsel as [Hsel|Hsel]);
    apply String.eqb_eq in Hsel; rewrite Hsel; simpl;
    unfold init_head_class_mean, init_head_linear_probe, extract_init_features;
    run; eexists; reflexivity.
Qed.

Lemma build_model_training_feature_fails env cfg w :
  zero_shot cfg = false -> test_train cfg = false -> test_only cfg = false ->
  str_in (init_head cfg) feature_init_head = true ->
  self w !! "train_init_loader" = None ->
  fails_within ["cfg"; "train_init_loader"] no_apply_weight w
    (build_model_training env cfg w).
Proof.
  intros Hzs Htt Hto Hsel Hun.
  assert (Hfree : forall k, In k ["cfg"; "train_init_loader"] ->
                            ~ In k model_attrs).
  { simpl. intuition (subst; discriminate). }
  unfold build_model_training. rewrite Hzs, Htt, Hto. simpl negb. cbv iota.
  apply fails_bind.
  { apply framed_build_optimizer; auto. }
  intros [] w1 _ (Hk1 & _).
  apply fails_bind.
  { apply framed_build_criterion; auto. }
  intros [] w2 _ (Hk2 & _).
  assert (Hun2 : self w2 !! "train_init_loader" = None).
  { rewrite Hk2, Hk1 by (simpl; auto). exact Hun. }
  destruct (init_head_feature_raises env cfg w2 Hsel Hun2) as (line & Hraise).
  rewrite (bind_raise _ _ _ _ _ Hraise).
  split; [eauto|]. apply extends_emit. reflexivity.
Qed.

Lemma fails_bind_left {A B} ks P (m : M A) (f : A -> M B) w :
  fails_within ks P w (m w) -> fails_within ks P w (bind m f w).
Proof.
  intros ((e & He) & Hext).
  pose proof (surjective_run m w) as Hrun. rewrite He in Hrun.
  rewrite (bind_raise _ _ _ _ _ Hrun). split; [eauto | exact Hext].
Qed.

Lemma Trainer_init_feature_fails env cfg d l :
  zero_shot cfg = false -> test_train cfg = false -> test_only cfg = false ->
  str_in (init_head cfg) feature_init_head = true ->
  fails_within ["cfg"; "train_init_loader"] no_apply_weight
    (after_device d cfg l)
    ((build_data_loader env ;;;
      build_model env ;;;
      setattr "evaluator" (PEvaluator []) ;;;
      setattr "_writer" PNone) (after_device d cfg l)).
Proof.
  intros Hzs Htt Hto Hsel.
  assert (Hfree1 : forall k, In k ["cfg"; "train_init_loader"] ->
                             ~ In k loader_attrs).
  { simpl. intuition (subst; discriminate). }
  assert (Hfree2 : forall k, In k ["cfg"; "train_init_loader"] ->
                             ~ In k model_attrs).
  { simpl. intuition (subst; discriminate). }
  apply fails_bind.
  { apply framed_build_data_loader; auto. }
  intros [] w1 _ (Hk1 & _).
  assert (Hcfg1 : self w1 !! "cfg" = Some (PCfg cfg)).
  { rewrite Hk1 by (simpl; auto). apply after_device_cfg. }
  assert (Hun1 : self w1 !! "train_init_loader" = None).
  { rewrite Hk1 by (simpl; auto). apply after_device_unassigned; discriminate. }
  apply fails_bind_left.
  unfold build_model. rewrite (bind_get_cfg cfg _ w1 Hcfg1).
  apply fails_bind.
  { apply framed_get_classnames. }
  intros classnames w2 _ (Hk2 & _).
  rewrite bind_print.
  eapply fails_within_weaken.
  { apply (extends_emit _ _ w2 (EPrint "Building model")). reflexivity. }
  apply fails_bind.
  { apply framed_build_model_network; auto. }
  intros [] w3 _ (Hk3 & _).
  apply fails_bind_left.
  apply build_model_training_feature_fails; try assumption.
  rewrite Hk3 by (simpl; auto). cbn [self].
  rewrite Hk2 by (simpl; auto). exact Hun1.
Qed.

Lemma forallb_extends ks P w w' :
  extends ks P w w' -> forallb P (out w) = true -> forallb P (out w') = true.
Proof.
  intros (_ & _ & evs & -> & Hevs) Hw.
  rewrite forallb_app, Hw, Hevs. reflexivity.
Qed.

(** C9 (as amended). No method assigns [train_init_loader]. In a training
    configuration (none of [zero_shot], [test_train], [test_only]) that
    selects [class_mean], [1_shot], [10_shot], [100_shot] or [linear_probe],
    the trainer is never constructed and the head is never re-initialised;
    once the optimizer and the criterion have been built, [build_model]
    stops with the attribute error on [train_init_loader], right after the
    strategy has announced itself. *)
Theorem feature_init_head_attribute_error env cfg :
  zero_shot cfg = false -> test_train cfg = false -> test_only cfg = false ->
  str_in (init_head cfg) feature_init_head = true ->
  (exists e, snd (Trainer_init env cfg fresh) = Raise e)
  /\ self (fst (Trainer_init env cfg fresh)) !! "train_init_loader" = None
  /\ forallb no_apply_weight (out (fst (Trainer_init env cfg fresh))) = true
  /\ forall w w1 w2,
       self w !! "train_init_loader" = None ->
       build_optimizer w = (w1, Ok tt) ->
       build_criterion env w1 = (w2, Ok tt) ->
       exists line,
         build_model_training env cfg w
         = (mkWorld (self w2) (out w2 ++ [EPrint line]),
            Raise (AttributeError "train_init_loader")).
Proof.
  intros Hzs Htt Hto Hsel.
  assert (Htrain : forall w w1 w2,
       self w !! "train_init_loader" = None ->
       build_optimizer w = (w1, Ok tt) ->
       build_criterion env w1 = (w2, Ok tt) ->
       exists line,
         build_model_training env cfg w
         = (mkWorld (self w2) (out w2 ++ [EPrint line]),
            Raise (AttributeError "train_init_loader"))); [|
  destruct (Trainer_init_prefix env cfg) as [(_ & msg & ->) | (_ & ->)];
    [ split; [eauto|]; split; [reflexivity|]; split; [reflexivity | exact Htrain]
    | ];
  pose proof (device_events_no_apply_weight env cfg) as Hl;
  destruct (Trainer_init_feature_fails env cfg (device_name env cfg)
              (device_events env cfg) Hzs Htt Hto Hsel) as (He & Hext);
  split; [exact He|]; split; [|split];
  [ destruct Hext as (Hk & _); rewrite Hk by (simpl; auto);
    apply after_device_unassigned; discriminate
  | eapply forallb_extends; [exact Hext | exact Hl]
  | exact Htrain ] ].
  - intros w w1 w2 Hun Hopt Hcrit.
    assert (Hfree : forall k, In k ["train_init_loader"] -> ~ In k model_attrs).
    { simpl. intuition (subst; discriminate). }
    destruct (framed_build_optimizer _ any_event Hfree ltac:(reflexivity) w)
      as (Hk1 & _).
    destruct (framed_build_criterion _ any_event Hfree ltac:(reflexivity)
                ltac:(reflexivity) env w1) as (Hk2 & _).
    rewrite Hopt in Hk1. rewrite Hcrit in Hk2. cbn [fst] in Hk1, Hk2.
    assert (Hun2 : self w2 !! "train_init_loader" = None).
    { rewrite Hk2, Hk1 by (simpl; auto). exact Hun. }
    destruct (init_head_feature_raises env cfg w2 Hsel Hun2) as (line & Hraise).
    exists line.
    unfold build_model_training. rewrite Hzs, Htt, Hto.
    change (negb (false || false || false)) with true. cbv iota.
    rewrite (bind_ok _ _ _ _ _ Hopt), (bind_ok _ _ _ _ _ Hcrit).
    rewrite (bind_raise _ _ _ _ _ Hraise). reflexivity.
Qed.

Lemma extends_bind {A B} ks P (m : M A) (f : A -> M B) w :
  extends ks P w (fst (m w)) ->
  (forall a w1, m w = (w1, Ok a) -> extends ks P w w1 ->
                extends ks P w1 (fst (f a w1))) ->
  extends ks P w (fst (bind m f w)).
Proof.
  intros Hm Hf.
  destruct (m w) as [w1 [a|e]] eqn:E; cbn [fst] in Hm.
  - rewrite (bind_ok _ _ _ _ _ E).
    eapply extends_trans; [exact Hm|]. apply Hf; auto.
  - rewrite (bind_raise _ _ _ _ _ E). exact Hm.
Qed.



(** ** Checkpoint loading *)



(** ** Multi-crop evaluation *)

(** With more than five crops the outputs of the network are stacked as they
    are returned; a network that returns a tuple, as the branch for at most
    five crops expects, makes [torch.stack] fail. *)
Lemma multi_crop_loop_rejects_tuples (model : list Image -> pyval)
    (image : list (list Image)) (crops : list Image) (rest : list (list Image)) :
  image = crops :: rest ->
  5 < length crops ->
  (forall x, exists l, model x = VTuple l) ->
  multi_crop_output model image
  = Raise (TypeError
             "expected Tensor as element of argument tensors, but got tuple").
Proof.
  intros -> Hn Htuple. unfold multi_crop_output.
  destruct (Nat.leb_spec (length crops) 5) as [Hle|_]; [lia|].
  destruct (length crops) as [|n] eqn:Hlen; [lia|].
  cbn [seq map].
  match goal with
  | |- context [torch_stack (model ?x :: _)] => destruct (Htuple x) as [l ->]
  end.
  reflexivity.
Qed.

(** With at most five crops the output of the network is unpacked into two
    values; a network that returns the logits alone, as a tensor of more
    than two rows, cannot be unpacked. *)
Lemma multi_crop_vectorized_rejects_tensors (model : list Image -> pyval)
    (image : list (list Image)) (crops : list Image) (rest : list (list Image))
    (t : Tensor) (n : nat) (sh : list nat) :
  image = crops :: rest ->
  length crops <= 5 ->
  model (concat image) = VTensor t ->
  shape t = n :: sh ->
  2 < n ->
  multi_crop_output model image = Raise (ValueError "too many values to unpack").
Proof.
  intros -> Hn Hmodel Hshape Hrows. unfold multi_crop_output.
  destruct (Nat.leb_spec (length crops) 5) as [_|Hgt]; [|lia].
  rewrite Hmodel. unfold unpack2. rewrite Hshape.
  destruct (Nat.eqb_spec n 2) as [->|_]; [lia|].
  destruct (Nat.ltb_spec n 2) as [Hlt|_]; [lia|].
  reflexivity.
Qed.

(** ** The small instance *)

Lemma load_fgvc100_check_outcome_witness :
  exists b,
    load_fgvc100 true (ex_fgvc ex_generate_missing) ex_cfg CenterCrop fresh
    = (mkWorld ∅ [EPrint "3"; ECuda "wide_resnet50_2"], Ok b)
    /\ b_partialY b = ex_generate_missing ex_labels (1 # 10)%Q
    /\ b_num_instances b = 5
    /\ b_classnames b = ["A"; "B"; "C"]
    /\ dl_batch_size (b_train_loader b) = 2
    /\ dl_batch_size (b_test_loader b) = 2.
Proof.
  destruct (load_fgvc100_check_outcome (ex_fgvc ex_generate_missing) ex_cfg
              CenterCrop fresh ["A"; "B"; "C"]
              (map (one_hot_row 3) ex_labels))
    as (Hrun & _).
  - vm_compute. discriminate.
  - reflexivity.
  - reflexivity.
  - reflexivity.
  - reflexivity.
  - eexists. split; [exact Hrun|]. repeat split.
Defined.

(** C1, counterexample. The generator left every true label out, the check
    fails, and yet [load_fgvc100] returns and the trainer is constructed. *)
Lemma load_fgvc100_failed_check_continues :
  generation_check (ex_generate_missing ex_labels (1 # 10)%Q)
                   (map (one_hot_row 3) ex_labels) = false
  /\ is_ok (snd (load_fgvc100 true (ex_fgvc ex_generate_missing) ex_cfg
                   CenterCrop fresh)) = true
  /\ snd (Trainer_init (ex_env ex_generate_missing) ex_cfg fresh) = Ok tt.
Proof. vm_compute. auto. Qed.

Lemma build_criterion_uniform_confidence_witness :
  exists w' conf,
    build_criterion (ex_env ex_generate) ex_trainer = (w', Ok tt)
    /\ self w' !! "confidence" = Some (PConfidence conf)
    /\ Forall2
         (fun r c =>
            Forall2
              (fun x v =>
                 feq v (if Qeq_bool x 1
                        then Fin (1 / inject_Z (Z.of_nat (candidate_count r)))
                        else Fin 0))
              r c
            /\ feq (fsum c) (Fin 1))
         (ex_generate ex_labels (1 # 10)%Q) conf
    /\ (forall u rnd,
          rounding u rnd ->
          Forall (fun c => exists s, fsum (map (fround rnd) c) = Fin s
                                     /\ (Qabs (s - 1) <= u)%Q)
                 conf).
Proof.
  apply (build_criterion_uniform_confidence (ex_env ex_generate) ex_trainer
           ex_cfg (ex_generate ex_labels (1 # 10)%Q) "PRODEN" "cuda").
  - vm_compute. reflexivity.
  - vm_compute. reflexivity.
  - reflexivity.
  - vm_compute. eexists. reflexivity.
  - vm_compute. eexists. reflexivity.
  - vm_compute. eexists. reflexivity.
  - vm_compute. reflexivity.
  - reflexivity.
  - vm_compute. repeat constructor.
  - vm_compute.
    repeat first [ apply List.Forall_nil | apply List.Forall_cons
                 | left; reflexivity | right; reflexivity ].
  - vm_compute.
    repeat first [ apply List.Forall_nil | apply List.Forall_cons ]; auto.
Defined.

Lemma build_criterion_empty_support_witness :
  exists w' conf,
    build_criterion (ex_env ex_generate_empty) ex_trainer_empty = (w', Ok tt)
    /\ self w' !! "confidence" = Some (PConfidence conf)
    /\ conf !! 0 = Some [NaN; NaN; NaN].
Proof.
  apply (build_criterion_empty_support (ex_env ex_generate_empty)
           ex_trainer_empty ex_cfg (ex_generate_empty ex_labels (1 # 10)%Q)
           0 [0%Q; 0%Q; 0%Q] "PRODEN" "cuda").
  - vm_compute. reflexivity.
  - vm_compute. reflexivity.
  - reflexivity.
  - vm_compute. eexists. reflexivity.
  - vm_compute. eexists. reflexivity.
  - vm_compute. eexists. reflexivity.
  - vm_compute. reflexivity.
  - reflexivity.
  - vm_compute. repeat constructor.
  - reflexivity.
  - repeat constructor.
Defined.

(** C3, counterexample. A candidate matrix with an empty first row goes
    through [build_criterion] without any error, and the stored confidence
    holds NaN. *)
Lemma build_criterion_silent_nan :
  snd (build_criterion (ex_env ex_generate_empty) ex_trainer_empty) = Ok tt
  /\ self (fst (build_criterion (ex_env ex_generate_empty) ex_trainer_empty))
       !! "confidence"
     = Some (PConfidence
               [[NaN; NaN; NaN]; [Fin (0 # 2); Fin (1 # 2); Fin (1 # 2)];
                [Fin (1 # 2); Fin (0 # 2); Fin (1 # 2)];
                [Fin (1 # 2); Fin (1 # 2); Fin (0 # 2)];
                [Fin (0 # 2); Fin (1 # 2); Fin (1 # 2)]]).
Proof. vm_compute. auto. Qed.

(** C4. The two branches of the multi-crop evaluation do not agree. On a
    network that returns a pair, which the branch for at most five crops
    unpacks, the loop for more than five crops stacks the pairs themselves
    and fails: with ten crops [test] raises a type error where with five
    crops, or four, it returns the mean over the crops. On a network that
    returns the logits alone it is the other way round: the loop returns
    the mean and the branch for at most five crops fails to unpack. *)
Theorem multi_crop_ten_crops_type_error :
  multi_crop_output ex_forward ex_image10
  = Raise (TypeError
             "expected Tensor as element of argument tensors, but got tuple")
  /\ multi_crop_output ex_forward ex_image4
     = Ok (mkTensor [1; 3] [(4 # 4)%Q; (8 # 4)%Q; (12 # 4)%Q])
  /\ snd (test (ex_env ex_generate) "test"
               (fst (Trainer_init (ex_env ex_generate)
                                  (with_tte ex_cfg "tencrop") fresh)))
     = Raise (TypeError
                "expected Tensor as element of argument tensors, but got tuple")
  /\ is_ok (snd (test (ex_env ex_generate) "test"
                      (fst (Trainer_init (ex_env ex_generate)
                                         (with_tte ex_cfg "fivecrop") fresh))))
     = true
  /\ multi_crop_output ex_forward_tensor ex_image10
     = Ok (mkTensor [1; 3] [(10 # 10)%Q; (20 # 10)%Q; (30 # 10)%Q])
  /\ multi_crop_output ex_forward_tensor ex_image4
     = Raise (ValueError "too many values to unpack").
Proof.
  split.
  { apply (multi_crop_loop_rejects_tuples ex_forward ex_image10
             (repeat [1%Q; 2%Q] 10) []).
    - reflexivity.
    - simpl. lia.
    - intros x. eexists. reflexivity. }
  do 4 (split; [vm_compute; reflexivity|]).
  apply (multi_crop_vectorized_rejects_tensors ex_forward_tensor ex_image4
           (repeat [1%Q; 2%Q] 4) []
           (mkTensor [4; 3] (flat_map ex_logits (concat ex_image4))) 4 [3]).
  - reflexivity.
  - simpl. lia.
  - reflexivity.
  - reflexivity.
  - lia.
Qed.



Lemma train_loader_epoch_indices_witness :
  let visited := concat (epoch_indices (b_train_loader ex_bundle) [3; 1; 4; 0; 2]) in
  NoDup visited
  /\ (forall i, In i visited -> i < 5)
  /\ length visited = 5 - 5 mod 2
  /\ visited = firstn (5 - 5 mod 2) [3; 1; 4; 0; 2]
  /\ [3; 1; 4; 0; 2] = visited ++ skipn (5 - 5 mod 2) [3; 1; 4; 0; 2]
  /\ (Permutation visited (seq 0 5) <-> 5 mod 2 = 0).
Proof.
  apply (train_loader_epoch_indices true (ex_fgvc ex_generate) ex_cfg
           CenterCrop fresh
           (mkWorld ∅ [EPrint "3"; ECuda "wide_resnet50_2";
                       EPrint "data loading done !"])
           ex_bundle [3; 1; 4; 0; 2]).
  - vm_compute. reflexivity.
  - simpl.
    apply (Permutation_trans (l' := [1; 3; 4; 0; 2])); [apply perm_swap|].
    apply (Permutation_trans (l' := [1; 3; 0; 4; 2]));
      [do 2 apply perm_skip; apply perm_swap|].
    apply (Permutation_trans (l' := [1; 0; 3; 4; 2]));
      [apply perm_skip; apply perm_swap|].
    apply (Permutation_trans (l' := [0; 1; 3; 4; 2])); [apply perm_swap|].
    apply (Permutation_trans (l' := [0; 1; 3; 2; 4]));
      [do 3 apply perm_skip; apply perm_swap|].
    do 2 apply perm_skip. apply perm_swap.
Defined.

(** C6, counterexample. Five samples in batches of two: the epoch visits
    four indices and leaves one out. *)
Lemma train_loader_drops_last_batch :
  snd (load_fgvc100 true (ex_fgvc ex_generate) ex_cfg CenterCrop fresh)
  = Ok ex_bundle
  /\ epoch_indices (b_train_loader ex_bundle) [0; 1; 2; 3; 4]
     = [[0; 1]; [2; 3]]
  /\ ~ In 4 (concat (epoch_indices (b_train_loader ex_bundle) [0; 1; 2; 3; 4])).
Proof.
  split; [vm_compute; reflexivity|]. split; [reflexivity|].
  vm_compute. intuition discriminate.
Qed.



Lemma test_train_mode_attribute_error_witness :
  self ex_trainer !! "train_test_loader" = None
  /\ exists w',
       test (ex_env ex_generate) "train" ex_trainer
       = (w', Raise (AttributeError "train_test_loader"))
       /\ out w' = out ex_trainer ++ [EPrint "Evaluate on the train set"]
       /\ processed w' = 0.
Proof.
  apply (test_train_mode_attribute_error (ex_env ex_generate) ex_cfg ex_trainer).
  vm_compute. reflexivity.
Defined.

Lemma feature_init_head_attribute_error_witness :
  (exists e,
     snd (Trainer_init (ex_env ex_generate)
                       (with_init_head ex_cfg "class_mean") fresh) = Raise e)
  /\ exists line,
       snd (build_model_training (ex_env ex_generate)
                                 (with_init_head ex_cfg "linear_probe")
                                 ex_trainer)
       = Raise (AttributeError "train_init_loader")
       /\ line = "Initialize head with linear probing".
Proof.
  destruct (feature_init_head_attribute_error (ex_env ex_generate)
              (with_init_head ex_cfg "class_mean")
              eq_refl eq_refl eq_refl eq_refl) as (He & _).
  split; [exact He|].
  destruct (feature_init_head_attribute_error (ex_env ex_generate)
              (with_init_head ex_cfg "linear_probe")
              eq_refl eq_refl eq_refl eq_refl) as (_ & _ & _ & Hstep).
  destruct (Hstep ex_trainer (fst (build_optimizer ex_trainer))
              (fst (build_criterion (ex_env ex_generate)
                                    (fst (build_optimizer ex_trainer)))))
    as (line & Hrun).
  - vm_compute. reflexivity.
  - vm_compute. reflexivity.
  - vm_compute. reflexivity.
  - exists "Initialize head with linear probing".
    rewrite Hrun. split; reflexivity.
Defined.

(** C9, counterexample. In a zero-shot configuration that names
    [class_mean], [build_model] never reaches the head initialisation and
    the trainer is constructed. *)
Lemma zero_shot_skips_head_initialisation :
  init_head (with_zero_shot (with_init_head ex_cfg "class_mean") true)
  = "class_mean"
  /\ snd (Trainer_init (ex_env ex_generate)
            (with_zero_shot (with_init_head ex_cfg "class_mean") true) fresh)
     = Ok tt.
Proof. vm_compute. auto. Qed.


(** * Further properties *)

(** ** Batches *)

Lemma batch_sampler_keep_last (B : nat) (sampler batch : list nat) :
  0 < B -> length batch < B ->
  concat (batch_sampler B false batch sampler) = batch ++ sampler
  /\ Forall (fun b => 0 < length b <= B)
       (batch_sampler B false batch sampler).
Proof.
  intros HB. revert batch.
  induction sampler as [|idx rest IH]; intros batch Hlt; simpl.
  - destruct batch as [|x batch]; simpl.
    + split; [reflexivity | constructor].
    + rewrite app_nil_r. split; [reflexivity|].
      constructor; [simpl in *; lia | constructor].
  - destruct (Nat.eqb_spec (length (batch ++ [idx])) B) as [Hfull|Hnot].
    + destruct (IH [] HB) as (Hc & Hall). simpl.
      split.
      * rewrite Hc. simpl. rewrite <- app_assoc. reflexivity.
      * constructor; [lia | exact Hall].
    + assert (Hlt' : length (batch ++ [idx]) < B).
      { rewrite length_app in *. simpl in *. lia. }
      destruct (IH _ Hlt') as (Hc & Hall).
      split; [|exact Hall]. rewrite Hc, <- app_assoc. reflexivity.
Qed.

(** What a successful [load_fgvc100] has checked and returned. *)
Lemma load_fgvc100_ok_facts cu e cfg t w w' b :
  load_fgvc100 cu e cfg t w = (w', Ok b) ->
  let P := generate_instancedependent_candidate_labels e (fgvc_labels e) (1 # 10)%Q in
  (0 < batch_size cfg)%Z
  /\ cu = true
  /\ (length (fgvc_labels e) = length P
      \/ length P = 1 \/ length (fgvc_labels e) = 1)
  /\ (0 < length P -> Forall (fun y => y < ncols P) (fgvc_labels e))
  /\ exists classnames,
       fgvc_classnames e = Some classnames
       /\ b = mkBundle
               (mkDataLoader
                  (Partialize_dataset (fgvc_load_views e)
                     (mkPartialize (fgvc_image_files e) (fgvc_labels e) P
                                   (fgvc_labels e)))
                  (Z.to_nat (batch_size cfg)) true true)
               P
               (mkDataLoader (fgvc_test e t) (Z.to_nat (batch_size cfg))
                             false false)
               (length (fgvc_labels e))
               (length classnames)
               classnames.
Proof.
  unfold load_fgvc100. intros H.
  repeat inv_bind H.
  apply lift_ok_inv in Hstep7 as [Hl _].
  apply make_loader_ok_inv in Hl as [Hpos ->].
  apply lift_ok_inv in Hstep2 as [Ht _].
  apply make_loader_ok_inv in Ht as [_ ->].
  apply lift_ok_inv in Hstep5 as [Hoh _].
  apply true_label_one_hot_ok_inv in Hoh as (Hlen & Hlab & _).
  assert (Hcu : cu = true).
  { destruct cu; [reflexivity|]. unfold cuda in Hstep3. discriminate. }
  apply lift_ok_inv in Hstep0 as [Hcn _].
  destruct (fgvc_classnames e) as [cn|]; [|discriminate].
  inversion Hcn; subst.
  unfold ret in H. inversion H; subst; clear H. simpl.
  repeat split; auto. eexists. split; reflexivity.
Qed.

(** X1. The test loader of [load_fgvc100] (no shuffling, last batch kept)
    visits every index of the test set exactly once and in order, in
    non-empty batches of at most [batch_size] items. *)
Theorem test_loader_covers_test_set cu e cfg t w w' b perm :
  load_fgvc100 cu e cfg t w = (w', Ok b) ->
  let batches := epoch_indices (b_test_loader b) perm in
  concat batches = seq 0 (ds_len (fgvc_test e t))
  /\ Forall (fun batch => 0 < length batch <= Z.to_nat (batch_size cfg)) batches.
Proof.
  intros Hload batches.
  apply load_fgvc100_ok_facts in Hload as (Hpos & _ & _ & _ & cn & _ & ->).
  unfold batches, epoch_indices, sampler_order. simpl.
  apply (batch_sampler_keep_last _ _ []); simpl; lia.
Qed.

(** X2. Every batch of the training loader of [load_fgvc100] holds exactly
    [batch_size] indices, and an epoch has [N / batch_size] batches (the
    number that [len(train_loader)] announces). *)
Theorem train_loader_full_batches cu e cfg t w w' b perm :
  load_fgvc100 cu e cfg t w = (w', Ok b) ->
  length perm = length (fgvc_labels e) ->
  let batches := epoch_indices (b_train_loader b) perm in
  Forall (fun batch => length batch = Z.to_nat (batch_size cfg)) batches
  /\ length batches = length (fgvc_labels e) / Z.to_nat (batch_size cfg).
Proof.
  intros Hload Hperm batches.
  apply load_fgvc100_ok_facts in Hload as (Hpos & _ & _ & _ & cn & _ & ->).
  unfold batches, epoch_indices, sampler_order. simpl.
  set (B := Z.to_nat (batch_size cfg)).
  assert (HB : 0 < B) by (unfold B; lia).
  destruct (batch_sampler_split B HB perm [] HB) as (tail & Heq & Htail & Hall).
  split; [exact Hall|].
  pose proof (concat_length_full B HB _ Hall) as Hlen.
  simpl in Heq.
  assert (Hsum : length perm
                 = B * length (batch_sampler B true [] perm) + length tail).
  { rewrite Heq at 1. rewrite length_app, Hlen. reflexivity. }
  rewrite <- Hperm.
  apply Nat.div_unique with (r := length tail); assumption.
Qed.

(** X3. In the training set built by [load_fgvc100], [__len__] is the
    number of labels. Item [i] first opens and augments image file [i]
    and fails with the error of that step if it raises; otherwise it
    carries row [i] of the candidate matrix, the true label of sample [i]
    and the index [i] itself, and raises an index error when the matrix
    has no row [i]. When the matrix has one row per sample, every item
    whose image loads is therefore returned. An index past the end is
    refused. *)
Theorem partialize_getitem_index cu e cfg t w w' b :
  load_fgvc100 cu e cfg t w = (w', Ok b) ->
  length (fgvc_image_files e) = length (fgvc_labels e) ->
  let d := dl_dataset (b_train_loader b) in
  ds_len d = length (fgvc_labels e)
  /\ (forall i y,
        fgvc_labels e !! i = Some y ->
        exists f,
          fgvc_image_files e !! i = Some f
          /\ ds_getitem d i
             = match fgvc_load_views e f with
               | Raise err => Raise err
               | Ok _ =>
                   match b_partialY b !! i with
                   | Some row => Ok (mkTrainSample row y i)
                   | None => Raise IndexError
                   end
               end)
  /\ (length (b_partialY b) = length (fgvc_labels e) ->
      forall i y f,
        fgvc_labels e !! i = Some y ->
        fgvc_image_files e !! i = Some f ->
        fgvc_load_views e f = Ok tt ->
        exists row,
          b_partialY b !! i = Some row
          /\ ds_getitem d i = Ok (mkTrainSample row y i))
  /\ (forall i, length (fgvc_labels e) <= i -> ds_getitem d i = Raise IndexError).
Proof.
  intros Hload Hfiles d.
  apply load_fgvc100_ok_facts in Hload as (_ & _ & _ & _ & cn & _ & ->).
  unfold d. cbn [b_train_loader dl_dataset Partialize_dataset ds_len
                 ds_getitem b_partialY].
  assert (Hget : forall i y,
            fgvc_labels e !! i = Some y ->
            exists f,
              fgvc_image_files e !! i = Some f
              /\ Partialize_getitem (fgvc_load_views e)
                   (mkPartialize (fgvc_image_files e) (fgvc_labels e)
                      (generate_instancedependent_candidate_labels e
                         (fgvc_labels e) (1 # 10)%Q)
                      (fgvc_labels e)) i
                 = match fgvc_load_views e f with
                   | Raise err => Raise err
                   | Ok _ =>
                       match generate_instancedependent_candidate_labels e
                               (fgvc_labels e) (1 # 10)%Q !! i with
                       | Some row => Ok (mkTrainSample row y i)
                       | None => Raise IndexError
                       end
                   end).
  { intros i y Hy.
    pose proof (lookup_lt_Some _ _ _ Hy) as Hi.
    destruct (lookup_lt_is_Some_2 (fgvc_image_files e) i ltac:(lia)) as [f Hf].
    exists f. split; [exact Hf|].
    unfold Partialize_getitem. cbn [image_files labels true_labels
                                     given_partial_label_matrix].
    rewrite Hf, Hy. destruct (fgvc_load_views e f); [|reflexivity].
    match goal with
    | |- context [match ?x with Some _ => _ | None => _ end] => destruct x
    end; reflexivity. }
  split; [reflexivity|]. split; [exact Hget|]. split.
  - intros HlenP i y f Hy Hf Hopen.
    destruct (Hget i y Hy) as (f' & Hf' & Hitem).
    rewrite Hf in Hf'. inversion Hf'; subst f'.
    rewrite Hopen in Hitem.
    pose proof (lookup_lt_Some _ _ _ Hy) as Hi.
    destruct (lookup_lt_is_Some_2
                (generate_instancedependent_candidate_labels e
                   (fgvc_labels e) (1 # 10)%Q) i ltac:(lia)) as [row Hrow].
    exists row. split; [exact Hrow|].
    rewrite Hitem.
    match goal with
    | |- context [match ?x with Some _ => _ | None => _ end] =>
        replace x with (Some row)
    end.
    reflexivity.
  - intros i Hi. unfold Partialize_getitem. simpl.
    rewrite (lookup_ge_None_2 (fgvc_image_files e) i) by lia. reflexivity.
Qed.

(** ** Evaluation *)

Lemma eval_if_not_none_run name w :
  eval_if_not_none name w
  = match self w !! name with
    | Some PNone => (w, Ok tt)
    | Some (PModule m) =>
        (mkWorld (<[name := PModule (mkModule (state_dict m) false)]> (self w))
                 (out w), Ok tt)
    | Some _ => (w, Raise (AttributeError "eval"))
    | None => (w, Raise (AttributeError name))
    end.
Proof.
  unfold eval_if_not_none, bind, getattr.
  destruct (self w !! name) as [[]|]; reflexivity.
Qed.

Lemma framed_eval_if_not_none ks P name :
  ~ In name ks -> framed ks P (eval_if_not_none name).
Proof. intros Hk. unfold eval_if_not_none. frames. Qed.

Lemma eval_if_not_none_ok_inv name w w' u :
  eval_if_not_none name w = (w', Ok u) ->
  forall k, k <> name -> self w' !! k = self w !! k.
Proof.
  intros H k Hk.
  destruct (framed_eval_if_not_none [k] any_event name) with (w := w)
    as (Hkeys & _); [simpl; intuition congruence|].
  rewrite H in Hkeys. apply Hkeys. simpl. auto.
Qed.

Lemma framed_test ks env mode :
  ~ In "evaluator" ks -> ~ In "tuner" ks -> ~ In "head" ks ->
  framed ks any_event (test env mode).
Proof.
  intros Hk Ht Hh.
  unfold test, test_loop, test_batch, evaluator_process, to_device, get_model.
  apply framed_bind; [apply framed_eval_if_not_none; exact Ht|intros _].
  apply framed_bind; [apply framed_eval_if_not_none; exact Hh|intros _].
  frames.
Qed.

(** What follows the first statement of a method leaves alone whatever
    every continuation leaves alone. *)
Lemma bind_frame_after {A B} ks P (m : M A) (f : A -> M B) w k :
  (forall a, framed ks P (f a)) -> In k ks ->
  self (fst (bind m f w)) !! k = self (fst (m w)) !! k.
Proof.
  intros Hf Hk. unfold bind.
  destruct (m w) as [w1 [a|e]]; simpl; [|reflexivity].
  destruct (Hf a w1) as (Hkeys & _). apply Hkeys. exact Hk.
Qed.

(** X4. Whatever its outcome, [test] assigns no attribute of the trainer
    other than [evaluator], and changes in place only the modules [tuner]
    and [head]: the confidence, the candidate matrix, the loaders, the
    configuration and the device are as they were. A tuner that is a module
    keeps its parameters and is left in evaluation mode; so is the head
    once the tuner has been dealt with, that is when the tuner is a module
    or [None]. Otherwise the two attributes are left as they were. Nothing
    is said of [model]: the network holds the same two modules, so what it
    computes follows their mode. *)
Theorem test_only_touches_evaluator env mode w :
  let w' := fst (test env mode w) in
  (forall k, k <> "evaluator" -> k <> "tuner" -> k <> "head" ->
             k <> "model" ->
             self w' !! k = self w !! k)
  /\ (forall m, self w !! "tuner" = Some (PModule m) ->
                self w' !! "tuner"
                = Some (PModule (mkModule (state_dict m) false)))
  /\ ((forall m, self w !! "tuner" <> Some (PModule m)) ->
      self w' !! "tuner" = self w !! "tuner")
  /\ (forall m, self w !! "head" = Some (PModule m) ->
                module_or_none "tuner" w ->
                self w' !! "head"
                = Some (PModule (mkModule (state_dict m) false)))
  /\ ((forall m, self w !! "head" <> Some (PModule m))
      \/ ~ module_or_none "tuner" w ->
      self w' !! "head" = self w !! "head").
Proof.
  intros w'. unfold w'. clear w'.
  assert (Hrest : forall ks, ~ In "evaluator" ks ->
            forall u : unit,
              framed ks any_event
                (ev <- getattr "evaluator" ;;
                 (match ev with
                  | PEvaluator _ => setattr "evaluator" (PEvaluator [])
                  | _ => raise (AttributeError "reset")
                  end) ;;;
                 data_loader <-
                   (if (mode =? "train")%string then
                      print "Evaluate on the train set" ;;;
                      getattr "train_test_loader"
                    else if (mode =? "test")%string then
                      print "Evaluate on the test set" ;;;
                      getattr "test_loader"
                    else raise (UnboundLocalError "data_loader")) ;;
                 test_loop data_loader ;;;
                 ev <- getattr "evaluator" ;;
                 results <- match ev with
                            | PEvaluator seen => ret (evaluate env seen)
                            | _ => raise (AttributeError "evaluate")
                            end ;;
                 forM results
                      (fun kv => w <- getattr "_writer" ;;
                                 match w with
                                 | PNone => ret tt
                                 | _ => emit (EAddScalar ("test/" ++ fst kv)%string)
                                 end) ;;;
                 match results with
                 | [] => raise IndexError
                 | kv :: _ => ret (snd kv)
                 end)).
  { intros ks Hk u.
    unfold test_loop, test_batch, evaluator_process, to_device, get_model.
    frames. }
  assert (Htuner : self (fst (test env mode w)) !! "tuner"
                   = self (fst (eval_if_not_none "tuner" w)) !! "tuner").
  { unfold test. apply (bind_frame_after ["tuner"] any_event); [|simpl; auto].
    intros u. apply framed_bind.
    - apply framed_eval_if_not_none. simpl. intuition discriminate.
    - apply Hrest. simpl. intuition discriminate. }
  assert (Hhead : self (fst (test env mode w)) !! "head"
                  = match eval_if_not_none "tuner" w with
                    | (w1, Ok _) =>
                        self (fst (eval_if_not_none "head" w1)) !! "head"
                    | (w1, Raise _) => self w1 !! "head"
                    end).
  { unfold test. unfold bind at 1.
    destruct (eval_if_not_none "tuner" w) as [w1 [u|e]]; [|reflexivity].
    apply (bind_frame_after ["head"] any_event); [|simpl; auto].
    apply Hrest. simpl. intuition discriminate. }
  rewrite eval_if_not_none_run in Htuner, Hhead.
  split; [|split; [|split; [|split]]].
  - intros k H1 H2 H3 _.
    destruct (framed_test [k] env mode) with (w := w) as (Hkeys & _);
      try (simpl; intuition congruence).
    apply Hkeys. simpl. auto.
  - intros m Hm. rewrite Htuner, Hm. simpl. apply lookup_insert_eq.
  - intros Hm. rewrite Htuner.
    destruct (self w !! "tuner") as [[]|] eqn:Et; try (simpl; exact Et).
    exfalso. eapply Hm. reflexivity.
  - intros m Hm [Hn | [t Ht]]; rewrite Hhead.
    + rewrite Hn, eval_if_not_none_run, Hm. simpl. apply lookup_insert_eq.
    + rewrite Ht, eval_if_not_none_run. cbn [self].
      rewrite lookup_insert_ne, Hm by done. simpl. apply lookup_insert_eq.
  - intros Hm. rewrite Hhead.
    destruct (self w !! "tuner") as [[]|] eqn:Et; try reflexivity.
    + rewrite eval_if_not_none_run.
      destruct Hm as [Hm | Hm]; [|exfalso; apply Hm; left; exact Et].
      destruct (self w !! "head") as [[]|] eqn:Eh; try (simpl; exact Eh).
      exfalso. eapply Hm. reflexivity.
    + rewrite eval_if_not_none_run. cbn [self].
      rewrite lookup_insert_ne by done.
      destruct Hm as [Hm | Hm]; [|exfalso; apply Hm; right; eauto].
      destruct (self w !! "head") as [[]|] eqn:Eh; simpl;
        try (rewrite lookup_insert_ne by done; exact Eh).
      exfalso. eapply Hm. reflexivity.
Qed.

Lemma to_device_ok_inv what w w' a :
  to_device what w = (w', Ok a) -> self w' = self w.
Proof.
  unfold to_device, bind, getattr.
  destruct (self w !! "device") as [[]|]; simpl; try discriminate.
  destruct (String.prefix "cuda" d); intros H; inversion H; reflexivity.
Qed.

Lemma get_model_ok_inv method w w' m :
  get_model method w = (w', Ok m) ->
  w' = w /\ self w !! "model" = Some (PModel m).
Proof.
  unfold get_model, bind, getattr.
  destruct (self w !! "model") as [[]|]; simpl; intros H; inversion H.
  auto.
Qed.

Lemma evaluator_process_ok_inv output label w w' a :
  evaluator_process output label w = (w', Ok a) ->
  exists seen,
    self w !! "evaluator" = Some (PEvaluator seen)
    /\ self w' = <["evaluator" := PEvaluator (seen ++ [(output, label)])]> (self w).
Proof.
  unfold evaluator_process, bind, getattr, setattr.
  destruct (self w !! "evaluator") as [[]|]; simpl; intros H; inversion H.
  eauto.
Qed.

Tactic Notation "inv_bind_val" hyp(H) ident(w1) ident(a) ident(H1) :=
  let H2 := fresh "Hrest" in
  apply bind_ok_inv in H; destruct H as (w1 & a & H1 & H2); rename H2 into H.

(** One pass of the batch loop hands the evaluator one result per batch. *)
Lemma test_batch_ok_inv d m idxs w w' seen :
  test_batch d idxs w = (w', Ok tt) ->
  self w !! "model" = Some (PModel m) ->
  self w !! "evaluator" = Some (PEvaluator seen) ->
  exists ol,
    batch_result d m idxs ol
    /\ self w' = <["evaluator" := PEvaluator (seen ++ [ol])]> (self w).
Proof.
  intros H Hm Hev. unfold test_batch in H.
  inv_bind_val H w1 batch Hfetch. apply lift_ok_inv in Hfetch as [Hfetch ->].
  inv_bind_val H w2 il Hcollate. apply lift_ok_inv in Hcollate as [Hcollate ->].
  inv_bind_val H w3 u1 Hd1. apply to_device_ok_inv in Hd1.
  inv_bind_val H w4 u2 Hd2. apply to_device_ok_inv in Hd2.
  inv_bind_val H w5 m' Hgm. apply get_model_ok_inv in Hgm as [-> Hm'].
  inv_bind_val H w6 output Hout. apply lift_ok_inv in Hout as [Hout ->].
  apply evaluator_process_ok_inv in H as (seen' & Hev' & Hself).
  rewrite Hd2, Hd1 in Hm', Hev', Hself.
  rewrite Hm in Hm'. inversion Hm'; subst.
  rewrite Hev in Hev'. inversion Hev'; subst.
  exists (output, snd il). split; [|exact Hself].
  exists batch, (fst il). simpl. destruct il. auto.
Qed.

Lemma test_batches_ok_inv d m bs : forall w w' seen,
  forM bs (test_batch d) w = (w', Ok tt) ->
  self w !! "model" = Some (PModel m) ->
  self w !! "evaluator" = Some (PEvaluator seen) ->
  exists more,
    Forall2 (batch_result d m) bs more
    /\ self w' = <["evaluator" := PEvaluator (seen ++ more)]> (self w).
Proof.
  induction bs as [|idxs bs IH]; intros w w' seen H Hm Hev; simpl in H.
  - inversion H; subst. exists []. split; [constructor|].
    rewrite app_nil_r. symmetry. apply insert_id. exact Hev.
  - inv_bind_as H w1 Hb.
    destruct (test_batch_ok_inv d m idxs w w1 seen Hb Hm Hev) as (ol & Hol & Hs1).
    destruct (IH w1 w' (seen ++ [ol]) H) as (more & Hmore & Hs').
    + rewrite Hs1, lookup_insert_ne by done. exact Hm.
    + rewrite Hs1. apply lookup_insert_eq.
    + exists (ol :: more). split; [constructor; assumption|].
      rewrite Hs', Hs1, insert_insert_eq, <- app_assoc. reflexivity.
Qed.

Lemma getattr_ok_inv k w w' v :
  getattr k w = (w', Ok v) -> w' = w /\ self w !! k = Some v.
Proof.
  unfold getattr. destruct (self w !! k); intros H; inversion H. auto.
Qed.

Lemma framed_log_scalars ks (results : list (string * Q)) :
  framed ks any_event
    (forM results
       (fun kv => w <- getattr "_writer" ;;
                  match w with
                  | PNone => ret tt
                  | _ => emit (EAddScalar ("test/" ++ fst kv)%string)
                  end)).
Proof. frames. Qed.

(** X6. A [test] on the test set that returns has reset the evaluator and
    then handed it, batch by batch and in the order of the test loader, the
    aggregated output of each batch with the labels of that batch; the
    value returned is the first metric that the evaluator computes from
    exactly these results, whatever it had processed before. *)
Theorem test_feeds_evaluator env w w' v dl m :
  test env "test" w = (w', Ok v) ->
  self w !! "test_loader" = Some (PTestLoader dl) ->
  self w !! "model" = Some (PModel m) ->
  exists seen,
    Forall2 (batch_result (dl_dataset dl) m) (epoch_indices dl []) seen
    /\ self w' !! "evaluator" = Some (PEvaluator seen)
    /\ exists name rest, evaluate env seen = (name, v) :: rest.
Proof.
  intros H Hdl Hm. unfold test in H.
  change (("test" =? "train")%string) with false in H.
  change (("test" =? "test")%string) with true in H. cbv iota in H.
  inv_bind_val H w1 u0 Ht. inv_bind_val H w2 u1 Hh.
  assert (Hkeep : forall k, k <> "tuner" -> k <> "head" ->
                            self w2 !! k = self w !! k).
  { intros k Hk1 Hk2.
    rewrite (eval_if_not_none_ok_inv _ _ _ _ Hh k Hk2).
    apply (eval_if_not_none_ok_inv _ _ _ _ Ht k Hk1). }
  rewrite <- Hkeep in Hdl, Hm by done. clear Hkeep Ht Hh w w1.
  inv_bind_val H w3 ev Hev. apply getattr_ok_inv in Hev as [-> Hev].
  inv_bind_val H w4 u Hreset.
  destruct ev as [|z|l|d|c|m0|m0|dl0|dl0|m0|m0|seen0|cls]; try discriminate.
  apply setattr_ok_inv in Hreset. subst w4.
  inv_bind_val H w5 data_loader Hload.
  rewrite bind_print in Hload.
  apply getattr_ok_inv in Hload as [-> Hload]. cbn [self] in Hload.
  rewrite lookup_insert_ne, Hdl in Hload by done. inversion Hload; subst.
  inv_bind_val H w6 u2 Hloop. unfold test_loop in Hloop. destruct u2.
  match type of Hloop with
  | forM _ _ ?w0 = _ =>
      destruct (test_batches_ok_inv (dl_dataset dl) m _ w0 w6 [] Hloop)
        as (seen & Hseen & Hself)
  end.
  { cbn [self]. rewrite lookup_insert_ne by done. exact Hm. }
  { cbn [self]. apply lookup_insert_eq. }
  cbn [self app] in Hself. rewrite insert_insert_eq in Hself.
  inv_bind_val H w7 ev' Hev'. apply getattr_ok_inv in Hev' as [-> Hev'].
  rewrite Hself, lookup_insert_eq in Hev'. inversion Hev'; subst ev'.
  rewrite bind_ret in H.
  inv_bind_val H w8 u3 Hlog.
  exists seen. split; [exact Hseen|]. split.
  - pose proof (framed_log_scalars ["evaluator"] (evaluate env seen) w6)
      as (Hk & _).
    rewrite Hlog in Hk. cbn [fst] in Hk.
    destruct (evaluate env seen) as [|[name v0] rest]; [discriminate|].
    inversion H; subst.
    rewrite Hk by (simpl; auto). rewrite Hself. apply lookup_insert_eq.
  - destruct (evaluate env seen) as [|[name v0] rest]; [discriminate|].
    inversion H; subst. eauto.
Qed.

Lemma log_scalars_without_writer (results : list (string * Q)) w :
  self w !! "_writer" = Some PNone ->
  forM results
       (fun kv => w <- getattr "_writer" ;;
                  match w with
                  | PNone => ret tt
                  | _ => emit (EAddScalar ("test/" ++ fst kv)%string)
                  end) w
  = (w, Ok tt).
Proof.
  intros Hw. induction results as [|kv results IH]; simpl; [reflexivity|].
  run. exact IH.
Qed.

(** X7. While no tensorboard writer is set ([_writer] is [None], as
    [__init__] leaves it), [test] logs no scalar. *)
Theorem test_without_writer_logs_no_scalar env mode w :
  self w !! "_writer" = Some PNone ->
  exists evs,
    out (fst (test env mode w)) = out w ++ evs
    /\ forallb no_add_scalar evs = true.
Proof.
  intros Hw.
  assert (Hext : extends ["_writer"] no_add_scalar w (fst (test env mode w))).
  { unfold test.
    assert (Hloop : forall dl, framed ["_writer"] no_add_scalar (test_loop dl)).
    { intros dl.
      unfold test_loop, test_batch, evaluator_process, to_device, get_model.
      frames. }
    repeat (apply extends_bind;
            [ match goal with
              | |- extends _ _ ?w0 (fst (?m ?w0)) =>
                  let Hf := fresh in
                  assert (Hf : framed ["_writer"] no_add_scalar m)
                    by first [ solve [frames]
                             | apply framed_eval_if_not_none;
                               simpl; intuition discriminate ];
                  apply Hf
              end
            | intros ? ? _ ? ]).
    match goal with
    | |- extends _ _ ?wl _ =>
        assert (Hwl : self wl !! "_writer" = Some PNone)
    end.
    { repeat match goal with
             | Hx : extends _ _ _ ?b |- self ?b !! _ = _ =>
                 destruct Hx as (Hk & _); rewrite Hk by (simpl; auto); clear Hk
             end.
      exact Hw. }
    rewrite (bind_ok _ _ _ _ _ (log_scalars_without_writer _ _ Hwl)).
    match goal with
    | |- context [match ?r with [] => _ | _ :: _ => _ end] => destruct r
    end; apply extends_refl. }
  destruct Hext as (_ & _ & evs & Hout & Hevs). eauto.
Qed.

(** ** The mean over crops *)

Lemma strided_sum_spec (l : list Q) (stride n : nat) : forall start,
  strided_sum l start stride n
  = fold_right Qplus 0%Q
      (map (fun c => nth (start + c * stride) l 0%Q) (seq 0 n)).
Proof.
  induction n as [|n IH]; intros start; simpl; [reflexivity|].
  rewrite IH, <- seq_shift, map_map, Nat.add_0_r.
  f_equal. f_equal. apply map_ext. intros c. f_equal. lia.
Qed.

Lemma nth_concat_uniform {A} (n : nat) (d : A) (ll : list (list A)) :
  Forall (fun l => length l = n) ll ->
  forall i c, i < length ll -> c < n ->
  nth (i * n + c) (concat ll) d = nth c (nth i ll []) d.
Proof.
  induction 1 as [|l ll Hl _ IH]; intros i c Hi Hc; simpl in Hi; [lia|].
  destruct i as [|i]; simpl.
  - apply app_nth1. lia.
  - rewrite app_nth2 by lia.
    replace (n + i * n + c - length l) with (i * n + c) by lia.
    apply IH; lia.
Qed.

Lemma concat_length_uniform {A} (n : nat) (ll : list (list A)) :
  Forall (fun l => length l = n) ll -> length (concat ll) = length ll * n.
Proof.
  induction 1 as [|l ll Hl _ IH]; simpl; [reflexivity|].
  rewrite length_app, IH, Hl. reflexivity.
Qed.

Lemma nth_map_in_range {A B} (f : A -> B) (l : list A) (i : nat) (d : A) (d' : B) :
  i < length l -> nth i (map f l) d' = f (nth i l d).
Proof.
  revert i. induction l as [|x l IH]; intros [|i] Hi; simpl in *;
    try lia; auto with arith.
Qed.

Lemma map_nth_seq {A B} (f : A -> B) (l : list A) (d : A) :
  map (fun c => f (nth c l d)) (seq 0 (length l)) = map f l.
Proof.
  induction l as [|x l IH]; simpl; [reflexivity|].
  rewrite <- seq_shift, map_map. simpl. rewrite IH. reflexivity.
Qed.

Lemma flat_map_nth_seq {A B} (f : A -> list B) (l : list A) (d : A) :
  flat_map (fun i => f (nth i l d)) (seq 0 (length l)) = flat_map f l.
Proof.
  induction l as [|x l IH]; simpl; [reflexivity|].
  rewrite <- seq_shift, !flat_map_concat_map, map_map. simpl.
  rewrite <- !flat_map_concat_map, IH. reflexivity.
Qed.

Lemma map_seq_offset {B} (F : nat -> B) (C : nat) : forall s,
  map F (seq s C) = map (fun j => F (s + j)) (seq 0 C).
Proof.
  induction C as [|C IH]; intros s; simpl; [reflexivity|].
  rewrite Nat.add_0_r, (IH (S s)), <- seq_shift, map_map.
  f_equal. apply map_ext. intros j. f_equal. lia.
Qed.

Lemma map_seq_blocks {B} (F : nat -> B) (C b : nat) :
  map F (seq 0 (b * C))
  = flat_map (fun i => map (fun j => F (i * C + j)) (seq 0 C)) (seq 0 b).
Proof.
  induction b as [|b IH].
  - reflexivity.
  - rewrite seq_S, flat_map_app. simpl flat_map. rewrite app_nil_r, <- IH.
    replace (S b * C) with (b * C + C) by lia.
    rewrite seq_app, map_app. f_equal. apply map_seq_offset.
Qed.

(** The entry of the flattened logits at image [p] and class [j]. *)
Lemma nth_logits (g : Image -> list Q) (C : nat) (imgs : list Image) p j :
  (forall img, length (g img) = C) ->
  p < length imgs -> j < C ->
  nth (p * C + j) (flat_map g imgs) 0%Q = nth j (g (nth p imgs [])) 0%Q.
Proof.
  intros Hg Hp Hj.
  rewrite flat_map_concat_map.
  rewrite (nth_concat_uniform C 0%Q (map g imgs)).
  - rewrite (nth_map_in_range g imgs p [] []) by exact Hp. reflexivity.
  - apply Forall_forall. intros x Hx. apply list_elem_of_In in Hx.
    apply in_map_iff in Hx as (img & <- & _). apply Hg.
  - rewrite length_map. exact Hp.
  - exact Hj.
Qed.

Lemma length_logits (g : Image -> list Q) (C : nat) (imgs : list Image) :
  (forall img, length (g img) = C) ->
  length (flat_map g imgs) = length imgs * C.
Proof.
  intros Hg. rewrite flat_map_concat_map.
  rewrite (concat_length_uniform C).
  - rewrite length_map. reflexivity.
  - apply Forall_forall. intros x Hx. apply list_elem_of_In in Hx.
    apply in_map_iff in Hx as (img & <- & _). apply Hg.
Qed.

Lemma flat_map_ext_seq {B} (f h : nat -> list B) (n : nat) : forall s,
  (forall i, s <= i < s + n -> f i = h i) ->
  flat_map f (seq s n) = flat_map h (seq s n).
Proof.
  induction n as [|n IH]; intros s Hfh; [reflexivity|].
  cbn [seq flat_map]. rewrite (Hfh s) by lia. f_equal.
  apply IH. intros i Hi. apply Hfh. lia.
Qed.

(** The mean over the crops of sample [i], at class [j], as the strided sum
    over the flattened logits reads it. *)
Lemma crop_mean_entry (g : Image -> list Q) (n : nat) (crops : list Image)
    (j : nat) :
  length crops = n ->
  (fold_right Qplus 0 (map (fun c => nth j (g (nth c crops [])) 0) (seq 0 n))
   / inject_Z (Z.of_nat n))%Q
  = (fold_right Qplus 0 (map (fun img => nth j (g img) 0) crops)
     / inject_Z (Z.of_nat (length crops)))%Q.
Proof.
  intros <-.
  rewrite (map_nth_seq (fun img => nth j (g img) 0%Q) crops []). reflexivity.
Qed.

(** X8. With at most five crops and a network that scores every image on
    its own and returns the pair (logits, auxiliary value), the aggregated
    output of a batch is, for every sample, the mean of its crops' scores. *)
Theorem multi_crop_vectorized_mean (model : list Image -> pyval)
    (g : Image -> list Q) (aux : list Image -> pyval) (C n : nat)
    (image : list (list Image)) :
  (forall imgs,
     model imgs
     = VTuple [VTensor (mkTensor [length imgs; C] (flat_map g imgs)); aux imgs]) ->
  (forall img, length (g img) = C) ->
  image <> [] ->
  Forall (fun crops => length crops = n) image ->
  1 <= n <= 5 ->
  multi_crop_output model image
  = Ok (mkTensor [length image; C] (flat_map (crop_mean g C) image)).
Proof.
  intros Hmodel Hg Hne Hrect Hn.
  assert (Hn0 : match image with [] => 0 | crops :: _ => length crops end = n).
  { destruct image; [congruence|]. inversion Hrect; assumption. }
  assert (Hb : 0 < length image) by (destruct image; [congruence|simpl; lia]).
  unfold multi_crop_output. rewrite Hn0.
  destruct (Nat.leb_spec n 5) as [_|Hgt]; [|lia].
  rewrite Hmodel. cbn [unpack2 view3 numel data].
  assert (Hflat : length (concat image) = length image * n)
    by (apply concat_length_uniform; exact Hrect).
  unfold numel. cbn [data].
  rewrite (length_logits g C _ Hg), Hflat.
  assert (Hbn : (length image * n =? 0) = false) by (apply Nat.eqb_neq; nia).
  replace (length image * n * C) with (C * (length image * n)) by lia.
  rewrite Hbn, Nat.Div0.mod_mul, Nat.div_mul by nia.
  cbn [orb negb Nat.eqb mean_dim1 shape data].
  f_equal. f_equal.
  rewrite <- (flat_map_nth_seq (crop_mean g C) image []).
  apply flat_map_ext_seq. intros i Hi.
  unfold crop_mean. apply map_ext_in. intros j Hj. apply in_seq in Hj.
  rewrite strided_sum_spec.
  assert (Hrow : length (nth i image []) = n).
  { rewrite Forall_forall in Hrect. apply Hrect.
    apply list_elem_of_In. apply nth_In. lia. }
  rewrite <- (crop_mean_entry g n (nth i image []) j Hrow).
  f_equal. f_equal. apply map_ext_in. intros c Hc. apply in_seq in Hc.
  replace (i * n * C + j + c * C) with ((i * n + c) * C + j) by lia.
  rewrite (nth_logits g C) by first [exact Hg | rewrite Hflat; nia | lia].
  rewrite (nth_concat_uniform n ([] : Image) image Hrect i c) by lia.
  reflexivity.
Qed.

Lemma stack_data_tensors (sh : list nat) (ds : list (list Q)) :
  stack_data sh (map (fun d => VTensor (mkTensor sh d)) ds) = Ok (concat ds).
Proof.
  induction ds as [|d ds IH]; [reflexivity|].
  cbn [map stack_data shape data]. unfold shape_eqb.
  rewrite bool_decide_eq_true_2 by reflexivity.
  rewrite IH. reflexivity.
Qed.

Lemma torch_stack_tensors (sh : list nat) (ds : list (list Q)) :
  ds <> [] ->
  torch_stack (map (fun d => VTensor (mkTensor sh d)) ds)
  = Ok (mkTensor (length ds :: sh) (concat ds)).
Proof.
  intros Hne. destruct ds as [|d ds]; [congruence|].
  unfold torch_stack. cbn [map shape].
  change (VTensor (mkTensor sh d) :: map (fun d0 => VTensor (mkTensor sh d0)) ds)
    with (map (fun d0 => VTensor (mkTensor sh d0)) (d :: ds)).
  rewrite stack_data_tensors, length_map. reflexivity.
Qed.

(** X9. With more than five crops and a network that scores every image on
    its own and returns the logits alone, the loop over the crops gives the
    same per-sample mean. *)
Theorem multi_crop_loop_mean (model : list Image -> pyval)
    (g : Image -> list Q) (C n : nat) (image : list (list Image)) :
  (forall imgs,
     model imgs = VTensor (mkTensor [length imgs; C] (flat_map g imgs))) ->
  (forall img, length (g img) = C) ->
  image <> [] ->
  Forall (fun crops => length crops = n) image ->
  5 < n ->
  multi_crop_output model image
  = Ok (mkTensor [length image; C] (flat_map (crop_mean g C) image)).
Proof.
  intros Hmodel Hg Hne Hrect Hn.
  assert (Hn0 : match image with [] => 0 | crops :: _ => length crops end = n).
  { destruct image; [congruence|]. inversion Hrect; assumption. }
  unfold multi_crop_output. rewrite Hn0.
  destruct (Nat.leb_spec n 5) as [Hle|_]; [lia|].
  pose (column := fun k => map (fun crops : list Image => nth k crops []) image).
  pose (ds := map (fun k => flat_map g (column k)) (seq 0 n)).
  assert (Hout : map (fun k => model (column k)) (seq 0 n)
                 = map (fun d => VTensor (mkTensor [length image; C] d)) ds).
  { unfold ds. rewrite map_map. apply map_ext. intros k.
    rewrite Hmodel. unfold column. rewrite length_map. reflexivity. }
  change (map (fun k => model (map (fun crops => nth k crops []) image)) (seq 0 n))
    with (map (fun k => model (column k)) (seq 0 n)).
  rewrite Hout, torch_stack_tensors.
  2:{ unfold ds. destruct n; [lia|]. discriminate. }
  assert (Hlen : length ds = n) by (unfold ds; rewrite length_map, length_seq; reflexivity).
  rewrite Hlen. unfold mean_dim0. cbn [shape data fold_right].
  rewrite Nat.mul_1_r. f_equal. f_equal.
  rewrite map_seq_blocks.
  rewrite <- (flat_map_nth_seq (crop_mean g C) image []).
  apply flat_map_ext_seq. intros i Hi.
  unfold crop_mean. apply map_ext_in. intros j Hj. apply in_seq in Hj.
  rewrite strided_sum_spec.
  assert (Hrow : length (nth i image []) = n).
  { rewrite Forall_forall in Hrect. apply Hrect.
    apply list_elem_of_In. apply nth_In. lia. }
  rewrite <- (crop_mean_entry g n (nth i image []) j Hrow).
  f_equal. f_equal. apply map_ext_in. intros c Hc. apply in_seq in Hc.
  assert (Hblocks : Forall (fun l => length l = length image * C) ds).
  { apply Forall_forall. intros x Hx. apply list_elem_of_In in Hx.
    unfold ds in Hx. apply in_map_iff in Hx as (k & <- & _).
    rewrite (length_logits g C _ Hg). unfold column. rewrite length_map.
    reflexivity. }
  replace (i * C + j + c * (length image * C))
    with (c * (length image * C) + (i * C + j)) by lia.
  rewrite (nth_concat_uniform (length image * C) 0%Q ds Hblocks c (i * C + j))
    by (rewrite ?Hlen; nia).
  unfold ds.
  rewrite (nth_map_in_range (fun k => flat_map g (column k)) (seq 0 n) c 0 [])
    by (rewrite length_seq; lia).
  rewrite seq_nth by lia. cbn [Nat.add].
  rewrite (nth_logits g C) by first [exact Hg | unfold column; rewrite length_map; lia | lia].
  unfold column.
  rewrite (nth_map_in_range (fun crops : list Image => nth c crops []) image i [] [])
    by lia.
  reflexivity.
Qed.

(** ** Saving and loading *)

Lemma strip_keys_lookup (d : gmap string Tensor) :
  strip_injective d ->
  (forall k v, d !! k = Some v -> strip_keys d !! strip_module k = Some v)
  /\ (forall k' v, strip_keys d !! k' = Some v ->
        exists k, d !! k = Some v /\ strip_module k = k').
Proof.
  unfold strip_keys.
  apply (map_fold_weak_ind
           (fun (acc st : gmap string Tensor) =>
              strip_injective st ->
              (forall k v, st !! k = Some v -> acc !! strip_module k = Some v)
              /\ (forall k' v, acc !! k' = Some v ->
                    exists k, st !! k = Some v /\ strip_module k = k'))).
  - intros _. split.
    + intros k v Hk. rewrite lookup_empty in Hk. discriminate.
    + intros k' v Hk. rewrite lookup_empty in Hk. discriminate.
  - intros k v st acc Hfresh IH Hinj.
    assert (Hinj' : strip_injective st).
    { intros k1 k2 [v1 H1] [v2 H2] Heq. apply Hinj; auto.
      - destruct (decide (k = k1)) as [->|Hne]; [congruence|].
        rewrite lookup_insert_ne by exact Hne. eauto.
      - destruct (decide (k = k2)) as [->|Hne]; [congruence|].
        rewrite lookup_insert_ne by exact Hne. eauto. }
    destruct (IH Hinj') as [IH1 IH2]. split.
    + intros k0 v0 Hk0.
      destruct (decide (k = k0)) as [->|Hne].
      * rewrite lookup_insert_eq in Hk0. inversion Hk0; subst.
        apply lookup_insert_eq.
      * rewrite lookup_insert_ne in Hk0 by exact Hne.
        rewrite lookup_insert_ne; [exact (IH1 k0 v0 Hk0)|].
        intros Heq. apply Hne. apply Hinj; auto.
        -- rewrite lookup_insert_eq. eauto.
        -- rewrite lookup_insert_ne by exact Hne. eauto.
    + intros k' v' Hk'.
      destruct (decide (strip_module k = k')) as [<-|Hne].
      * rewrite lookup_insert_eq in Hk'. inversion Hk'; subst.
        exists k. rewrite lookup_insert_eq. auto.
      * rewrite lookup_insert_ne in Hk' by exact Hne.
        destruct (IH2 k' v' Hk') as (k0 & Hk0 & Hs).
        exists k0. split; [|exact Hs].
        rewrite lookup_insert_ne; [exact Hk0|]. congruence.
Qed.







Lemma substring_full (s : string) : String.substring 0 (String.length s) s = s.
Proof. induction s as [|c s IH]; simpl; [reflexivity | rewrite IH; reflexivity]. Qed.

Lemma strip_module_prefixed (s : string) :
  strip_module ("module." +:+ s) = s.
Proof.
  unfold strip_module. simpl. change ("" +:+ s) with s.
  replace (String.prefix "" s) with true by (destruct s; reflexivity).
  rewrite Nat.sub_0_r. apply substring_full.
Qed.

(** X11. [save_model] hands [torch.save] the path [directory/checkpoint.pth.tar]
    and, under [tuner] and [head], the parameters of the two modules, each
    under its name with a leading [module.] removed and with its value
    unchanged; the trainer itself is not modified. Names are assumed not to
    collide once the prefix is removed. *)
Theorem save_model_strips_prefix (torch_save : string -> result unit)
    (directory : string) (w : world) (t h : NNModule) :
  self w !! "tuner" = Some (PModule t) ->
  self w !! "head" = Some (PModule h) ->
  strip_injective (state_dict t) ->
  strip_injective (state_dict h) ->
  torch_save (path_join directory "checkpoint.pth.tar") = Ok tt ->
  exists w' td hd,
    save_model torch_save directory w
    = (w', Ok (path_join directory "checkpoint.pth.tar",
               <["head" := hd]> (<["tuner" := td]> ∅)))
    /\ self w' = self w
    /\ (forall s v, state_dict t !! ("module." +:+ s) = Some v -> td !! s = Some v)
    /\ (forall s v, state_dict h !! ("module." +:+ s) = Some v -> hd !! s = Some v)
    /\ (forall k v, String.prefix "module." k = false ->
                    state_dict t !! k = Some v -> td !! k = Some v)
    /\ (forall k v, String.prefix "module." k = false ->
                    state_dict h !! k = Some v -> hd !! k = Some v)
    /\ (forall k' v, td !! k' = Some v ->
          exists k, state_dict t !! k = Some v /\ strip_module k = k')
    /\ (forall k' v, hd !! k' = Some v ->
          exists k, state_dict h !! k = Some v /\ strip_module k = k').
Proof.
  intros Ht Hh Hit Hih Hwr.
  unfold save_model, get_module. run. rewrite Hwr. run.
  destruct (strip_keys_lookup _ Hit) as [Ht1 Ht2].
  destruct (strip_keys_lookup _ Hih) as [Hh1 Hh2].
  eexists _, _, _. split; [reflexivity|]. split; [reflexivity|].
  repeat split.
  - intros s v Hs. rewrite <- (strip_module_prefixed s) at 1. exact (Ht1 _ _ Hs).
  - intros s v Hs. rewrite <- (strip_module_prefixed s) at 1. exact (Hh1 _ _ Hs).
  - intros k v Hk Hv. specialize (Ht1 k v Hv). unfold strip_module in Ht1.
    rewrite Hk in Ht1. exact Ht1.
  - intros k v Hk Hv. specialize (Hh1 k v Hv). unfold strip_module in Hh1.
    rewrite Hk in Hh1. exact Hh1.
  - exact Ht2.
  - exact Hh2.
Qed.

(** ** Configurations on which no trainer is constructed *)

Lemma mean_std_prints {B} cfg (k : unit -> M B) w :
  exists l,
    forallb no_cuda l = true
    /\ forallb no_apply_weight l = true
    /\ bind (if String.prefix "CLIP" (backbone cfg)
             then print "mean: [0.48145466, 0.4578275, 0.40821073]" ;;;
                  print "std: [0.26862954, 0.26130258, 0.27577711]"
             else print "mean: [0.5, 0.5, 0.5]" ;;;
                  print "std: [0.5, 0.5, 0.5]") k w
       = k tt (mkWorld (self w) (out w ++ l)).
Proof.
  destruct (String.prefix "CLIP" (backbone cfg)); run;
    rewrite <- app_assoc; eexists; (split; [|split; [|reflexivity]]); reflexivity.
Qed.

Lemma forallb_app_true {A} (f : A -> bool) (l1 l2 : list A) :
  forallb f l1 = true -> forallb f l2 = true -> forallb f (l1 ++ l2) = true.
Proof. intros H1 H2. rewrite forallb_app, H1, H2. reflexivity. Qed.

(** X12. When [build_data_loader] calls no loader (under [test_train] or
    [test_only], or for a data set it does not know), construction always
    fails: in the device selection for a [cfg.gpu] that names no device,
    else on the batch-size check, or else in [build_model] on the attribute
    [classnames], which only a loader's result assigns. No network exists.
    The log then holds what device selection did and the two normalisation
    lines, so that the only accelerator call made is the
    [torch.cuda.set_device] of line 93. *)
Theorem no_loader_no_trainer env cfg :
  calls_loader cfg = false ->
  exists w' e,
    Trainer_init env cfg fresh = (w', Raise e)
    /\ self w' !! "model" = None
    /\ (valid_gpu env cfg = false ->
        w' = fresh /\ exists msg, e = RuntimeError msg)
    /\ (valid_gpu env cfg = true ->
        e = (if (micro_batch_size cfg =? 0)%Z then ZeroDivisionError
             else if (batch_size cfg mod micro_batch_size cfg =? 0)%Z
                  then AttributeError "classnames"
                  else AssertionError)
        /\ out w' = device_events env cfg ++ normalisation_lines cfg)
    /\ existsb is_cuda (out w')
       = valid_gpu env cfg
         && match gpu cfg with
            | Some _ => cuda_available env
            | None => false
            end.
Proof.
  intros Hno.
  destruct (Trainer_init_prefix env cfg) as [(Hbad & msg & ->) | (Hok & ->)].
  { exists fresh, (RuntimeError msg). split; [reflexivity|].
    split; [reflexivity|]. split; [eauto|].
    split; [intros; congruence|]. rewrite Hbad. reflexivity. }
  rewrite (bind_ok_run_start env cfg).
  assert (Hlog : existsb is_cuda (out (before_datasets env cfg))
                 = valid_gpu env cfg
                   && match gpu cfg with
                      | Some _ => cuda_available env
                      | None => false
                      end).
  { rewrite Hok. unfold before_datasets. cbn [out].
    rewrite existsb_is_cuda_prints. unfold device_events.
    destruct (cuda_available env); destruct (gpu cfg); reflexivity. }
  assert (Hmodel : self (before_datasets env cfg) !! "model" = None).
  { unfold before_datasets. solve_lookup. }
  set (w0 := before_datasets env cfg) in *.
  run. rewrite (bind_ok _ _ _ _ _ (no_loader_datasets env cfg _ _ Hno)).
  unfold py_mod, py_floordiv.
  destruct (micro_batch_size cfg =? 0)%Z.
  { run. exists w0, ZeroDivisionError. split; [reflexivity|].
    split; [exact Hmodel|]. split; [intros; congruence|].
    split; [split; reflexivity | exact Hlog]. }
  run.
  destruct (batch_size cfg mod micro_batch_size cfg =? 0)%Z.
  - run. unfold build_model, get_classnames.
    assert (Hcfg : self w0 !! "cfg" = Some (PCfg cfg)).
    { unfold w0, before_datasets. solve_lookup. }
    assert (Hcn : self w0 !! "classnames" = None).
    { unfold w0, before_datasets. solve_lookup. }
    run.
    eexists _, _. split; [reflexivity|]. cbn [self out].
    split; [rewrite lookup_insert_ne by done; exact Hmodel|].
    split; [intros; congruence|].
    split; [split; reflexivity | exact Hlog].
  - run. exists w0, AssertionError. split; [reflexivity|].
    split; [exact Hmodel|]. split; [intros; congruence|].
    split; [split; reflexivity | exact Hlog].
Qed.

Lemma unknown_tte_mode_unbound cfg :
  tte cfg = true ->
  str_in (tte_mode cfg) known_tte_modes = false ->
  choose_transform_test cfg = None.
Proof.
  unfold choose_transform_test, known_tte_modes, str_in.
  intros -> H. cbn [existsb] in H.
  repeat (apply orb_false_elim in H as [? H]).
  repeat match goal with Hx : (_ =? _)%string = false |- _ => rewrite Hx; clear Hx end.
  reflexivity.
Qed.

Lemma datasets_without_transform env cfg w :
  calls_loader cfg = true ->
  build_data_loader_datasets env cfg None w
  = (w, Raise (UnboundLocalError "transform_test")).
Proof.
  unfold calls_loader, build_data_loader_datasets, known_datasets, str_in.
  destruct (test_train cfg || test_only cfg); [discriminate|].
  cbn [negb andb existsb]. intros H.
  destruct (dataset cfg =? "fgvc100")%string; [reflexivity|].
  destruct (dataset cfg =? "cub200")%string; [reflexivity|].
  destruct (dataset cfg =? "cars196")%string; [reflexivity|].
  destruct (dataset cfg =? "dogs120")%string; [reflexivity|].
  discriminate.
Qed.

(** X13. Test-time ensembling with a [tte_mode] other than the three known
    ones binds no test transform: as soon as a data-set loader is to be
    called, construction fails, in the device selection for a [cfg.gpu]
    that names no device and otherwise on the unbound local
    [transform_test], with nothing assigned but the device and the
    configuration and nothing done but device selection and the printing
    of the two normalisation lines. *)
Theorem unknown_tte_mode_no_trainer env cfg :
  tte cfg = true ->
  str_in (tte_mode cfg) known_tte_modes = false ->
  calls_loader cfg = true ->
  exists w' e,
    Trainer_init env cfg fresh = (w', Raise e)
    /\ (valid_gpu env cfg = false ->
        w' = fresh /\ exists msg, e = RuntimeError msg)
    /\ (valid_gpu env cfg = true ->
        e = UnboundLocalError "transform_test"
        /\ w' = before_datasets env cfg)
    /\ (forall k, k <> "device" -> k <> "cfg" -> self w' !! k = None).
Proof.
  intros Htte Hmode Hcalls.
  destruct (Trainer_init_prefix env cfg) as [(Hbad & msg & ->) | (Hok & ->)].
  { exists fresh, (RuntimeError msg). split; [reflexivity|].
    split; [eauto|]. split; [intros; congruence|].
    intros k _ _. apply lookup_empty. }
  rewrite (bind_ok_run_start env cfg).
  rewrite (unknown_tte_mode_unbound cfg Htte Hmode).
  set (w0 := before_datasets env cfg).
  run.
  rewrite (bind_raise _ _ _ _ _ (datasets_without_transform env cfg _ Hcalls)).
  eexists _, _. split; [reflexivity|].
  split; [intros; congruence|]. split; [split; reflexivity|].
  intros k Hk1 Hk2. unfold w0, before_datasets. cbn [self].
  rewrite !lookup_insert_ne by congruence. apply lookup_empty.
Qed.

(** ** The neck *)

Lemma get_module_ok_inv name method w w' m :
  get_module name method w = (w', Ok m) ->
  w' = w /\ self w !! name = Some (PModule m).
Proof.
  unfold get_module, bind, getattr.
  destruct (self w !! name) as [[]|]; simpl; intros H; inversion H.
  auto.
Qed.

Lemma build_optimizer_reads_neck cfg w w' :
  self w !! "cfg" = Some (PCfg cfg) ->
  str_in (loss_type cfg) neck_losses = true ->
  build_optimizer w = (w', Ok tt) ->
  is_Some (self w !! "neck").
Proof.
  intros Hcfg Hloss H. unfold build_optimizer in H.
  rewrite (bind_get_cfg cfg _ w Hcfg), bind_print in H.
  inv_bind_val H w1 m Hm. apply get_model_ok_inv in Hm as [-> _].
  rewrite bind_print in H.
  inv_bind_val H w2 t Ht. apply get_module_ok_inv in Ht as [-> _].
  rewrite bind_print in H.
  inv_bind_val H w3 h Hh. apply get_module_ok_inv in Hh as [-> _].
  unfold neck_losses in Hloss. rewrite Hloss in H.
  inv_bind_val H w4 u Hneck.
  rewrite bind_print in Hneck.
  inv_bind_val Hneck w5 n Hn. apply get_module_ok_inv in Hn as [-> Hn].
  cbn [self] in Hn. eauto.
Qed.

Lemma framed_network_without_clip ks env cfg n :
  String.prefix "CLIP" (backbone cfg) = false ->
  (forall k, In k ks -> ~ In k ["model"; "tuner"; "head"]) ->
  framed ks any_event (build_model_network env cfg n).
Proof.
  intros Hclip Hks.
  unfold build_model_network, get_tokenized_prompts, submodule.
  rewrite Hclip.
  assert (Hfree : forall k, In k ["model"; "tuner"; "head"] -> ~ In k ks).
  { intros k Hk Hin. exact (Hks k Hin Hk). }
  assert (Hm : ~ In "model" ks) by (apply Hfree; simpl; auto).
  assert (Ht : ~ In "tuner" ks) by (apply Hfree; simpl; auto).
  assert (Hh : ~ In "head" ks) by (apply Hfree; simpl; auto).
  frames.
Qed.

(** X14. Only the CLIP branch of [build_model] assigns [neck], while
    [build_optimizer] reads it for the losses DIRK, ABLE and PiCO: with one
    of these losses and a backbone that is not a CLIP one, no trainer is
    ever constructed. *)
Theorem neck_loss_needs_clip env cfg :
  String.prefix "CLIP" (backbone cfg) = false ->
  str_in (loss_type cfg) neck_losses = true ->
  exists w e, Trainer_init env cfg fresh = (w, Raise e).
Proof.
  intros Hclip Hloss.
  destruct (Trainer_init env cfg fresh) as [w [[]|e]] eqn:H; [exfalso | eauto].
  destruct (Trainer_init_prefix env cfg) as [(_ & msg & Heq) | (_ & Heq)];
    rewrite Heq in H; [discriminate|]. clear Heq.
  set (d := device_name env cfg) in *. set (l := device_events env cfg) in *.
  inv_bind_as H w1 Hdl.
  inv_bind_as H w2 Hbm. clear H.
  assert (Hfree : forall k, In k ["cfg"; "neck"] -> ~ In k loader_attrs).
  { simpl. intuition (subst; discriminate). }
  destruct (framed_build_data_loader _ any_event Hfree
              ltac:(reflexivity) ltac:(reflexivity) env (after_device d cfg l))
    as (Hk1 & _).
  rewrite Hdl in Hk1. cbn [fst] in Hk1.
  assert (Hcfg1 : self w1 !! "cfg" = Some (PCfg cfg)).
  { rewrite Hk1 by (simpl; auto). apply after_device_cfg. }
  assert (Hneck1 : self w1 !! "neck" = None).
  { rewrite Hk1 by (simpl; auto). apply after_device_unassigned; discriminate. }
  assert (Hmode : test_train cfg || test_only cfg = true ->
                  self w1 !! "classnames" = None).
  { intros Hm.
    pose proof (build_data_loader_test_mode env cfg (after_device d cfg l)
                  (after_device_cfg d cfg l) Hm) as Hc.
    rewrite Hdl in Hc. cbn [fst] in Hc. rewrite Hc.
    apply after_device_unassigned; discriminate. }
  unfold build_model in Hbm. rewrite (bind_get_cfg cfg _ w1 Hcfg1) in Hbm.
  inv_bind_val Hbm w3 cn Hcn. apply get_classnames_ok_inv in Hcn as [-> Hcn].
  rewrite bind_print in Hbm.
  inv_bind_val Hbm w4 u1 Hnet. inv_bind_val Hbm w5 u2 Htrain. clear Hbm.
  assert (Hmode' : test_train cfg || test_only cfg = false).
  { destruct (test_train cfg || test_only cfg); [|reflexivity].
    rewrite Hmode in Hcn by reflexivity. discriminate. }
  match type of Hnet with
  | _ ?wa = _ =>
      pose proof (framed_network_without_clip ["cfg"; "neck"] env cfg
                    (length cn) Hclip
                    ltac:(simpl; intuition (subst; discriminate)) wa)
        as (Hk4 & _)
  end.
  rewrite Hnet in Hk4. cbn [fst self] in Hk4.
  destruct (zero_shot cfg) eqn:Hzs.
  - unfold build_model_network in Hnet. rewrite Hzs, Hclip in Hnet.
    rewrite bind_raise_l in Hnet. discriminate.
  - unfold build_model_training in Htrain.
    rewrite <- orb_assoc, Hzs, Hmode' in Htrain. cbn [orb negb] in Htrain.
    inv_bind_val Htrain w6 u3 Hopt. destruct u3.
    apply (build_optimizer_reads_neck cfg) in Hopt as [n Hn]; [| |exact Hloss].
    + rewrite Hk4 in Hn by (simpl; auto). congruence.
    + rewrite Hk4 by (simpl; auto). exact Hcfg1.
Qed.

(** ** What a constructed trainer holds *)

(** The steps that a successful [__init__] has gone through. *)
Lemma Trainer_init_ok_steps env cfg w :
  Trainer_init env cfg fresh = (w, Ok tt) ->
  exists d l w1 w2,
    build_data_loader env (after_device d cfg l) = (w1, Ok tt)
    /\ build_model env w1 = (w2, Ok tt)
    /\ w = mkWorld (<["_writer" := PNone]>
                      (<["evaluator" := PEvaluator []]> (self w2))) (out w2)
    /\ self w1 !! "cfg" = Some (PCfg cfg)
    /\ test_train cfg || test_only cfg = false.
Proof.
  intros H.
  destruct (Trainer_init_prefix env cfg) as [(_ & msg & Heq) | (_ & Heq)];
    rewrite Heq in H; [discriminate|]. clear Heq.
  set (d := device_name env cfg) in *. set (l := device_events env cfg) in *.
  inv_bind_as H w1 Hdl.
  inv_bind_as H w2 Hbm.
  inv_bind_as H w3 Hev. apply setattr_ok_inv in Hev, H. subst.
  exists d, l, w1, w2.
  assert (Hfree : forall k, In k ["cfg"] -> ~ In k loader_attrs).
  { simpl. intuition (subst; discriminate). }
  destruct (framed_build_data_loader _ any_event Hfree
              ltac:(reflexivity) ltac:(reflexivity) env (after_device d cfg l))
    as (Hk1 & _).
  rewrite Hdl in Hk1. cbn [fst] in Hk1.
  assert (Hcfg1 : self w1 !! "cfg" = Some (PCfg cfg)).
  { rewrite Hk1 by (simpl; auto). apply after_device_cfg. }
  repeat split; try assumption.
  destruct (test_train cfg || test_only cfg) eqn:Hm; [|reflexivity].
  pose proof (build_data_loader_test_mode env cfg (after_device d cfg l)
                (after_device_cfg d cfg l) Hm) as Hc.
  rewrite Hdl in Hc. cbn [fst] in Hc.
  unfold build_model in Hbm. rewrite (bind_get_cfg cfg _ w1 Hcfg1) in Hbm.
  inv_bind_val Hbm w3 cn Hcn. apply get_classnames_ok_inv in Hcn as [-> Hcn].
  rewrite Hc, after_device_unassigned in Hcn by discriminate. discriminate.
Qed.

Lemma build_model_ok_steps env cfg w1 w2 :
  self w1 !! "cfg" = Some (PCfg cfg) ->
  build_model env w1 = (w2, Ok tt) ->
  exists cn wa wb,
    self w1 !! "classnames" = Some (PStrList cn)
    /\ build_model_network env cfg (length cn)
         (mkWorld (self w1) (out w1 ++ [EPrint "Building model"])) = (wa, Ok tt)
    /\ build_model_training env cfg wa = (wb, Ok tt)
    /\ build_model_parallel env cfg wb = (w2, Ok tt).
Proof.
  intros Hcfg Hbm.
  unfold build_model in Hbm. rewrite (bind_get_cfg cfg _ w1 Hcfg) in Hbm.
  inv_bind_val Hbm w3 cn Hcn. apply get_classnames_ok_inv in Hcn as [-> Hcn].
  rewrite bind_print in Hbm.
  inv_bind_val Hbm wa u1 Hnet. inv_bind_val Hbm wb u2 Htrain.
  destruct u1, u2. eauto 8.
Qed.

Lemma model_frame_cfg env cfg n w :
  self (fst (build_model_network env cfg n w)) !! "cfg" = self w !! "cfg".
Proof.
  assert (Hfree : forall k, In k ["cfg"] -> ~ In k model_attrs).
  { simpl. intuition (subst; discriminate). }
  destruct (framed_build_model_network _ any_event Hfree
              ltac:(reflexivity) ltac:(reflexivity) env cfg n w) as (Hk & _).
  apply Hk. simpl. auto.
Qed.

Lemma build_data_loader_ok_inv env cfg w w1 :
  self w !! "cfg" = Some (PCfg cfg) ->
  build_data_loader env w = (w1, Ok tt) ->
  exists l wd,
    build_data_loader_datasets env cfg (choose_transform_test cfg)
      (mkWorld (self w) (out w ++ l)) = (wd, Ok tt)
    /\ micro_batch_size cfg <> 0%Z
    /\ (batch_size cfg mod micro_batch_size cfg = 0)%Z
    /\ w1 = mkWorld (<["accum_step" := PInt (batch_size cfg / micro_batch_size cfg)]>
                       (self wd)) (out wd).
Proof.
  intros Hcfg H. unfold build_data_loader in H.
  rewrite (bind_get_cfg cfg _ w Hcfg) in H.
  match type of H with
  | bind (if String.prefix _ _ then _ else _) ?k ?w0 = _ =>
      destruct (mean_std_prints cfg k w0) as (l & _ & _ & Heq)
  end.
  rewrite Heq in H. clear Heq.
  inv_bind_val H wd u Hds. destruct u.
  exists l, wd. split; [exact Hds|].
  unfold py_mod, py_floordiv in H.
  destruct (Z.eqb_spec (micro_batch_size cfg) 0) as [Hz|Hnz].
  { rewrite bind_lift_raise in H. discriminate. }
  rewrite bind_lift_ok in H.
  destruct (Z.eqb_spec (batch_size cfg mod micro_batch_size cfg) 0) as [Hm|Hm].
  - rewrite bind_ret, bind_lift_ok in H. apply setattr_ok_inv in H.
    auto.
  - rewrite bind_raise_l in H. discriminate.
Qed.

(** X15. Without CUDA the trainer cannot be constructed for training, nor
    at all on [fgvc100]: [load_fgvc100] moves its oracle network to the
    accelerator and [build_criterion] does the same with the confidence
    matrix, whatever device [__init__] has selected. *)
Theorem cuda_needed env cfg :
  cuda_available env = false ->
  zero_shot cfg = false \/ dataset cfg = "fgvc100" ->
  exists w e, Trainer_init env cfg fresh = (w, Raise e).
Proof.
  intros Hcuda Hcase.
  destruct (Trainer_init env cfg fresh) as [w [[]|e]] eqn:H; [exfalso | eauto].
  apply Trainer_init_ok_steps in H
    as (d & l & w1 & w2 & Hdl & Hbm & _ & Hcfg1 & Hmode).
  destruct (build_model_ok_steps env cfg w1 w2 Hcfg1 Hbm)
    as (cn & wa & wb & Hcn & Hnet & Htrain & _).
  destruct (zero_shot cfg) eqn:Hzs.
  - destruct Hcase as [Hz | Hds]; [discriminate|].
    apply (build_data_loader_ok_inv env cfg) in Hdl
      as (l2 & wd & Hd & _); [|apply after_device_cfg].
    unfold build_data_loader_datasets in Hd.
    rewrite Hmode, Hds in Hd. cbn [negb] in Hd.
    change (("fgvc100" =? "fgvc100")%string) with true in Hd. cbv iota in Hd.
    inv_bind_val Hd w3 t Ht. inv_bind_val Hd w4 b Hload.
    apply load_fgvc100_ok_facts in Hload as (_ & Hcu & _). congruence.
  - unfold build_model_training in Htrain.
    rewrite <- orb_assoc, Hzs, Hmode in Htrain. cbn [orb negb] in Htrain.
    inv_bind_val Htrain w3 u1 Hopt. inv_bind_val Htrain w4 u2 Hcrit.
    unfold build_criterion in Hcrit.
    inv_bind_val Hcrit w5 c Hc. rewrite bind_print in Hcrit.
    inv_bind_val Hcrit w6 P HP.
    unfold cuda in Hcrit. rewrite Hcuda, bind_raise_l in Hcrit. discriminate.
Qed.

(** X16. On every constructed trainer [accum_step] is assigned, the
    micro-batch size is not zero, and [accum_step] micro-batches make up
    exactly one batch. *)
Theorem accum_step_invariant env cfg w :
  Trainer_init env cfg fresh = (w, Ok tt) ->
  exists q,
    self w !! "accum_step" = Some (PInt q)
    /\ micro_batch_size cfg <> 0%Z
    /\ (q * micro_batch_size cfg = batch_size cfg)%Z.
Proof.
  intros H.
  apply Trainer_init_ok_steps in H
    as (d & l & w1 & w2 & Hdl & Hbm & -> & Hcfg1 & Hmode).
  apply (build_data_loader_ok_inv env cfg) in Hdl
    as (l2 & wd & _ & Hnz & Hmod & ->); [|apply after_device_cfg].
  assert (Hfree : forall k, In k ["accum_step"] -> ~ In k model_attrs).
  { simpl. intuition (subst; discriminate). }
  match type of Hbm with
  | build_model env ?w1 = _ =>
      destruct (framed_build_model _ any_event Hfree
                  ltac:(reflexivity) ltac:(reflexivity) ltac:(reflexivity)
                  ltac:(reflexivity) env w1) as (Hk & _)
  end.
  rewrite Hbm in Hk. cbn [fst self] in Hk.
  exists (batch_size cfg / micro_batch_size cfg)%Z.
  split; [|split; [exact Hnz|]].
  - cbn [self]. rewrite !lookup_insert_ne by done.
    rewrite Hk by (simpl; auto). apply lookup_insert_eq.
  - pose proof (Z.div_mod (batch_size cfg) (micro_batch_size cfg) Hnz). lia.
Qed.

Lemma get_cfg_ok_inv w w' c :
  get_cfg w = (w', Ok c) -> w' = w /\ self w !! "cfg" = Some (PCfg c).
Proof.
  unfold get_cfg, bind, getattr.
  destruct (self w !! "cfg") as [[]|]; simpl; intros H; inversion H.
  auto.
Qed.

Lemma get_partialY_ok_inv w w' P :
  get_partialY w = (w', Ok P) -> w' = w /\ self w !! "partialY" = Some (PTensor P).
Proof.
  unfold get_partialY, bind, getattr.
  destruct (self w !! "partialY") as [[]|]; simpl; intros H; inversion H.
  auto.
Qed.

Lemma cuda_ok_inv b what w w' a :
  cuda b what w = (w', Ok a) -> b = true /\ self w' = self w.
Proof.
  unfold cuda. destruct b; intros H; inversion H. auto.
Qed.

Lemma build_criterion_ok_inv env w w' :
  build_criterion env w = (w', Ok tt) ->
  exists P,
    self w !! "partialY" = Some (PTensor P)
    /\ self w' !! "partialY" = Some (PTensor P)
    /\ self w' !! "confidence" = Some (PConfidence (uniform_targets P)).
Proof.
  intros H. unfold build_criterion in H.
  inv_bind_val H w1 c Hc. apply get_cfg_ok_inv in Hc as [-> _].
  rewrite bind_print in H.
  inv_bind_val H w2 P HP. apply get_partialY_ok_inv in HP as [-> HP].
  cbn [self] in HP.
  inv_bind_val H w3 u Hcu. apply cuda_ok_inv in Hcu as [_ Hs3].
  cbn [self] in Hs3.
  rewrite bind_setattr in H.
  match type of H with
  | ?m ?w0 = _ =>
      assert (Hf : framed ["partialY"; "confidence"] any_event m)
        by (unfold to_device; frames);
      destruct (Hf w0) as (Hk & _)
  end.
  rewrite H in Hk. cbn [fst self] in Hk.
  exists P. split; [exact HP|]. split.
  - rewrite Hk by (simpl; auto). rewrite lookup_insert_ne, Hs3 by done.
    exact HP.
  - rewrite Hk by (simpl; auto). apply lookup_insert_eq.
Qed.

Lemma framed_init_head_keeps ks env cfg :
  framed ks any_event (build_model_init_head env cfg).
Proof.
  unfold build_model_init_head, init_head_text_feat, init_head_class_mean,
    init_head_linear_probe, extract_init_features, get_tokenized_prompts,
    encode_text.
  frames.
Qed.

Lemma framed_parallel_keeps ks env cfg :
  ~ In "model" ks -> framed ks any_event (build_model_parallel env cfg).
Proof. intros Hm. unfold build_model_parallel. frames. Qed.

(** X17. On every trainer constructed for training (not zero-shot) the
    stored confidence is the row-normalised candidate matrix [partialY] of
    the same trainer: head initialisation and the multi-GPU wrapping leave
    both alone. *)
Theorem confidence_invariant env cfg w :
  Trainer_init env cfg fresh = (w, Ok tt) ->
  zero_shot cfg = false ->
  exists P,
    self w !! "partialY" = Some (PTensor P)
    /\ self w !! "confidence" = Some (PConfidence (uniform_targets P)).
Proof.
  intros H Hzs.
  apply Trainer_init_ok_steps in H
    as (d & l & w1 & w2 & Hdl & Hbm & -> & Hcfg1 & Hmode).
  destruct (build_model_ok_steps env cfg w1 w2 Hcfg1 Hbm)
    as (cn & wa & wb & Hcn & Hnet & Htrain & Hpar).
  unfold build_model_training in Htrain.
  rewrite <- orb_assoc, Hzs, Hmode in Htrain. cbn [orb negb] in Htrain.
  inv_bind_val Htrain w3 u1 Hopt. inv_bind_val Htrain w4 u2 Hcrit.
  inv_bind_val Htrain w5 u3 Hhead. destruct u2.
  apply build_criterion_ok_inv in Hcrit as (P & _ & HP & Hconf).
  pose proof (framed_init_head_keeps ["partialY"; "confidence"] env cfg w4)
    as (Hk5 & _).
  rewrite Hhead in Hk5. cbn [fst] in Hk5.
  unfold emit in Htrain. inversion Htrain; subst wb. clear Htrain.
  pose proof (framed_parallel_keeps ["partialY"; "confidence"] env cfg
                ltac:(simpl; intuition discriminate)
                (mkWorld (self w5) (out w5 ++ [EEmptyCache]))) as (Hk2 & _).
  rewrite Hpar in Hk2. cbn [fst self] in Hk2.
  exists P. cbn [self]. rewrite !lookup_insert_ne by done.
  rewrite !Hk2, !Hk5 by (simpl; auto). auto.
Qed.

Lemma store_bundle_ok_inv b w w' :
  store_bundle b w = (w', Ok tt) ->
  self w' = <["classnames" := PStrList (b_classnames b)]>
              (<["num_classes" := PInt (Z.of_nat (b_num_classes b))]>
                (<["num_instances" := PInt (Z.of_nat (b_num_instances b))]>
                  (<["test_loader" := PTestLoader (b_test_loader b)]>
                    (<["partialY" := PTensor (b_partialY b)]>
                      (<["train_loader" := PTrainLoader (b_train_loader b)]>
                        (self w)))))).
Proof.
  unfold store_bundle. run. unfold print, emit. intros H.
  inversion H. reflexivity.
Qed.

(** X18. On a trainer constructed for [fgvc100], the six attributes taken
    from [load_fgvc100] are the values it computed: the candidate matrix of
    the generator, the number of samples, the number of class names, and
    the loaders over the training and the test set. The indexing of line 44
    has accepted the matrix: its number of rows and the number of labels
    are equal or one of them is 1, and once it has a row it has a column
    for every true label. *)
Theorem fgvc100_trainer_attributes env cfg w :
  Trainer_init env cfg fresh = (w, Ok tt) ->
  dataset cfg = "fgvc100" ->
  let e := fgvc_env env in
  let P := generate_instancedependent_candidate_labels e (fgvc_labels e) (1 # 10)%Q in
  self w !! "partialY" = Some (PTensor P)
  /\ (length (fgvc_labels e) = length P
      \/ length P = 1 \/ length (fgvc_labels e) = 1)
  /\ (0 < length P -> Forall (fun y => y < ncols P) (fgvc_labels e))
  /\ self w !! "num_instances" = Some (PInt (Z.of_nat (length (fgvc_labels e))))
  /\ (exists classnames,
        fgvc_classnames e = Some classnames
        /\ self w !! "classnames" = Some (PStrList classnames)
        /\ self w !! "num_classes" = Some (PInt (Z.of_nat (length classnames))))
  /\ (exists train test,
        self w !! "train_loader" = Some (PTrainLoader train)
        /\ self w !! "test_loader" = Some (PTestLoader test)
        /\ ds_len (dl_dataset train) = length (fgvc_labels e)
        /\ dl_batch_size train = Z.to_nat (batch_size cfg)
        /\ dl_batch_size test = Z.to_nat (batch_size cfg)).
Proof.
  intros H Hds e P.
  apply Trainer_init_ok_steps in H
    as (d & l & w1 & w2 & Hdl & Hbm & -> & Hcfg1 & Hmode).
  apply (build_data_loader_ok_inv env cfg) in Hdl
    as (l2 & wd & Hd & _ & _ & ->); [|apply after_device_cfg].
  unfold build_data_loader_datasets in Hd.
  rewrite Hmode, Hds in Hd. cbn [negb] in Hd.
  change (("fgvc100" =? "fgvc100")%string) with true in Hd. cbv iota in Hd.
  inv_bind_val Hd w3 t Ht. inv_bind_val Hd w4 b Hload.
  apply load_fgvc100_ok_facts in Hload
    as (_ & _ & Hlen & Hlab & cn & Hcn & ->).
  apply store_bundle_ok_inv in Hd. cbn [b_classnames b_num_classes
    b_num_instances b_test_loader b_partialY b_train_loader] in Hd.
  assert (Hfree : forall k, In k ["train_loader"; "partialY"; "test_loader";
                                  "num_instances"; "num_classes"; "classnames"] ->
                            ~ In k model_attrs).
  { simpl. intuition (subst; discriminate). }
  match type of Hbm with
  | build_model env ?w1 = _ =>
      destruct (framed_build_model _ any_event Hfree
                  ltac:(reflexivity) ltac:(reflexivity) ltac:(reflexivity)
                  ltac:(reflexivity) env w1) as (Hk & _)
  end.
  rewrite Hbm in Hk. cbn [fst self] in Hk.
  assert (Hget : forall k, In k ["train_loader"; "partialY"; "test_loader";
                                 "num_instances"; "num_classes"; "classnames"] ->
                 self (mkWorld (<["_writer" := PNone]>
                                  (<["evaluator" := PEvaluator []]> (self w2)))
                               (out w2)) !! k
                 = self wd !! k).
  { intros k Hin. cbn [self].
    assert (k <> "_writer" /\ k <> "evaluator" /\ k <> "accum_step") as (? & ? & ?).
    { repeat split; intros ->; simpl in Hin; intuition discriminate. }
    rewrite !lookup_insert_ne by congruence.
    rewrite Hk by exact Hin. rewrite lookup_insert_ne by congruence.
    reflexivity. }
  fold e in Hlen, Hlab, Hcn. fold P in Hlen, Hlab.
  split; [|split; [|split; [|split; [|split]]]].
  - rewrite Hget by (simpl; tauto). rewrite Hd.
    repeat (rewrite lookup_insert_ne by done). apply lookup_insert_eq.
  - exact Hlen.
  - exact Hlab.
  - rewrite Hget by (simpl; tauto). rewrite Hd.
    repeat (rewrite lookup_insert_ne by done). apply lookup_insert_eq.
  - exists cn. split; [exact Hcn|]. split.
    + rewrite Hget by (simpl; tauto). rewrite Hd. apply lookup_insert_eq.
    + rewrite Hget by (simpl; tauto). rewrite Hd.
      repeat (rewrite lookup_insert_ne by done). apply lookup_insert_eq.
  - eexists _, _. split; [|split; [|split; [|split]]].
    + rewrite Hget by (simpl; tauto). rewrite Hd.
      repeat (rewrite lookup_insert_ne by done). apply lookup_insert_eq.
    + rewrite Hget by (simpl; tauto). rewrite Hd.
      repeat (rewrite lookup_insert_ne by done). apply lookup_insert_eq.
    + reflexivity.
    + reflexivity.
    + reflexivity.
Qed.

Lemma zero_shot_network_ok_inv env cfg n w w' :
  zero_shot cfg = true ->
  build_model_network env cfg n w = (w', Ok tt) ->
  self w' !! "tuner" = Some PNone /\ self w' !! "head" = Some PNone.
Proof.
  intros Hzs H. unfold build_model_network in H. rewrite Hzs in H.
  inv_bind_val H w1 u1 Hassert.
  rewrite bind_print in H.
  inv_bind_val H w2 u2 Hclip. inv_bind_val H w3 m Hm.
  rewrite bind_setattr in H.
  inv_bind_val H w4 u3 Hdev. apply to_device_ok_inv in Hdev.
  rewrite !bind_setattr in H.
  unfold get_tokenized_prompts in H. apply to_device_ok_inv in H.
  rewrite H. cbn [self]. split.
  - rewrite lookup_insert_ne by done. apply lookup_insert_eq.
  - apply lookup_insert_eq.
Qed.

(** X19. A zero-shot trainer has neither tuner nor head ([None] in both
    attributes), so it can neither save nor load a checkpoint: [save_model]
    fails on [state_dict] before anything is written, and [load_model] of
    a checkpoint that exists and holds both blobs fails on
    [load_state_dict]. *)
Theorem zero_shot_trainer_has_no_state env cfg w :
  Trainer_init env cfg fresh = (w, Ok tt) ->
  zero_shot cfg = true ->
  self w !! "tuner" = Some PNone
  /\ self w !! "head" = Some PNone
  /\ (forall torch_save directory,
        save_model torch_save directory w
        = (w, Raise (AttributeError "state_dict")))
  /\ (forall directory checkpoint,
        files env !! path_join directory "checkpoint.pth.tar" = Some checkpoint ->
        is_Some (checkpoint !! "tuner") ->
        is_Some (checkpoint !! "head") ->
        snd (load_model env directory w) = Raise (AttributeError "load_state_dict")).
Proof.
  intros H Hzs.
  apply Trainer_init_ok_steps in H
    as (d & l & w1 & w2 & Hdl & Hbm & -> & Hcfg1 & Hmode).
  destruct (build_model_ok_steps env cfg w1 w2 Hcfg1 Hbm)
    as (cn & wa & wb & Hcn & Hnet & Htrain & Hpar).
  apply (zero_shot_network_ok_inv env cfg _ _ _ Hzs) in Hnet as [Ht Hh].
  unfold build_model_training in Htrain. rewrite Hzs in Htrain.
  cbn [orb negb] in Htrain. inversion Htrain; subst wb. clear Htrain.
  pose proof (framed_parallel_keeps ["tuner"; "head"] env cfg
                ltac:(simpl; intuition discriminate) wa) as (Hk2 & _).
  rewrite Hpar in Hk2. cbn [fst] in Hk2.
  assert (Hdev : is_Some (self w2 !! "device")).
  { assert (Hfree1 : forall k, In k ["device"] -> ~ In k loader_attrs).
    { simpl. intuition (subst; discriminate). }
    assert (Hfree2 : forall k, In k ["device"] -> ~ In k model_attrs).
    { simpl. intuition (subst; discriminate). }
    destruct (framed_build_data_loader _ any_event Hfree1
                ltac:(reflexivity) ltac:(reflexivity) env (after_device d cfg l))
      as (Hk & _).
    rewrite Hdl in Hk. cbn [fst] in Hk.
    destruct (framed_build_model _ any_event Hfree2
                ltac:(reflexivity) ltac:(reflexivity) ltac:(reflexivity)
                ltac:(reflexivity) env w1) as (Hk' & _).
    rewrite Hbm in Hk'. cbn [fst] in Hk'.
    rewrite Hk', Hk by (simpl; auto). unfold after_device. cbn [self].
    rewrite lookup_insert_ne by done. rewrite lookup_insert_eq. eauto. }
  destruct Hdev as [dev Hdev].
  assert (Ht' : self w2 !! "tuner" = Some PNone)
    by (rewrite Hk2 by (simpl; auto); exact Ht).
  assert (Hh' : self w2 !! "head" = Some PNone)
    by (rewrite Hk2 by (simpl; auto); exact Hh).
  split; [|split; [|split]].
  - cbn [self]. rewrite !lookup_insert_ne by done. exact Ht'.
  - cbn [self]. rewrite !lookup_insert_ne by done. exact Hh'.
  - intros torch_save directory. unfold save_model, get_module. run.
    reflexivity.
  - intros directory checkpoint Hfile [td Htd] [hd Hhd].
    unfold load_model. cbv zeta. rewrite Hfile.
    unfold dict_get, load_state_dict, get_module. rewrite Htd, Hhd.
    run. reflexivity.
Qed.

(** ** Head initialisation from text features *)

Lemma init_head_text_feat_needs_prompt env cfg w w' :
  self w !! "cfg" = Some (PCfg cfg) ->
  str_in (prompt cfg) known_prompts = false ->
  init_head_text_feat env w <> (w', Ok tt).
Proof.
  intros Hcfg Hp H. unfold init_head_text_feat in H.
  rewrite (bind_get_cfg cfg _ w Hcfg) in H.
  inv_bind_val H w1 cn Hcn. rewrite bind_print in H.
  unfold known_prompts, str_in in Hp. cbn [existsb] in Hp.
  repeat (apply orb_false_elim in Hp as [? Hp]).
  repeat match goal with
         | Hx : (_ =? _)%string = false |- _ => rewrite Hx in H; clear Hx
         end.
  rewrite bind_ret in H.
  inv_bind_val H w2 u Hproj. inv_bind_val H w3 h Hh.
  discriminate.
Qed.

(** X20. [init_head_text_feat] binds [text_features] only for the prompts
    ensemble, descriptor, classname and default: with [init_head] set to
    [text_feat] and any other prompt, no trainer is constructed for
    training. *)
Theorem text_feat_unknown_prompt env cfg :
  init_head cfg = "text_feat" ->
  str_in (prompt cfg) known_prompts = false ->
  zero_shot cfg = false ->
  exists w e, Trainer_init env cfg fresh = (w, Raise e).
Proof.
  intros Hinit Hp Hzs.
  destruct (Trainer_init env cfg fresh) as [w [[]|e]] eqn:H; [exfalso | eauto].
  apply Trainer_init_ok_steps in H
    as (d & l & w1 & w2 & Hdl & Hbm & _ & Hcfg1 & Hmode).
  destruct (build_model_ok_steps env cfg w1 w2 Hcfg1 Hbm)
    as (cn & wa & wb & Hcn & Hnet & Htrain & _).
  unfold build_model_training in Htrain.
  rewrite <- orb_assoc, Hzs, Hmode in Htrain. cbn [orb negb] in Htrain.
  inv_bind_val Htrain w3 u1 Hopt. inv_bind_val Htrain w4 u2 Hcrit.
  inv_bind_val Htrain w5 u3 Hhead. destruct u3.
  assert (Hfree : forall k, In k ["cfg"] -> ~ In k model_attrs).
  { simpl. intuition (subst; discriminate). }
  assert (Hcfg4 : self w4 !! "cfg" = Some (PCfg cfg)).
  { destruct (framed_build_criterion _ any_event Hfree
                ltac:(reflexivity) ltac:(reflexivity) env w3) as (Hk4 & _).
    rewrite Hcrit in Hk4. cbn [fst] in Hk4.
    destruct (framed_build_optimizer _ any_event Hfree
                ltac:(reflexivity) wa) as (Hk3 & _).
    rewrite Hopt in Hk3. cbn [fst] in Hk3.
    pose proof (model_frame_cfg env cfg (length cn)
                  (mkWorld (self w1) (out w1 ++ [EPrint "Building model"])))
      as Hka.
    rewrite Hnet in Hka. cbn [fst self] in Hka.
    rewrite Hk4, Hk3, Hka by (simpl; auto). exact Hcfg1. }
  unfold build_model_init_head in Hhead. rewrite Hinit in Hhead.
  change (("text_feat" =? "text_feat")%string) with true in Hhead.
  cbv iota in Hhead.
  exact (init_head_text_feat_needs_prompt env cfg w4 w5 Hcfg4 Hp Hhead).
Qed.

(** ** The CLIP registry key *)

Lemma lstrip_spec (chars : list ascii) (s : string) :
  exists p,
    s = (p ++ lstrip chars s)%string
    /\ forallb (fun c => existsb (Ascii.eqb c) chars) (list_ascii_of_string p) = true
    /\ starts_with_any chars (lstrip chars s) = false.
Proof.
  induction s as [|c s IH]; simpl.
  - exists EmptyString. auto.
  - destruct (existsb (Ascii.eqb c) chars) eqn:Hc.
    + destruct IH as (p & Hs & Hp & Hstart).
      exists (String c p). simpl. rewrite Hc, Hp.
      split; [rewrite Hs at 1; reflexivity | auto].
    + exists EmptyString. simpl. rewrite Hc. auto.
Qed.

(** X21. [load_clip_to_cpu] looks the model up under the backbone name
    with every leading character among C, L, I, P and [-] removed, not
    with the prefix [CLIP-] removed: the key it finds never starts with one
    of these characters, so a registered model whose name does is out of
    reach under every backbone name. *)
Theorem load_clip_to_cpu_key env backbone_name prec :
  load_clip_to_cpu env backbone_name prec = Ok tt ->
  exists p key,
    backbone_name = (p ++ key)%string
    /\ forallb (fun c => existsb (Ascii.eqb c) clip_chars)
               (list_ascii_of_string p) = true
    /\ starts_with_any clip_chars key = false
    /\ clip_MODELS env key = true
    /\ clip_build env key = Ok tt
    /\ str_in prec ["fp16"; "fp32"; "amp"] = true.
Proof.
  unfold load_clip_to_cpu. cbv zeta. fold clip_chars. intros H.
  destruct (lstrip_spec clip_chars backbone_name) as (p & Hs & Hp & Hstart).
  exists p, (lstrip clip_chars backbone_name).
  destruct (clip_MODELS env (lstrip clip_chars backbone_name)); [|discriminate].
  cbn [negb] in H.
  destruct (clip_build env (lstrip clip_chars backbone_name)) as [[]|e];
    [|discriminate].
  destruct (str_in prec ["fp16"; "fp32"; "amp"]); [|discriminate].
  auto 10.
Qed.

(** ** The ViT backbones *)

Lemma load_vit_to_cpu_ok_inv env backbone_name prec :
  load_vit_to_cpu env backbone_name prec = Ok tt ->
  str_in backbone_name known_vit_backbones = true
  /\ timm_build env backbone_name = Ok tt
  /\ str_in prec ["fp16"; "fp32"; "amp"] = true.
Proof.
  unfold load_vit_to_cpu, known_vit_backbones. cbv zeta.
  destruct (str_in backbone_name
              ["IN21K-ViT-B/16"; "IN21K-ViT-B/16@384px"; "IN21K-ViT-L/16"]).
  - destruct (timm_build env backbone_name) as [[]|e]; [|discriminate].
    destruct (str_in prec ["fp16"; "fp32"; "amp"]); [auto|discriminate].
  - destruct (str_in prec ["fp16"; "fp32"; "amp"]); discriminate.
Qed.

Lemma prefix_vit_not_clip (s : string) :
  String.prefix "IN21K-ViT" s = true -> String.prefix "CLIP" s = false.
Proof.
  destruct s as [|c s]; [discriminate|].
  cbn [String.prefix].
  destruct (Ascii.ascii_dec "I" c) as [<-|Hne]; intros H;
    [reflexivity | discriminate H].
Qed.

(** X22. [load_vit_to_cpu] binds its model for three backbone names only:
    with any other name that starts with [IN21K-ViT], no trainer is
    constructed. *)
Theorem unknown_vit_backbone_no_trainer env cfg :
  String.prefix "IN21K-ViT" (backbone cfg) = true ->
  str_in (backbone cfg) known_vit_backbones = false ->
  exists w e, Trainer_init env cfg fresh = (w, Raise e).
Proof.
  intros Hvit Hname.
  pose proof (prefix_vit_not_clip _ Hvit) as Hclip.
  destruct (Trainer_init env cfg fresh) as [w [[]|e]] eqn:H; [exfalso | eauto].
  apply Trainer_init_ok_steps in H
    as (d & l & w1 & w2 & Hdl & Hbm & _ & Hcfg1 & Hmode).
  destruct (build_model_ok_steps env cfg w1 w2 Hcfg1 Hbm)
    as (cn & wa & wb & Hcn & Hnet & _).
  unfold build_model_network in Hnet. rewrite Hclip, Hvit in Hnet.
  destruct (zero_shot cfg).
  - rewrite bind_raise_l in Hnet. discriminate.
  - rewrite bind_print in Hnet.
    inv_bind_val Hnet w3 u Hload. apply lift_ok_inv in Hload as [Hload _].
    destruct u. apply load_vit_to_cpu_ok_inv in Hload as (Hknown & _).
    congruence.
Qed.

(** ** The small instance, continued *)

Lemma test_loader_covers_test_set_witness :
  let batches := epoch_indices (b_test_loader ex_bundle) [] in
  concat batches = seq 0 2
  /\ Forall (fun batch => 0 < length batch <= 2) batches.
Proof.
  apply (test_loader_covers_test_set true (ex_fgvc ex_generate) ex_cfg
           CenterCrop fresh
           (mkWorld ∅ [EPrint "3"; ECuda "wide_resnet50_2";
                       EPrint "data loading done !"])
           ex_bundle []).
  vm_compute. reflexivity.
Defined.

Lemma train_loader_full_batches_witness :
  let batches := epoch_indices (b_train_loader ex_bundle) [4; 2; 0; 1; 3] in
  Forall (fun batch => length batch = 2) batches
  /\ length batches = 5 / 2.
Proof.
  apply (train_loader_full_batches true (ex_fgvc ex_generate) ex_cfg
           CenterCrop fresh
           (mkWorld ∅ [EPrint "3"; ECuda "wide_resnet50_2";
                       EPrint "data loading done !"])
           ex_bundle [4; 2; 0; 1; 3]).
  - vm_compute. reflexivity.
  - reflexivity.
Defined.

Lemma partialize_getitem_index_witness :
  exists row,
    b_partialY ex_bundle !! 3 = Some row
    /\ ds_getitem (dl_dataset (b_train_loader ex_bundle)) 3
       = Ok (mkTrainSample row 0 3)
    /\ ds_getitem (dl_dataset (b_train_loader ex_bundle)) 5 = Raise IndexError.
Proof.
  destruct (partialize_getitem_index true (ex_fgvc ex_generate) ex_cfg
              CenterCrop fresh
              (mkWorld ∅ [EPrint "3"; ECuda "wide_resnet50_2";
                          EPrint "data loading done !"])
              ex_bundle) as (_ & _ & Hitem & Hpast).
  - vm_compute. reflexivity.
  - reflexivity.
  - edestruct (Hitem eq_refl 3 0) as (row & Hrow & Hget);
      [reflexivity | reflexivity | reflexivity |].
    exists row. split; [exact Hrow|]. split; [exact Hget|].
    apply Hpast. simpl. lia.
Defined.

Lemma test_only_touches_evaluator_witness :
  self (fst (test (ex_env ex_generate) "test" ex_trainer)) !! "head"
  = Some (PModule (mkModule (state_dict ex_head) false))
  /\ self (fst (test (ex_env ex_generate) "test" ex_trainer)) !! "confidence"
     = self ex_trainer !! "confidence".
Proof.
  destruct (test_only_touches_evaluator (ex_env ex_generate) "test" ex_trainer)
    as (Hk & _ & _ & Hh & _).
  split.
  - apply Hh.
    + vm_compute. reflexivity.
    + right. eexists. vm_compute. reflexivity.
  - apply Hk; discriminate.
Defined.

Lemma test_feeds_evaluator_witness :
  exists seen,
    Forall2 (batch_result (dl_dataset (b_test_loader ex_bundle)) ex_model)
            (epoch_indices (b_test_loader ex_bundle) []) seen
    /\ self (fst (test (ex_env ex_generate) "test" ex_trainer)) !! "evaluator"
       = Some (PEvaluator seen)
    /\ exists name rest,
         evaluate (ex_env ex_generate) seen = (name, (1 # 1)%Q) :: rest.
Proof.
  apply (test_feeds_evaluator (ex_env ex_generate) ex_trainer
           (fst (test (ex_env ex_generate) "test" ex_trainer)) (1 # 1)%Q
           (b_test_loader ex_bundle) ex_model).
  - vm_compute. reflexivity.
  - vm_compute. reflexivity.
  - vm_compute. reflexivity.
Defined.

Lemma test_without_writer_logs_no_scalar_witness :
  exists evs,
    out (fst (test (ex_env ex_generate) "test" ex_trainer))
    = out ex_trainer ++ evs
    /\ forallb no_add_scalar evs = true.
Proof.
  apply (test_without_writer_logs_no_scalar (ex_env ex_generate) "test"
           ex_trainer).
  vm_compute. reflexivity.
Defined.

Lemma multi_crop_vectorized_mean_witness :
  multi_crop_output ex_forward ex_image4
  = Ok (mkTensor [length ex_image4; 3] (flat_map (crop_mean ex_logits 3) ex_image4)).
Proof.
  apply (multi_crop_vectorized_mean ex_forward ex_logits
           (fun imgs => VTensor (mkTensor [length imgs; 2] (concat imgs)))
           3 4 ex_image4).
  - intros imgs. reflexivity.
  - intros img. reflexivity.
  - discriminate.
  - repeat constructor.
  - lia.
Defined.

Lemma multi_crop_loop_mean_witness :
  multi_crop_output ex_forward_tensor ex_image10
  = Ok (mkTensor [length ex_image10; 3]
          (flat_map (crop_mean ex_logits 3) ex_image10)).
Proof.
  apply (multi_crop_loop_mean ex_forward_tensor ex_logits 3 10 ex_image10).
  - intros imgs. reflexivity.
  - intros img. reflexivity.
  - discriminate.
  - repeat constructor.
  - lia.
Defined.


Lemma strip_injective_singleton (k : string) (t : Tensor) :
  strip_injective {[ k := t ]}.
Proof.
  intros k1 k2 [v1 H1] [v2 H2] _.
  apply lookup_singleton_Some in H1 as [<- _].
  apply lookup_singleton_Some in H2 as [<- _]. reflexivity.
Qed.


Lemma save_model_strips_prefix_witness :
  exists w' td hd,
    save_model (fun _ => Ok tt) "run" ex_wrapped
    = (w', Ok ("run/checkpoint.pth.tar",
               <["head" := hd]> (<["tuner" := td]> ∅)))
    /\ td !! "prompt" = Some (mkTensor [1; 1] [7%Q])
    /\ hd !! "weight" = Some (mkTensor [1; 2] [5%Q; 6%Q]).
Proof.
  destruct (save_model_strips_prefix (fun _ => Ok tt) "run" ex_wrapped
              (mkModule {[ "module.prompt" := mkTensor [1; 1] [7%Q] ]} true)
              (mkModule {[ "module.weight" := mkTensor [1; 2] [5%Q; 6%Q] ]}
                        true))
    as (w' & td & hd & Hsave & _ & Ht & Hh & _).
  - vm_compute. reflexivity.
  - vm_compute. reflexivity.
  - apply strip_injective_singleton.
  - apply strip_injective_singleton.
  - reflexivity.
  - exists w', td, hd. split; [exact Hsave|]. split.
    + apply Ht. reflexivity.
    + apply Hh. reflexivity.
Defined.

Lemma no_loader_no_trainer_witness :
  exists w',
    Trainer_init (ex_env ex_generate) (with_test_only ex_cfg true) fresh
    = (w', Raise (AttributeError "classnames"))
    /\ existsb is_cuda (out w') = false
    /\ self w' !! "model" = None.
Proof.
  destruct (no_loader_no_trainer (ex_env ex_generate)
              (with_test_only ex_cfg true))
    as (w' & e & Hrun & Hmodel & _ & Hok & Hcuda); [reflexivity|].
  destruct Hok as [-> _]; [reflexivity|].
  exists w'. split; [exact Hrun|]. split; [exact Hcuda | exact Hmodel].
Defined.

Lemma unknown_tte_mode_no_trainer_witness :
  exists w',
    Trainer_init (ex_env ex_generate) (with_tte ex_cfg "hflip") fresh
    = (w', Raise (UnboundLocalError "transform_test"))
    /\ existsb is_cuda (out w') = false
    /\ (forall k, k <> "device" -> k <> "cfg" -> self w' !! k = None).
Proof.
  destruct (unknown_tte_mode_no_trainer (ex_env ex_generate)
              (with_tte ex_cfg "hflip"))
    as (w' & e & Hrun & _ & Hok & Hrest);
    [reflexivity | reflexivity | reflexivity |].
  destruct Hok as [-> ->]; [reflexivity|].
  eexists. split; [exact Hrun|]. split; [reflexivity | exact Hrest].
Defined.

Lemma neck_loss_needs_clip_witness :
  exists w e,
    Trainer_init (ex_env ex_generate)
      (with_loss_type (with_backbone ex_cfg "IN21K-ViT-B/16") "PiCO") fresh
    = (w, Raise e).
Proof.
  apply (neck_loss_needs_clip (ex_env ex_generate)
           (with_loss_type (with_backbone ex_cfg "IN21K-ViT-B/16") "PiCO")).
  - reflexivity.
  - reflexivity.
Defined.

Lemma cuda_needed_witness :
  exists w e,
    Trainer_init (without_cuda (ex_env ex_generate)) ex_cfg fresh = (w, Raise e).
Proof.
  apply (cuda_needed (without_cuda (ex_env ex_generate)) ex_cfg).
  - reflexivity.
  - left. reflexivity.
Defined.

Lemma accum_step_invariant_witness :
  exists q,
    self ex_trainer !! "accum_step" = Some (PInt q)
    /\ micro_batch_size ex_cfg <> 0%Z
    /\ (q * micro_batch_size ex_cfg = batch_size ex_cfg)%Z.
Proof.
  apply (accum_step_invariant (ex_env ex_generate) ex_cfg ex_trainer).
  vm_compute. reflexivity.
Defined.

Lemma confidence_invariant_witness :
  exists P,
    self ex_trainer !! "partialY" = Some (PTensor P)
    /\ self ex_trainer !! "confidence" = Some (PConfidence (uniform_targets P)).
Proof.
  apply (confidence_invariant (ex_env ex_generate) ex_cfg ex_trainer).
  - vm_compute. reflexivity.
  - reflexivity.
Defined.

Lemma fgvc100_trainer_attributes_witness :
  self ex_trainer !! "partialY" = Some (PTensor (ex_generate ex_labels (1 # 10)%Q))
  /\ self ex_trainer !! "num_instances" = Some (PInt 5)
  /\ self ex_trainer !! "classnames" = Some (PStrList ["A"; "B"; "C"]).
Proof.
  destruct (fgvc100_trainer_attributes (ex_env ex_generate) ex_cfg ex_trainer)
    as (HP & _ & _ & Hn & (cn & Hcn & Hnames & _) & _).
  - vm_compute. reflexivity.
  - reflexivity.
  - split; [exact HP|]. split; [exact Hn|].
    simpl in Hcn. inversion Hcn; subst. exact Hnames.
Defined.

Lemma zero_shot_trainer_has_no_state_witness :
  self ex_trainer_zero_shot !! "tuner" = Some PNone
  /\ save_model (fun _ => Ok tt) "out" ex_trainer_zero_shot
     = (ex_trainer_zero_shot, Raise (AttributeError "state_dict"))
  /\ snd (load_model (ex_env ex_generate) "out" ex_trainer_zero_shot)
     = Raise (AttributeError "load_state_dict").
Proof.
  destruct (zero_shot_trainer_has_no_state (ex_env ex_generate)
              (with_zero_shot ex_cfg true) ex_trainer_zero_shot)
    as (Ht & _ & Hsave & Hload).
  - vm_compute. reflexivity.
  - reflexivity.
  - split; [exact Ht|]. split; [apply Hsave|].
    apply (Hload "out" ex_checkpoint).
    + vm_compute. reflexivity.
    + vm_compute. eexists. reflexivity.
    + vm_compute. eexists. reflexivity.
Defined.

Lemma text_feat_unknown_prompt_witness :
  exists w e,
    Trainer_init (ex_env ex_generate)
      (with_prompt (with_init_head ex_cfg "text_feat") "caption") fresh
    = (w, Raise e).
Proof.
  apply (text_feat_unknown_prompt (ex_env ex_generate)
           (with_prompt (with_init_head ex_cfg "text_feat") "caption")).
  - reflexivity.
  - reflexivity.
  - reflexivity.
Defined.

Lemma load_clip_to_cpu_key_witness :
  exists p key,
    "CLIP-ViT-B/16" = (p +:+ key)
    /\ forallb (fun c => existsb (Ascii.eqb c) clip_chars)
               (list_ascii_of_string p) = true
    /\ starts_with_any clip_chars key = false
    /\ clip_MODELS (ex_env ex_generate) key = true
    /\ clip_build (ex_env ex_generate) key = Ok tt
    /\ str_in "fp16" ["fp16"; "fp32"; "amp"] = true.
Proof.
  apply (load_clip_to_cpu_key (ex_env ex_generate) "CLIP-ViT-B/16" "fp16").
  reflexivity.
Defined.

Lemma unknown_vit_backbone_no_trainer_witness :
  exists w e,
    Trainer_init (ex_env ex_generate) (with_backbone ex_cfg "IN21K-ViT-H/14")
      fresh
    = (w, Raise e).
Proof.
  apply (unknown_vit_backbone_no_trainer (ex_env ex_generate)
           (with_backbone ex_cfg "IN21K-ViT-H/14")).
  - reflexivity.
  - reflexivity.
Defined.
